(** * clickonce: manifest traversal, download-and-verify, subset retrieval

    A shallow embedding of [clickonce.go] (package [clickonce]) and the
    properties of its retrieval pipeline.

    Modelling conventions
    - Go [string] is [string]; [[]byte] is [list byte]; Go [int] is [Z]
      (64-bit platform: [strconv.Atoi] range-checks against 2^63).
    - [map[string]T] is [gmap string T].  A nil [subset] map is [None],
      because the code tests [co.subset != nil]; a nil [deployedFiles] map
      behaves like the empty one everywhere it is read, so it is the empty
      [gmap].
    - Pointers that may be nil ([baseUrl], [assembly]) are [option]s.
    - The collaborators the code reaches through the Go libraries (HTTP,
      [net/url], [encoding/xml], SHA digests, the file system, the order in
      which [range] walks a map) are the fields of the class [Env]; every
      theorem holds for every instance.
    - The logger only prints; it is left out.
    - The session [co] and the outside world (requests sent, files written)
      are threaded explicitly.  The recursion
      [retrieveAllDeployedFiles] -> [retrieveDeployedFile] ->
      [subApplication] -> [retrieveAllDeployedFiles] follows manifests that
      come from the network, so it is driven by a fuel counter; [None]
      means the fuel ran out. *)

From Stdlib Require Import ZArith Ascii String DecimalString List Permutation Lia.
From Stdlib.Strings Require Import Byte.
From stdpp Require Import base option list gmap strings fin_maps.

Import ListNotations.
Local Open Scope string_scope.
Local Open Scope Z_scope.

(** ** Go library functions on strings *)

Module GoStrings.

(** [strings.Replace(s, "\\", "/", -1)]: every backslash becomes a slash. *)
Fixpoint ReplaceBackslash (s : string) : string :=
  match s with
  | EmptyString => EmptyString
  | String c r =>
      String (if Ascii.eqb c "\" then "/"%char else c) (ReplaceBackslash r)
  end.

Fixpoint containsSlash (s : string) : bool :=
  match s with
  | EmptyString => false
  | String c r => Ascii.eqb c "/" || containsSlash r
  end.

(** The loop [for len(path) > 0 && path[len(path)-1] == '/'] of [path.Base]. *)
Fixpoint stripTrailingSlashes (s : string) : string :=
  match s with
  | EmptyString => EmptyString
  | String c r =>
      match stripTrailingSlashes r with
      | EmptyString => if Ascii.eqb c "/" then EmptyString else String c EmptyString
      | r' => String c r'
      end
  end.

(** [path[i+1:]] for the last index [i] of a slash, [path] when there is none. *)
Fixpoint lastElement (s : string) : string :=
  match s with
  | EmptyString => EmptyString
  | String c r =>
      if containsSlash r then lastElement r
      else if Ascii.eqb c "/" then r else s
  end.

(** [path.Base]; [filepath.Base] is the same function where the separator
    is the slash. *)
Definition Base (path : string) : string :=
  if String.eqb path "" then "."
  else
    let p := lastElement (stripTrailingSlashes path) in
    if String.eqb p "" then "/" else p.

(** [path.Ext]: scanning from the end and stopping at a slash, the suffix
    that starts at the first dot met. *)
Fixpoint Ext (path : string) : string :=
  match path with
  | EmptyString => EmptyString
  | String c r =>
      match Ext r with
      | EmptyString =>
          if containsSlash r then EmptyString
          else if Ascii.eqb c "." then path else EmptyString
      | e => e
      end
  end.

Definition HasSuffix (s suffix : string) : bool :=
  let n := String.length s in
  let k := String.length suffix in
  (k <=? n)%nat && String.eqb (String.substring (n - k) k s) suffix.

(** [strings.TrimSuffix]. *)
Definition TrimSuffix (s suffix : string) : string :=
  if HasSuffix s suffix
  then String.substring 0 (String.length s - String.length suffix) s
  else s.

(** [strings.ToLower] on the ASCII letters; every other byte is kept.  The
    lower-cased text is only compared with ["sha1"] and ["sha256"], and no
    rune outside ASCII lower-cases to one of their letters. *)
Definition lowerAscii (c : ascii) : ascii :=
  let n := nat_of_ascii c in
  if (65 <=? n)%nat && (n <=? 90)%nat then ascii_of_nat (n + 32) else c.

Fixpoint ToLower (s : string) : string :=
  match s with
  | EmptyString => EmptyString
  | String c r => String (lowerAscii c) (ToLower r)
  end.

End GoStrings.

(** ** [strconv.Atoi] *)

Module Strconv.

Inductive NumError := ErrSyntax | ErrRange.

Definition digitValue (c : ascii) : option Z :=
  let n := Z.of_nat (nat_of_ascii c) in
  if (48 <=? n) && (n <=? 57) then Some (n - 48) else None.

Definition intSize : Z := 64.
Definition maxUint64 : Z := 2 ^ 64 - 1.

(** The digit loop of [ParseUint(s, 10, 0)] on a [uint64] accumulator:
    no prefix and no underscore in base 10; a byte that is no digit is a
    syntax error; [n >= cutoff] and the wrap-around of [n*10 + d] are range
    errors. *)
Fixpoint parseUintLoop (n : Z) (s : string) : NumError + Z :=
  match s with
  | EmptyString => inr n
  | String c r =>
      match digitValue c with
      | None => inl ErrSyntax
      | Some d =>
          if maxUint64 / 10 + 1 <=? n then inl ErrRange
          else
            let n10 := n * 10 in
            let n1 := (n10 + d) mod 2 ^ 64 in
            if (n1 <? n10) || (maxUint64 <? n1) then inl ErrRange
            else parseUintLoop n1 r
      end
  end.

Definition ParseUint (s : string) : NumError + Z :=
  match s with
  | EmptyString => inl ErrSyntax
  | _ => parseUintLoop 0 s
  end.

(** [ParseInt(s, 10, 0)]: an optional sign, [ParseUint] on the rest, then
    the range check against [1 << (intSize-1)]. *)
Definition ParseInt (s : string) : NumError + Z :=
  match s with
  | EmptyString => inl ErrSyntax
  | String c r =>
      let neg := Ascii.eqb c "-" in
      let s1 := if Ascii.eqb c "+" || neg then r else s in
      match ParseUint s1 with
      | inl ErrSyntax => inl ErrSyntax
      | inl ErrRange => inl ErrRange
      | inr un =>
          let cutoff := 2 ^ (intSize - 1) in
          if negb neg && (cutoff <=? un) then inl ErrRange
          else if neg && (cutoff <? un) then inl ErrRange
          else inr (if neg then - un else un)
      end
  end.

(** The loop of the fast path of [Atoi]: [n = n*10 + int(ch)]. *)
Fixpoint fastLoop (n : Z) (s : string) : option Z :=
  match s with
  | EmptyString => Some n
  | String c r =>
      match digitValue c with
      | Some d => fastLoop (n * 10 + d) r
      | None => None
      end
  end.

(** [Atoi]: the fast path for 1 to 18 bytes, [ParseInt] otherwise. *)
Definition Atoi (s : string) : NumError + Z :=
  let sLen := String.length s in
  if (0 <? sLen)%nat && (sLen <? 19)%nat then
    match s with
    | EmptyString => inl ErrSyntax
    | String c r =>
        let signed := Ascii.eqb c "-" || Ascii.eqb c "+" in
        let s1 := if signed then r else s in
        if signed && (String.length s1 <? 1)%nat then inl ErrSyntax
        else
          match fastLoop 0 s1 with
          | None => inl ErrSyntax
          | Some n => inr (if Ascii.eqb c "-" then - n else n)
          end
    end
  else ParseInt s.

End Strconv.

(** ** [base64.StdEncoding.EncodeToString] *)

Module Base64.

Definition encodeStd : string :=
  "ABCDEFGHIJKLMNOPQRSTUVWXYZabcdefghijklmnopqrstuvwxyz0123456789+/".

Definition enc (v : N) : ascii :=
  match String.get (N.to_nat (N.land v 63)) encodeStd with
  | Some c => c
  | None => "="%char
  end.

Definition b (x : byte) : N := Byte.to_N x.

(** Three source bytes give four characters; a final group of one or two
    bytes is padded with ['=']. *)
Fixpoint EncodeToString (src : list byte) : string :=
  match src with
  | [] => EmptyString
  | [x] =>
      let v := N.shiftl (b x) 16 in
      String (enc (N.shiftr v 18)) (String (enc (N.shiftr v 12)) "==")
  | [x; y] =>
      let v := N.lor (N.shiftl (b x) 16) (N.shiftl (b y) 8) in
      String (enc (N.shiftr v 18)) (String (enc (N.shiftr v 12))
        (String (enc (N.shiftr v 6)) "="))
  | x :: y :: z :: rest =>
      let v := N.lor (N.lor (N.shiftl (b x) 16) (N.shiftl (b y) 8)) (b z) in
      String (enc (N.shiftr v 18)) (String (enc (N.shiftr v 12))
        (String (enc (N.shiftr v 6)) (String (enc v) (EncodeToString rest))))
  end.

End Base64.

Import GoStrings.

(** ** Data model *)

Inductive coType := AssemblyDependency | NonAssemblyFile.

#[global] Instance coType_eq_dec : EqDecision coType.
Proof. solve_decision. Defined.

(** [DeployedFile]; the field [Type] is [Type_] here. *)
Record DeployedFile := { Type_ : coType; Content : list byte }.

Record coDigestMethod := { Algorithm : string }.
Record coHash := { DigestMethod : coDigestMethod; DigestValue : string }.
Record coBase := { Size : string; Hash : coHash }.
(** The embedded [coBase] of [coFile] and of [coDependentAssembly] is the
    field [fileBase], respectively [depBase]. *)
Record coFile := { fileBase : coBase; Name : string }.
Record coDependentAssembly := {
  depBase : coBase;
  Codebase : string;
  DependencyType : string;
  AllowDelayedBinding : string
}.
Record coAssembly := {
  File : list coFile;
  DependentAssembly : list coDependentAssembly
}.

Definition manifestExtension : string := ".manifest".
Definition deployedFileExtension : string := ".deploy".

(** [isManifest] *)
Definition isManifest (filename : string) : bool :=
  String.eqb (Ext filename) manifestExtension.

(** What [http.NewRequest] and [http.DefaultClient.Do] give for a URL:
    an error, or a response with its status code and its body; the body is
    [None] when [ioutil.ReadAll] or [Body.Close] fails. *)
Inductive HttpResult :=
| RequestError
| Response (StatusCode : Z) (Body : option (list byte)).

Definition StatusNotFound : Z := 404.

(** The collaborators.  [httpGet] and [writeFile] see the history of the
    world, so a server or a disk may answer differently over time. *)
Class Env := {
  URL : Type;
  (** the method [Parse] of [url.URL]: a reference resolved against a base *)
  urlParse : URL -> string -> option URL;
  urlPath : URL -> string;
  urlString : URL -> string;
  (** [url.Parse(s)] followed by [.Fragment] *)
  parseFragment : string -> option string;
  httpGet : list string -> string -> HttpResult;
  (** [xml.Decoder.Decode] into a [coAssembly], charset-aware, not strict *)
  xmlDecode : list byte -> option coAssembly;
  sha1Sum : list byte -> list byte;
  sha256Sum : list byte -> list byte;
  (** [path.Join] *)
  pathJoin : string -> string -> string;
  (** [os.MkdirAll] of the parent directory, then [ioutil.WriteFile] *)
  writeFile : list (string * list byte) -> string -> list byte -> bool;
  (** the order in which [range] walks the entries of a map *)
  rangeOrder : forall A : Type, list (string * A) -> list (string * A);
  rangeOrder_perm : forall (A : Type) (l : list (string * A)),
    Permutation (rangeOrder A l) l
}.

Inductive error :=
| ErrNotInitialized                 (* clickonce not initialized *)
| ErrEmptyFilename                  (* empty filename is not valid in a subset *)
| ErrNoneFound                      (* none of requested files are found *)
| ErrNotAllFound                    (* not all or requested files are found *)
| ErrAtoi (e : Strconv.NumError)    (* the error of strconv.Atoi *)
| ErrUrl (s : string)               (* the error of a URL parse *)
| ErrUnsupported (algorithm filename : string)
| ErrRequest (url : string)         (* the error of download *)
| ErrNoFile (url : string)          (* no file available at ... *)
| ErrBody                           (* the error of ReadAll or Close *)
| ErrSizeMismatch (filename : string) (expected got : Z)
| ErrDigestMismatch (filename : string)
| ErrDecode                         (* the error of xml Decode *)
| ErrWrite (path : string)          (* the error of MkdirAll or WriteFile *)
| ErrNilBaseUrl.                    (* nil dereference of co.baseUrl *)

Inductive result (A : Type) := Ok (a : A) | Err (e : error).
Arguments Ok {A} a.
Arguments Err {A} e.

Section Model.
Context `{env : Env}.

Record remoteFile := {
  url : URL;
  size : Z;
  digest : string;
  algorithm : string
}.

Record ClickOnce := {
  deployedFiles : gmap string DeployedFile;
  subset : option (gmap string bool);
  baseUrl : option URL;
  assembly : option coAssembly;
  outputDir : string;
  noSuffix : bool;
  offline : bool;
  notFound : Z
}.

(** Requests sent and files written so far, oldest first. *)
Record World := {
  requests : list string;
  written : list (string * list byte)
}.

Definition State : Type := ClickOnce * World.

(** *** Assignments to the fields of [co] *)

Definition set_deployedFiles (v : gmap string DeployedFile) (co : ClickOnce) :=
  {| deployedFiles := v; subset := subset co; baseUrl := baseUrl co;
     assembly := assembly co; outputDir := outputDir co;
     noSuffix := noSuffix co; offline := offline co; notFound := notFound co |}.
Definition set_subset (v : option (gmap string bool)) (co : ClickOnce) :=
  {| deployedFiles := deployedFiles co; subset := v; baseUrl := baseUrl co;
     assembly := assembly co; outputDir := outputDir co;
     noSuffix := noSuffix co; offline := offline co; notFound := notFound co |}.
Definition set_baseUrl (v : option URL) (co : ClickOnce) :=
  {| deployedFiles := deployedFiles co; subset := subset co; baseUrl := v;
     assembly := assembly co; outputDir := outputDir co;
     noSuffix := noSuffix co; offline := offline co; notFound := notFound co |}.
Definition set_noSuffix (v : bool) (co : ClickOnce) :=
  {| deployedFiles := deployedFiles co; subset := subset co; baseUrl := baseUrl co;
     assembly := assembly co; outputDir := outputDir co;
     noSuffix := v; offline := offline co; notFound := notFound co |}.
Definition set_offline (v : bool) (co : ClickOnce) :=
  {| deployedFiles := deployedFiles co; subset := subset co; baseUrl := baseUrl co;
     assembly := assembly co; outputDir := outputDir co;
     noSuffix := noSuffix co; offline := v; notFound := notFound co |}.
Definition set_notFound (v : Z) (co : ClickOnce) :=
  {| deployedFiles := deployedFiles co; subset := subset co; baseUrl := baseUrl co;
     assembly := assembly co; outputDir := outputDir co;
     noSuffix := noSuffix co; offline := offline co; notFound := v |}.

(** [co.subset[name] = v]; writing to a nil map does not occur: every such
    write is guarded in the source. *)
Definition subsetStore (name : string) (v : bool) (co : ClickOnce) : ClickOnce :=
  match subset co with
  | Some m => set_subset (Some (<[name := v]> m)) co
  | None => co
  end.

(** *** The monad of the methods: state, error, fuel *)

Definition M (A : Type) : Type := State -> option (result A * State).

Definition ret {A} (a : A) : M A := fun s => Some (Ok a, s).
Definition fail {A} (e : error) : M A := fun s => Some (Err e, s).
Definition bind {A B} (m : M A) (f : A -> M B) : M B :=
  fun s =>
    match m s with
    | None => None
    | Some (Err e, s') => Some (Err e, s')
    | Some (Ok a, s') => f a s'
    end.
Definition getCo : M ClickOnce := fun s => Some (Ok (fst s), s).
Definition modify (f : ClickOnce -> ClickOnce) : M unit :=
  fun s => Some (Ok tt, (f (fst s), snd s)).

End Model.

Declare Scope go_scope.
Delimit Scope go_scope with go.
Notation "'do' x <- m ; k" := (bind m (fun x => k))
  (at level 10, x name, m at level 100, k at level 200) : go_scope.
Notation "m ;; k" := (bind m (fun _ => k))
  (at level 100, k at level 200, right associativity) : go_scope.

(** ** The methods of [ClickOnce] *)

Section Methods.
Context `{env : Env}.
Local Open Scope go_scope.

(** [decodeManifest] *)
Definition decodeManifest (data : list byte) : result coAssembly :=
  match xmlDecode data with
  | Some assembly => Ok assembly
  | None => Err ErrDecode
  end.

(** [download]: one request, recorded in the world. *)
Definition download (downloadUrl : string) (w : World) : HttpResult * World :=
  (httpGet (requests w) downloadUrl,
   {| requests := requests w ++ [downloadUrl]; written := written w |}).

(** [downloadAndCheck].  The response whose body is read after the
    not-found block is [res], the first one: inside the block
    [res, err := download(downloadUrl)] declares new variables, so the
    second response is only looked at for its status. *)
Definition downloadAndCheck (file : remoteFile) (suffix : bool) (w : World)
  : World * bool * result (list byte) :=
  let filename := Base (urlPath (url file)) in
  if negb (String.eqb (algorithm file) "sha1")
     && negb (String.eqb (algorithm file) "sha256")
  then (w, suffix, Err (ErrUnsupported (algorithm file) filename))
  else
    let downloadUrl :=
      if suffix && negb (isManifest (Base (urlPath (url file))))
      then urlString (url file) ++ deployedFileExtension
      else urlString (url file) in
    let '(res, w) := download downloadUrl w in
    match res with
    | RequestError => (w, suffix, Err (ErrRequest downloadUrl))
    | Response StatusCode Body =>
        let notFoundBlock : World * bool * option error :=
          if StatusCode =? StatusNotFound then
            let downloadUrl' := TrimSuffix downloadUrl (Ext downloadUrl) in
            let '(res', w) := download downloadUrl' w in
            match res' with
            | RequestError => (w, suffix, Some (ErrRequest downloadUrl'))
            | Response StatusCode' _ =>
                if StatusCode' =? StatusNotFound
                then (w, suffix, Some (ErrNoFile downloadUrl'))
                else (w, false, None)
            end
          else (w, suffix, None) in
        let '(w, suffix, err) := notFoundBlock in
        match err with
        | Some e => (w, suffix, Err e)
        | None =>
            match Body with
            | None => (w, suffix, Err ErrBody)
            | Some body =>
                if negb (size file =? Z.of_nat (length body))
                then (w, suffix,
                      Err (ErrSizeMismatch filename (size file)
                             (Z.of_nat (length body))))
                else
                  let checksum :=
                    if String.eqb (algorithm file) "sha1"
                    then sha1Sum body else sha256Sum body in
                  if negb (String.eqb (digest file)
                             (Base64.EncodeToString checksum))
                  then (w, suffix, Err (ErrDigestMismatch filename))
                  else (w, suffix, Ok body)
            end
        end
    end.

(** [remoteFileInfo] *)
Definition remoteFileInfo (deployedFileUrl : URL) (deployedFile : coBase)
  : result remoteFile :=
  match Strconv.Atoi (Size deployedFile) with
  | inl e => Err (ErrAtoi e)
  | inr size =>
      match parseFragment (Algorithm (DigestMethod (Hash deployedFile))) with
      | None => Err (ErrUrl (Algorithm (DigestMethod (Hash deployedFile))))
      | Some fragment =>
          Ok {| url := deployedFileUrl; size := size;
                digest := DigestValue (Hash deployedFile);
                algorithm := ToLower fragment |}
      end
  end.

(** [subApplication], over the traversal [retrieveAll] it calls. *)
Definition subApplicationF (retrieveAll : coAssembly -> M unit)
  (manifestContent : list byte) : M unit :=
  match decodeManifest manifestContent with
  | Err e => fail e
  | Ok assembly => retrieveAll assembly
  end.

(** [retrieveDeployedFile], over the traversal its [subApplication] calls. *)
Definition retrieveDeployedFileF (retrieveAll : coAssembly -> M unit)
  (deployedFilePath : string) (deployedFile : coBase)
  (deployedFileType : coType) : M unit :=
  fun '(co, w) =>
  if String.eqb deployedFilePath "" then Some (Ok tt, (co, w))
  else
    let deployedFilePosixPath := ReplaceBackslash deployedFilePath in
    let deployedFileName := Base deployedFilePosixPath in
    let manifest := isManifest deployedFileName in
    if match subset co with
       | Some m => negb manifest && bool_decide (m !! deployedFileName = None)
       | None => false
       end
    then Some (Ok tt, (co, w))
    else if bool_decide (is_Some (deployedFiles co !! deployedFilePath))
    then Some (Ok tt, (co, w))
    else
      match baseUrl co with
      | None => Some (Err ErrNilBaseUrl, (co, w))
      | Some base =>
          match urlParse base deployedFilePosixPath with
          | None => Some (Err (ErrUrl deployedFilePosixPath), (co, w))
          | Some deployedFileUrl =>
              let co :=
                if bool_decide (deployedFileType = AssemblyDependency) && manifest
                then set_baseUrl (Some deployedFileUrl) co else co in
              match remoteFileInfo deployedFileUrl deployedFile with
              | Err e => Some (Err e, (co, w))
              | Ok remoteFile =>
                  match downloadAndCheck remoteFile (negb (noSuffix co)) w with
                  | (w, _, Err e) => Some (Err e, (co, w))
                  | (w, suffix, Ok deployedFileContent) =>
                      let co := set_noSuffix (negb suffix) co in
                      let co :=
                        set_deployedFiles
                          (<[deployedFilePath :=
                               {| Type_ := deployedFileType;
                                  Content := deployedFileContent |}]>
                             (deployedFiles co)) co in
                      let co := subsetStore deployedFileName true co in
                      if manifest
                      then subApplicationF retrieveAll deployedFileContent (co, w)
                      else Some (Ok tt, (co, w))
                  end
              end
          end
      end.

(** The second loop of [retrieveAllDeployedFiles], with the final
    [return nil]. *)
Fixpoint rangeFile (retrieveAll : coAssembly -> M unit)
  (files : list coFile) : M unit :=
  match files with
  | [] => ret tt
  | f :: rest =>
      fun s =>
        match retrieveDeployedFileF retrieveAll (Name f) (fileBase f)
                NonAssemblyFile s with
        | None => None
        | Some (Err _, s) => Some (Ok tt, s)        (* return nil *)
        | Some (Ok _, s) => rangeFile retrieveAll rest s
        end
  end.

(** The first loop of [retrieveAllDeployedFiles]; [files] is what the code
    after the loop walks. *)
Fixpoint rangeDependentAssembly (retrieveAll : coAssembly -> M unit)
  (deps : list coDependentAssembly) (files : list coFile) : M unit :=
  match deps with
  | [] => rangeFile retrieveAll files
  | dependentAssembly :: rest =>
      if negb (String.eqb (DependencyType dependentAssembly) "install")
      then rangeDependentAssembly retrieveAll rest files       (* continue *)
      else
        fun s =>
          match retrieveDeployedFileF retrieveAll (Codebase dependentAssembly)
                  (depBase dependentAssembly) AssemblyDependency s with
          | None => None
          | Some (Err _, s) => Some (Ok tt, s)      (* return nil *)
          | Some (Ok _, s) => rangeDependentAssembly retrieveAll rest files s
          end
  end.

(** [retrieveAllDeployedFiles]; the fuel bounds the depth of nested
    manifests. *)
Fixpoint retrieveAllDeployedFiles (fuel : nat) (assembly : coAssembly) : M unit :=
  match fuel with
  | O => fun _ => None
  | S fuel =>
      rangeDependentAssembly (retrieveAllDeployedFiles fuel)
        (DependentAssembly assembly) (File assembly)
  end.

Definition retrieveDeployedFile (fuel : nat) :=
  retrieveDeployedFileF (retrieveAllDeployedFiles fuel).

Definition subApplication (fuel : nat) :=
  subApplicationF (retrieveAllDeployedFiles fuel).

(** The loop of [initSubset]. *)
Fixpoint initSubsetLoop (subset : list string) : M unit :=
  match subset with
  | [] => ret tt
  | s :: rest =>
      if String.eqb s "" then fail ErrEmptyFilename
      else modify (subsetStore s false) ;; initSubsetLoop rest
  end.

(** [initSubset] *)
Definition initSubset (subset : list string) : M unit :=
  modify (set_subset (Some ∅)) ;; initSubsetLoop subset.

(** [checkDownload] *)
Definition checkDownload : M unit :=
  modify (fun co =>
    foldl (fun co '(deployedFilePath, _) =>
             let codebase := ReplaceBackslash deployedFilePath in
             let deployedFileName := Base codebase in
             match subset co with
             | Some m =>
                 if bool_decide (is_Some (m !! deployedFileName))
                 then subsetStore deployedFileName true co else co
             | None => co
             end)
          co (rangeOrder _ (map_to_list (deployedFiles co)))).

(** [co.subset[s]] read as a value: [false] for a missing key. *)
Definition subsetFlag (co : ClickOnce) (s : string) : bool :=
  match subset co with
  | Some m => default false (m !! s)
  | None => false
  end.

(** The loop of [findSubset]. *)
Fixpoint findSubsetLoop (subset : list string) : M unit :=
  match subset with
  | [] => ret tt
  | s :: rest =>
      modify (fun co =>
        if negb (subsetFlag co s) then set_notFound (notFound co + 1) co else co) ;;
      findSubsetLoop rest
  end.

(** [findSubset] *)
Definition findSubset (subset : list string) : M unit :=
  findSubsetLoop subset ;;
  do co <- getCo ;
  if notFound co =? Z.of_nat (length subset) then fail ErrNoneFound else ret tt.

(** [saveDeployedFile] *)
Definition saveDeployedFile (deployedFilePath : string)
  (deployedFileContent : list byte) : M unit :=
  fun '(co, w) =>
  let codebase := ReplaceBackslash deployedFilePath in
  let deployedFileName := Base codebase in
  if match subset co with
     | Some m => bool_decide (m !! deployedFileName = None)
     | None => false
     end
  then Some (Ok tt, (co, w))
  else
    let target := pathJoin (outputDir co) codebase in
    if writeFile (written w) target deployedFileContent
    then Some (Ok tt, (co, {| requests := requests w;
                              written := written w ++ [(target, deployedFileContent)] |}))
    else Some (Err (ErrWrite target), (co, w)).

(** The loop of [saveAllDeployedFiles]. *)
Fixpoint saveLoop (entries : list (string * DeployedFile)) : M unit :=
  match entries with
  | [] => ret tt
  | (deployedFilePath, deployedFile) :: rest =>
      saveDeployedFile deployedFilePath (Content deployedFile) ;; saveLoop rest
  end.

(** [saveAllDeployedFiles] *)
Definition saveAllDeployedFiles : M unit :=
  do co <- getCo ;
  saveLoop (rangeOrder _ (map_to_list (deployedFiles co))).

(** [Get] *)
Definition Get (fuel : nat) (subset : list string) : M unit :=
  do co <- getCo ;
  if bool_decide (baseUrl co = None) || bool_decide (assembly co = None)
  then fail ErrNotInitialized
  else
    let validSubset := negb (bool_decide (subset = [])) in
    (if validSubset then initSubset subset else ret tt) ;;
    (do co <- getCo ;
     if negb (offline co) then
       match assembly co with
       | Some a => retrieveAllDeployedFiles fuel a
       | None => fail ErrNotInitialized
       end
     else if validSubset then checkDownload else ret tt) ;;
    modify (set_notFound 0) ;;
    (if validSubset then findSubset subset else ret tt) ;;
    (do co <- getCo ;
     if negb (String.eqb (outputDir co) "") then saveAllDeployedFiles else ret tt) ;;
    do co <- getCo ;
    if validSubset && negb (notFound co =? 0) then fail ErrNotAllFound else ret tt.

(** [GetAll] *)
Definition GetAll (fuel : nat) : M unit :=
  Get fuel [] ;; modify (set_offline true).

(** [DeployedFiles] *)
Definition DeployedFiles (co : ClickOnce) : gmap string DeployedFile :=
  deployedFiles co.

End Methods.

(** ** The parts of one visit of an entry, and traversals as visits *)

Section Visits.
Context `{env : Env}.

(** The bare file name of a manifest path. *)
Definition entryName (deployedFilePath : string) : string :=
  Base (ReplaceBackslash deployedFilePath).

(** The subset filter rejects the entry. *)
Definition filtered (co : ClickOnce) (deployedFilePath : string) : bool :=
  match subset co with
  | Some m =>
      negb (isManifest (entryName deployedFilePath))
      && bool_decide (m !! entryName deployedFilePath = None)
  | None => false
  end.

(** The entry is left alone: empty path, filtered out, or already there. *)
Definition skipped (co : ClickOnce) (deployedFilePath : string) : bool :=
  String.eqb deployedFilePath ""
  || filtered co deployedFilePath
  || bool_decide (is_Some (deployedFiles co !! deployedFilePath)).

(** An install dependency that is a manifest moves the base URL. *)
Definition rebasing (ty : coType) (deployedFilePath : string) : bool :=
  bool_decide (ty = AssemblyDependency) && isManifest (entryName deployedFilePath).

Definition rebased (ty : coType) (deployedFilePath : string) (u : URL)
  (co : ClickOnce) : ClickOnce :=
  if rebasing ty deployedFilePath then set_baseUrl (Some u) co else co.

(** The session after a verified download has been recorded. *)
Definition stored (deployedFilePath : string) (ty : coType)
  (content : list byte) (suffix : bool) (co : ClickOnce) : ClickOnce :=
  subsetStore (entryName deployedFilePath) true
    (set_deployedFiles
       (<[deployedFilePath := {| Type_ := ty; Content := content |}]>
          (deployedFiles co))
       (set_noSuffix (negb suffix) co)).

(** What one visit that got as far as resolving its URL does to the state,
    the nested traversal left out: it stops with an error after the
    rebase, or it records the verified content. *)
Inductive visit : State -> State -> Prop :=
| visit_failed co w path ty b u w1 :
    skipped co path = false ->
    baseUrl co = Some b ->
    urlParse b (ReplaceBackslash path) = Some u ->
    written w1 = written w ->
    (exists l, requests w1 = (requests w ++ l)%list) ->
    visit (co, w) (rebased ty path u co, w1)
| visit_stored co w path base ty b u rf sfx content w1 :
    skipped co path = false ->
    baseUrl co = Some b ->
    urlParse b (ReplaceBackslash path) = Some u ->
    remoteFileInfo u base = Ok rf ->
    downloadAndCheck rf (negb (noSuffix co)) w = (w1, sfx, Ok content) ->
    visit (co, w) (stored path ty content sfx (rebased ty path u co), w1).

(** *** Words of the specification about a download *)

(** The digest algorithms the engine accepts. *)
Definition supported (alg : string) : Prop := alg = "sha1" \/ alg = "sha256".

(** The base64-encoded sha1 or sha256 digest of a body. *)
Definition digestOf (alg : string) (body : list byte) : string :=
  Base64.EncodeToString
    (if String.eqb alg "sha1" then sha1Sum body else sha256Sum body).

(** The URL tried first: suffixed for a payload when the hint is on. *)
Definition candidateUrl (file : remoteFile) (suffix : bool) : string :=
  if suffix && negb (isManifest (Base (urlPath (url file))))
  then urlString (url file) ++ deployedFileExtension
  else urlString (url file).

(** The URL of the retry: the last extension of the candidate stripped. *)
Definition fallbackUrl (file : remoteFile) (suffix : bool) : string :=
  TrimSuffix (candidateUrl file suffix) (Ext (candidateUrl file suffix)).

(** *** How the base URL moves *)

(** From a base to the resolution, against it, of the path of a manifest,
    any number of times; never back. *)
Inductive rebases : option URL -> option URL -> Prop :=
| rebases_refl b : rebases b b
| rebases_step b path u b' :
    isManifest (entryName path) = true ->
    urlParse b (ReplaceBackslash path) = Some u ->
    rebases (Some u) b' ->
    rebases (Some b) b'.

(** A manifest that lists no manifest: its traversal does not nest. *)
Definition plain (a : coAssembly) : Prop :=
  (forall d, d ∈ DependentAssembly a -> isManifest (entryName (Codebase d)) = false) /\
  (forall f, f ∈ File a -> isManifest (entryName (Name f)) = false).

(** *** Subsets and the result mapping *)

(** Some entry of the result mapping has this bare file name. *)
Definition present (files : gmap string DeployedFile) (name : string) : Prop :=
  exists path d, files !! path = Some d /\ entryName path = name.

(** The session has been through [Init]. *)
Definition initialized (co : ClickOnce) : Prop :=
  baseUrl co <> None /\ assembly co <> None.

(** The file [saveDeployedFile] writes for an entry. *)
Definition savedAs (co : ClickOnce) (path : string) (d : DeployedFile)
  : string * list byte :=
  (pathJoin (outputDir co) (ReplaceBackslash path), Content d).

(** The paths an assembly lists. *)
Definition pathsOf (a : coAssembly) : list string :=
  (Codebase <$> DependentAssembly a) ++ (Name <$> File a).

(** *** The steps of [Get] around the traversal *)

(** The subset map after the loop of [initSubset]. *)
Definition freshSubset (subset : list string) (m : gmap string bool)
  : gmap string bool :=
  foldl (fun m s => <[s := false]> m) m subset.

(** The members of the subset that are not flagged as found. *)
Definition missing (co : ClickOnce) (subset : list string) : list string :=
  List.filter (fun s => negb (subsetFlag co s)) subset.

(** [saveDeployedFile] writes the entry unless the subset map lacks its name. *)
Definition kept (co : ClickOnce) (path : string) : Prop :=
  match subset co with
  | Some m => is_Some (m !! entryName path)
  | None => True
  end.

(** The stage of [Get] between the installation of the filter and the
    conclusion. *)
Definition middle (fuel : nat) (subset : list string) (co : ClickOnce) (w : World)
  : option (result unit * State) :=
  if offline co
  then checkDownload (set_subset (Some (freshSubset subset ∅)) co, w)
  else match assembly co with
       | Some a => retrieveAllDeployedFiles fuel a
                     (set_subset (Some (freshSubset subset ∅)) co, w)
       | None => None
       end.

(** The paths of [P] that are not yet keys of the result mapping. *)
Definition remaining (P : gset string) (s : State) : nat :=
  base.size (P ∖ dom (deployedFiles s.1)).

End Visits.

(** ** What a declared size string encodes *)

Module SizeSpec.

Definition isDigit (c : ascii) : bool :=
  let n := nat_of_ascii c in (48 <=? n)%nat && (n <=? 57)%nat.

Fixpoint allDigits (s : string) : bool :=
  match s with
  | EmptyString => true
  | String c r => isDigit c && allDigits r
  end.

(** The number a run of decimal digits denotes, by position. *)
Fixpoint decimalValue (s : string) : Z :=
  match s with
  | EmptyString => 0
  | String c r =>
      (Z.of_nat (nat_of_ascii c) - 48) * 10 ^ Z.of_nat (String.length r)
      + decimalValue r
  end.

(** The words of the specification: the string "must parse as a
    non-negative integer", one or more decimal digits. *)
Definition encodesNonNegativeInteger (s : string) : Prop :=
  s <> "" /\ allDigits s = true.

(** What the code accepts: an optional sign, then one or more digits. *)
Definition encodesInteger (s : string) (n : Z) : Prop :=
  exists sign digits,
    s = sign ++ digits /\
    (sign = "" \/ sign = "+" \/ sign = "-") /\
    digits <> "" /\ allDigits digits = true /\
    n = if String.eqb sign "-" then - decimalValue digits else decimalValue digits.

(** The range of a Go [int] on a 64-bit platform. *)
Definition fitsInt (n : Z) : Prop := - 2 ^ 63 <= n < 2 ^ 63.

End SizeSpec.

(** ** A demonstration environment

    A small world for evaluating the methods on concrete sessions: URLs are
    strings and a reference is resolved by replacing the last path element
    of the base; the network and the XML decoder are lookup tables; the two
    digests are one-byte checksums; every write succeeds. *)

Module Demo.

Fixpoint lookupTable {A} (key : string) (table : list (string * A)) : option A :=
  match table with
  | [] => None
  | (k, v) :: rest => if String.eqb k key then Some v else lookupTable key rest
  end.

Definition resolve (base ref : string) : option string :=
  if String.prefix ":" ref then None
  else Some (TrimSuffix base (lastElement base) ++ ref).

Fixpoint afterHash (s : string) : string :=
  match s with
  | EmptyString => EmptyString
  | String c r => if Ascii.eqb c "#" then r else afterHash r
  end.

Definition byteSum (body : list byte) : N :=
  fold_right (fun x acc => (Byte.to_N x + acc)%N) 0%N body.

Definition checksum (salt : N) (body : list byte) : list byte :=
  match Byte.of_N ((byteSum body + salt) mod 256) with
  | Some x => [x]
  | None => []
  end.

Definition bytes (s : string) : list byte := list_byte_of_string s.

#[export] Instance demoEnv
  (net : list (string * (Z * string)))
  (manifests : list (string * coAssembly)) : Env := {|
  URL := string;
  urlParse := resolve;
  urlPath := fun u => u;
  urlString := fun u => u;
  parseFragment := fun s => Some (afterHash s);
  httpGet := fun _ u =>
    match lookupTable u net with
    | Some (status, body) => Response status (Some (bytes body))
    | None => Response 404 (Some (bytes "Not Found"))
    end;
  xmlDecode := fun data => lookupTable (string_of_list_byte data) manifests;
  sha1Sum := checksum 1;
  sha256Sum := checksum 0;
  pathJoin := fun dir p => dir ++ "/" ++ p;
  writeFile := fun _ _ _ => true;
  rangeOrder := fun _ l => l;
  rangeOrder_perm := fun _ l => Permutation_refl l
|}.

Definition sha256Uri : string := "http://www.w3.org/2000/09/xmldsig#sha256".

(** An entry for a payload, with the size and the digest of its content. *)
Definition entryFor (content : string) : coBase :=
  {| Size := NilZero.string_of_uint (Nat.to_uint (String.length content));
     Hash := {| DigestMethod := {| Algorithm := sha256Uri |};
                DigestValue :=
                  Base64.EncodeToString (checksum 0 (bytes content)) |} |}.

Definition file (name content : string) : coFile :=
  {| fileBase := entryFor content; Name := name |}.

Definition install (codebase content : string) : coDependentAssembly :=
  {| depBase := entryFor content; Codebase := codebase;
     DependencyType := "install"; AllowDelayedBinding := "true" |}.

Definition emptyWorld `{env : Env} : World := {| requests := []; written := [] |}.

(** A session just after [Init] on [root], found at [rootUrl]. *)
Definition session `{env : Env} (rootUrl : URL) (root : coAssembly) (out : string)
  : ClickOnce :=
  {| deployedFiles := ∅; subset := None; baseUrl := Some rootUrl;
     assembly := Some root; outputDir := out; noSuffix := false;
     offline := false; notFound := 0 |}.

End Demo.


(** ** Concrete sessions *)

Module Scenario.
Import Demo.

Definition rootUrl : string := "http://h/app/root.application".

(** A nested manifest with an entry whose size does not parse. *)
Module BadSize.
Definition bad : coFile :=
  {| fileBase := {| Size := "abc"; Hash := Hash (entryFor "x") |};
     Name := "bad.bin" |}.
Definition sub : coAssembly :=
  {| File := [bad; file "later.txt" "later"]; DependentAssembly := [] |}.
Definition root : coAssembly :=
  {| File := [file "readme.txt" "hello"];
     DependentAssembly := [install "sub/app.manifest" "<sub/>"] |}.
Definition env : Env :=
  demoEnv [("http://h/app/sub/app.manifest", (200, "<sub/>"));
           ("http://h/app/sub/readme.txt.deploy", (200, "hello"));
           ("http://h/app/sub/later.txt.deploy", (200, "later"))]
          [("<sub/>", sub)].
Definition start : @State env := (@session env rootUrl root "", @emptyWorld env).
End BadSize.

(** A payload served without the suffix: the suffixed URL answers 404 with
  an error page, the plain URL answers 200 with the payload. *)
Module NoSuffix.
Definition root : coAssembly :=
  {| File := [file "tool.exe" "payload"]; DependentAssembly := [] |}.
Definition env : Env :=
  demoEnv [("http://h/app/tool.exe", (200, "payload"));
           ("http://h/app/lib.dll", (200, "library"))] [].
Definition start : @State env := (@session env rootUrl root "", @emptyWorld env).
Definition tool : @remoteFile env :=
  @Build_remoteFile env "http://h/app/tool.exe" 7
    (DigestValue (Hash (entryFor "payload"))) "sha256".
End NoSuffix.

(** An application manifest with two payloads, one of them requested. *)
Module Subset.
Definition app : coAssembly :=
  {| File := [file "a.exe" "program"; file "b.dll" "library"];
     DependentAssembly := [] |}.
Definition root : coAssembly :=
  {| File := []; DependentAssembly := [install "app.exe.manifest" "<app/>"] |}.
Definition env : Env :=
  demoEnv [("http://h/app/app.exe.manifest", (200, "<app/>"));
           ("http://h/app/a.exe.deploy", (200, "program"));
           ("http://h/app/b.dll.deploy", (200, "library"))]
          [("<app/>", app)].
Definition start : @State env := (@session env rootUrl root "out", @emptyWorld env).
End Subset.

(** Two install dependencies that are manifests, one after the other. *)
Module TwoManifests.
Definition leaf : coAssembly := {| File := []; DependentAssembly := [] |}.
Definition root : coAssembly :=
  {| File := [];
     DependentAssembly := [install "a/one.manifest" "<one/>";
                           install "b/two.manifest" "<two/>"] |}.
Definition env : Env :=
  demoEnv [("http://h/app/a/one.manifest", (200, "<one/>"));
           ("http://h/app/a/b/two.manifest", (200, "<two/>"))]
          [("<one/>", leaf); ("<two/>", leaf)].
Definition start : @State env := (@session env rootUrl root "", @emptyWorld env).
End TwoManifests.

End Scenario.

(** ** Further words about paths *)

(** The byte [c] occurs in [s]. *)
Fixpoint occurs (c : ascii) (s : string) : bool :=
  match s with
  | EmptyString => false
  | String x r => Ascii.eqb x c || occurs c r
  end.

(** ** Further words about the steps of [Get] *)

Section MoreSteps.
Context `{env : Env}.

(** The test [saveDeployedFile] makes before it writes, as a boolean. *)
Definition keptb (co : ClickOnce) (path : string) : bool :=
  match subset co with
  | Some m => bool_decide (is_Some (m !! entryName path))
  | None => true
  end.

(** The files written for a list of entries, in order. *)
Definition savedOf (co : ClickOnce) (entries : list (string * DeployedFile))
  : list (string * list byte) :=
  (fun e => savedAs co e.1 e.2) <$> List.filter (fun e => keptb co e.1) entries.

End MoreSteps.

(** ** [Init] and [SetOutputDir] *)

(** The errors of [Init]: three of its own, the others those of the
    request, of the body and of the decoder. *)
Inductive initError :=
| ErrMissingUrl                        (* missing valid application URL *)
| ErrNoApplication (appUrl : string)   (* no application available at ... *)
| ErrEmptyApplication                  (* application file is empty *)
| ErrInit (e : error).

Section Setup.
Context `{env : Env}.

(** [res.Request.URL]: the URL of the request that obtained the response,
    which after a redirect is not the one asked for. *)
Variable requestUrl : list string -> string -> URL.

Definition set_assembly (v : option coAssembly) (co : ClickOnce) :=
  {| deployedFiles := deployedFiles co; subset := subset co; baseUrl := baseUrl co;
     assembly := v; outputDir := outputDir co;
     noSuffix := noSuffix co; offline := offline co; notFound := notFound co |}.
Definition set_outputDir (v : string) (co : ClickOnce) :=
  {| deployedFiles := deployedFiles co; subset := subset co; baseUrl := baseUrl co;
     assembly := assembly co; outputDir := v;
     noSuffix := noSuffix co; offline := offline co; notFound := notFound co |}.

(** [Init].  The logger it installs first has no part in the state.  The
    result of [decodeManifest] is assigned to [co.assembly] before the
    error is looked at, so a manifest that does not decode leaves nil
    there. *)
Definition Init (appUrl : string) (s : State) : option initError * State :=
  let (co, w) := s in
  if String.eqb appUrl "" then (Some ErrMissingUrl, (co, w))
  else
    let (res, w1) := download appUrl w in
    match res with
    | RequestError => (Some (ErrInit (ErrRequest appUrl)), (co, w1))
    | Response status body =>
        if status =? StatusNotFound
        then (Some (ErrNoApplication appUrl), (co, w1))
        else
          match body with
          | None => (Some (ErrInit ErrBody), (co, w1))
          | Some appContent =>
              if Nat.eqb (length appContent) 0
              then (Some ErrEmptyApplication, (co, w1))
              else
                match decodeManifest appContent with
                | Err e => (Some (ErrInit e), (set_assembly None co, w1))
                | Ok a =>
                    (None,
                     (set_baseUrl (Some (requestUrl (requests w) appUrl))
                        (set_assembly (Some a) co), w1))
                end
          end
    end.

(** [SetOutputDir] *)
Definition SetOutputDir (outputDir : string) (co : ClickOnce) : ClickOnce :=
  set_outputDir outputDir co.

End Setup.

(** ** Further concrete sessions *)

Module Cases.
Import Demo Scenario.

(** [res.Request.URL] when nothing redirects. *)
Definition sameUrl (_ : list string) (appUrl : string) : string := appUrl.

(** A manifest that lists itself among its dependencies. *)
Module Cycle.
Definition loop : coAssembly :=
  {| File := [file "f.txt" "data"];
     DependentAssembly := [install "loop.manifest" "<loop/>"] |}.
Definition env : Env :=
  demoEnv [("http://h/app/loop.manifest", (200, "<loop/>"));
           ("http://h/app/f.txt.deploy", (200, "data"))]
          [("<loop/>", loop)].
Definition start : @State env := (@session env rootUrl loop "", @emptyWorld env).
Definition paths : gset string := list_to_set ["loop.manifest"; "f.txt"].
End Cycle.

(** A manifest that is served and verifies, but does not decode; and an
    entry that names an algorithm the library does not know. *)
Module Broken.
Definition root : coAssembly :=
  {| File := []; DependentAssembly := [install "x.manifest" "<x/>"] |}.
Definition env : Env :=
  demoEnv [("http://h/app/x.manifest", (200, "<x/>"))] [].
Definition start : @State env := (@session env rootUrl root "", @emptyWorld env).
Definition md5Entry : coBase :=
  {| Size := "4";
     Hash := {| DigestMethod := {| Algorithm := "http://www.w3.org/2001/04/xmldsig-more#md5" |};
                DigestValue := "AAAA" |} |}.
End Broken.

End Cases.

(** ** Reasoning about the methods *)

Section Facts.
Context `{env : Env}.

Lemma bind_Some {A B} (m : M A) (f : A -> M B) s r s' :
  bind m f s = Some (r, s') ->
  (exists e, m s = Some (Err e, s') /\ r = Err e) \/
  (exists a s1, m s = Some (Ok a, s1) /\ f a s1 = Some (r, s')).
Proof.
  unfold bind. destruct (m s) as [[[a|e] s1]|] eqn:Hm; intros H.
  - right. eauto.
  - left. inversion H; subst. eauto.
  - discriminate.
Qed.

Lemma bind_Ok {A B} (m : M A) (f : A -> M B) s a s1 :
  m s = Some (Ok a, s1) -> bind m f s = f a s1.
Proof. unfold bind. intros ->. reflexivity. Qed.

Lemma bind_Err {A B} (m : M A) (f : A -> M B) s e s1 :
  m s = Some (Err e, s1) -> bind m f s = Some (Err e, s1).
Proof. unfold bind. intros ->. reflexivity. Qed.

(** [retrieveDeployedFile] read through these parts. *)
Lemma retrieveDeployedFileF_eq rec path base ty co w :
  retrieveDeployedFileF rec path base ty (co, w) =
  if skipped co path then Some (Ok tt, (co, w))
  else
    match baseUrl co with
    | None => Some (Err ErrNilBaseUrl, (co, w))
    | Some b =>
        match urlParse b (ReplaceBackslash path) with
        | None => Some (Err (ErrUrl (ReplaceBackslash path)), (co, w))
        | Some u =>
            match remoteFileInfo u base with
            | Err e => Some (Err e, (rebased ty path u co, w))
            | Ok rf =>
                match downloadAndCheck rf (negb (noSuffix co)) w with
                | (w1, _, Err e) => Some (Err e, (rebased ty path u co, w1))
                | (w1, sfx, Ok content) =>
                    let co2 := stored path ty content sfx (rebased ty path u co) in
                    if isManifest (entryName path)
                    then subApplicationF rec content (co2, w1)
                    else Some (Ok tt, (co2, w1))
                end
            end
        end
    end.
Proof.
  unfold retrieveDeployedFileF, skipped, filtered, rebased, rebasing, stored, entryName.
  destruct (String.eqb path "") eqn:Hp; simpl; [reflexivity|].
  destruct (subset co) as [m|] eqn:Hs; simpl.
  - destruct (negb _ && bool_decide (m !! _ = None)) eqn:Hf; simpl; [reflexivity|].
    destruct (bool_decide (is_Some _)); simpl; [reflexivity|].
    destruct (baseUrl co); [|reflexivity].
    destruct (urlParse _ _); [|reflexivity].
    destruct (remoteFileInfo _ _); [|reflexivity].
    destruct (bool_decide (ty = AssemblyDependency) && _); simpl; reflexivity.
  - destruct (bool_decide (is_Some _)); simpl; [reflexivity|].
    destruct (baseUrl co); [|reflexivity].
    destruct (urlParse _ _); [|reflexivity].
    destruct (remoteFileInfo _ _); [|reflexivity].
    destruct (bool_decide (ty = AssemblyDependency) && _); simpl; reflexivity.
Qed.

(** *** What [downloadAndCheck] does to the world and to the hint *)

Lemma downloadAndCheck_world rf sfx w :
  written (downloadAndCheck rf sfx w).1.1 = written w /\
  exists l, requests (downloadAndCheck rf sfx w).1.1 = (requests w ++ l)%list.
Proof.
  unfold downloadAndCheck, download.
  repeat (case_match; simpl in *; simplify_eq);
    split; try reflexivity;
    try (exists []; rewrite app_nil_r; reflexivity);
    try (eexists; reflexivity);
    try (eexists; rewrite <- app_assoc; reflexivity).
Qed.

(** The hint is never switched back on. *)
Lemma downloadAndCheck_suffix rf w :
  (downloadAndCheck rf false w).1.2 = false.
Proof.
  unfold downloadAndCheck, download.
  repeat (case_match; simpl in *; simplify_eq); reflexivity.
Qed.

(** *** A traversal as a sequence of visits *)

Section OpenRecursion.
Variable rec : coAssembly -> M unit.
Hypothesis rec_visits :
  forall a s r s', rec a s = Some (r, s') -> rtc visit s s'.

Lemma retrieveDeployedFileF_visits path base ty s r s' :
  retrieveDeployedFileF rec path base ty s = Some (r, s') -> rtc visit s s'.
Proof.
  destruct s as [co w]. rewrite retrieveDeployedFileF_eq.
  destruct (skipped co path) eqn:Hsk.
  { intros [= <- <-]. apply rtc_refl. }
  destruct (baseUrl co) as [b|] eqn:Hb; [|intros [= <- <-]; apply rtc_refl].
  destruct (urlParse b _) as [u|] eqn:Hu; [|intros [= <- <-]; apply rtc_refl].
  destruct (remoteFileInfo u base) as [rf|e] eqn:Hrf.
  2:{ intros [= <- <-]. apply rtc_once.
      eapply visit_failed; eauto. exists []. by rewrite app_nil_r. }
  destruct (downloadAndCheck rf (negb (noSuffix co)) w) as [[w1 sfx] [content|e]] eqn:Hd.
  2:{ intros [= <- <-]. apply rtc_once.
      pose proof (downloadAndCheck_world rf (negb (noSuffix co)) w) as [Hw Hr].
      rewrite Hd in Hw, Hr. simpl in Hw, Hr.
      eapply visit_failed; eauto. }
  assert (Hv : visit (co, w) (stored path ty content sfx (rebased ty path u co), w1))
    by (eapply visit_stored; eauto).
  cbv zeta. destruct (isManifest (entryName path)).
  - unfold subApplicationF. destruct (decodeManifest content) as [a|e].
    + intros H. eapply rtc_l; [exact Hv|]. eapply rec_visits; eauto.
    + intros [= <- <-]. by apply rtc_once.
  - intros [= <- <-]. by apply rtc_once.
Qed.

Lemma rangeFile_visits files s r s' :
  rangeFile rec files s = Some (r, s') -> rtc visit s s' /\ r = Ok tt.
Proof.
  revert s. induction files as [|f rest IH]; intros s; simpl.
  - intros [= <- <-]. split; [apply rtc_refl|reflexivity].
  - destruct (retrieveDeployedFileF rec (Name f) (fileBase f) NonAssemblyFile s)
      as [[[[]|e] s1]|] eqn:Hv; [| |discriminate].
    + intros H. apply IH in H as [H ->]. split; [|reflexivity].
      etrans; [|exact H]. eapply retrieveDeployedFileF_visits; eauto.
    + intros [= <- <-]. split; [|reflexivity].
      eapply retrieveDeployedFileF_visits; eauto.
Qed.

Lemma rangeDependentAssembly_visits deps files s r s' :
  rangeDependentAssembly rec deps files s = Some (r, s') ->
  rtc visit s s' /\ r = Ok tt.
Proof.
  revert s. induction deps as [|d rest IH]; intros s; simpl.
  - apply rangeFile_visits.
  - destruct (negb _); [apply IH|].
    destruct (retrieveDeployedFileF rec (Codebase d) (depBase d) AssemblyDependency s)
      as [[[[]|e] s1]|] eqn:Hv; [| |discriminate].
    + intros H. apply IH in H as [H ->]. split; [|reflexivity].
      etrans; [|exact H]. eapply retrieveDeployedFileF_visits; eauto.
    + intros [= <- <-]. split; [|reflexivity].
      eapply retrieveDeployedFileF_visits; eauto.
Qed.

End OpenRecursion.

(** Every traversal is a sequence of visits, and it returns [nil]. *)
Lemma retrieveAllDeployedFiles_visits fuel a s r s' :
  retrieveAllDeployedFiles fuel a s = Some (r, s') ->
  rtc visit s s' /\ r = Ok tt.
Proof.
  revert a s r s'. induction fuel as [|fuel IH]; intros a s r s'; simpl.
  - discriminate.
  - apply rangeDependentAssembly_visits. intros a0 s0 r0 s0' H.
    by apply IH in H as [H _].
Qed.

Lemma retrieveDeployedFile_visits fuel path base ty s r s' :
  retrieveDeployedFile fuel path base ty s = Some (r, s') -> rtc visit s s'.
Proof.
  apply retrieveDeployedFileF_visits. intros a0 s0 r0 s0' H.
  by apply retrieveAllDeployedFiles_visits in H as [H _].
Qed.

(** *** Invariants of a visit, and of a traversal *)

Lemma deployedFiles_rebased ty path u co :
  deployedFiles (rebased ty path u co) = deployedFiles co.
Proof. unfold rebased. by destruct (rebasing ty path). Qed.

Lemma subset_rebased ty path u co :
  subset (rebased ty path u co) = subset co.
Proof. unfold rebased. by destruct (rebasing ty path). Qed.

Lemma deployedFiles_subsetStore name v co :
  deployedFiles (subsetStore name v co) = deployedFiles co.
Proof. unfold subsetStore. by destruct (subset co). Qed.

Lemma deployedFiles_stored path ty content sfx co :
  deployedFiles (stored path ty content sfx co)
  = <[path := {| Type_ := ty; Content := content |}]> (deployedFiles co).
Proof. unfold stored. by rewrite deployedFiles_subsetStore. Qed.

Lemma skipped_false_fresh co path :
  skipped co path = false -> deployedFiles co !! path = None.
Proof.
  unfold skipped. intros H.
  apply orb_false_iff in H as [_ H].
  apply bool_decide_eq_false in H.
  destruct (deployedFiles co !! path) eqn:E; [|reflexivity].
  exfalso. apply H. eauto.
Qed.

(** A visit only adds to the result mapping: no entry is overwritten. *)
Lemma visit_deployedFiles s s' :
  visit s s' -> deployedFiles s.1 ⊆ deployedFiles s'.1.
Proof.
  destruct 1; simpl.
  - by rewrite deployedFiles_rebased.
  - rewrite deployedFiles_stored, deployedFiles_rebased.
    apply insert_subseteq. by apply skipped_false_fresh.
Qed.

Lemma visits_deployedFiles s s' :
  rtc visit s s' -> deployedFiles s.1 ⊆ deployedFiles s'.1.
Proof.
  induction 1 as [|s1 s2 s3 Hv _ IH]; [reflexivity|].
  etrans; [|exact IH]. by apply visit_deployedFiles.
Qed.

End Facts.

(** ** C9: an entry already in the result mapping *)

Section Dedup.
Context `{env : Env}.

(** C9.  Retrieving an entry whose path is already a key of the result
    mapping is a no-op: the call returns nil with the session and the world
    exactly as they were (no fetch, no write), and no traversal started
    from there changes what the mapping holds under that path, so the path
    stays in the mapping once, with its first content. *)
Theorem C9_present_path_is_noop fuel path base ty co w d :
  deployedFiles co !! path = Some d ->
  retrieveDeployedFile fuel path base ty (co, w) = Some (Ok tt, (co, w)) /\
  forall fuel' a r co' w',
    retrieveAllDeployedFiles fuel' a (co, w) = Some (r, (co', w')) ->
    deployedFiles co' !! path = Some d.
Proof.
  intros Hd. split.
  - unfold retrieveDeployedFile. rewrite retrieveDeployedFileF_eq.
    unfold skipped. rewrite (bool_decide_eq_true_2 (is_Some _)) by eauto.
    by rewrite orb_true_r.
  - intros fuel' a r co' w' H.
    apply retrieveAllDeployedFiles_visits in H as [H _].
    apply visits_deployedFiles in H. simpl in H.
    eapply lookup_weaken; eauto.
Qed.

End Dedup.

(** ** C5: parsing the declared size *)

Module SizeParse.
Import Strconv SizeSpec.

Lemma digitValue_isDigit c :
  digitValue c = if isDigit c then Some (Z.of_nat (nat_of_ascii c) - 48) else None.
Proof.
  unfold digitValue, isDigit.
  destruct (48 <=? nat_of_ascii c)%nat eqn:H1, (nat_of_ascii c <=? 57)%nat eqn:H2;
    simpl;
    repeat match goal with
    | H : (_ <=? _)%nat = true |- _ => apply Nat.leb_le in H
    | H : (_ <=? _)%nat = false |- _ => apply Nat.leb_gt in H
    end.
  - rewrite (proj2 (Z.leb_le _ _)) by lia. rewrite (proj2 (Z.leb_le _ _)) by lia. reflexivity.
  - rewrite (proj2 (Z.leb_le _ _)) by lia. rewrite (proj2 (Z.leb_gt _ _)) by lia. reflexivity.
  - rewrite (proj2 (Z.leb_gt _ _)) by lia. reflexivity.
  - rewrite (proj2 (Z.leb_gt _ _)) by lia. reflexivity.
Qed.

Lemma isDigit_range c :
  isDigit c = true -> 0 <= Z.of_nat (nat_of_ascii c) - 48 <= 9.
Proof.
  unfold isDigit. intros H. apply andb_true_iff in H as [H1 H2].
  apply Nat.leb_le in H1, H2. lia.
Qed.

Lemma decimalValue_bounds s :
  allDigits s = true ->
  0 <= decimalValue s < 10 ^ Z.of_nat (String.length s).
Proof.
  induction s as [|c r IH]; simpl String.length; simpl allDigits; simpl decimalValue.
  - intros _. simpl. lia.
  - intros H. apply andb_true_iff in H as [Hc Hr].
    specialize (IH Hr). apply isDigit_range in Hc.
    rewrite Nat2Z.inj_succ, Z.pow_succ_r by lia.
    nia.
Qed.

Lemma fastLoop_spec s n :
  fastLoop n s =
  if allDigits s
  then Some (n * 10 ^ Z.of_nat (String.length s) + decimalValue s)
  else None.
Proof.
  revert n. induction s as [|c r IH]; intros n; simpl fastLoop; simpl allDigits.
  - simpl. f_equal. lia.
  - rewrite digitValue_isDigit. destruct (isDigit c); simpl; [|reflexivity].
    rewrite IH. destruct (allDigits r); [|reflexivity].
    f_equal. simpl String.length. simpl decimalValue.
    rewrite Nat2Z.inj_succ, Z.pow_succ_r by lia. ring.
Qed.

Lemma parseUintLoop_spec s n :
  0 <= n < 2 ^ 64 ->
  forall v,
    parseUintLoop n s = inr v <->
    allDigits s = true /\
    v = n * 10 ^ Z.of_nat (String.length s) + decimalValue s /\ v < 2 ^ 64.
Proof.
  revert n. induction s as [|c r IH]; intros n Hn v; simpl parseUintLoop; simpl allDigits.
  - simpl. split.
    + intros [= <-]. split; [reflexivity|]. lia.
    + intros (_ & -> & _). f_equal. lia.
  - rewrite digitValue_isDigit. destruct (isDigit c) eqn:Hc; simpl.
    2:{ split; [discriminate|]. intros [[=] _]. }
    pose proof (isDigit_range c Hc) as Hd.
    set (d := Z.of_nat (nat_of_ascii c) - 48) in *.
    simpl String.length. simpl decimalValue. fold d.
    rewrite Nat2Z.inj_succ, Z.pow_succ_r by lia.
    assert (Hp : 0 < 10 ^ Z.of_nat (String.length r)) by (apply Z.pow_pos_nonneg; lia).
    assert (Hmax : maxUint64 / 10 + 1 = 1844674407370955162) by reflexivity.
    assert (H64 : 2 ^ 64 = 18446744073709551616) by reflexivity.
    unfold maxUint64 in *. rewrite Hmax.
    destruct (Z.leb_spec 1844674407370955162 n) as [Hcut|Hcut].
    { split; [discriminate|]. intros (Hr & -> & Hv).
      pose proof (decimalValue_bounds r Hr). exfalso. nia. }
    destruct (Z.ltb_spec ((n * 10 + d) mod 2 ^ 64) (n * 10)) as [Hov|Hov]; simpl.
    { split; [discriminate|]. intros (Hr & -> & Hv).
      pose proof (decimalValue_bounds r Hr).
      assert (n * 10 + d < 2 ^ 64) by nia.
      rewrite Z.mod_small in Hov by lia. lia. }
    assert (Hsmall : n * 10 + d < 2 ^ 64).
    { destruct (Z.lt_ge_cases (n * 10 + d) (2 ^ 64)) as [|Hge]; [assumption|].
      exfalso.
      assert (Hm : (n * 10 + d) mod 2 ^ 64 = n * 10 + d - 2 ^ 64).
      { symmetry. apply Z.mod_unique with (q := 1); lia. }
      lia. }
    rewrite Z.mod_small in * by lia.
    destruct (Z.ltb_spec (2 ^ 64 - 1) (n * 10 + d)) as [Hbig|Hbig]; [lia|].
    rewrite IH by lia. split.
    + intros (Hr & -> & Hv). split; [assumption|]. split; [ring|]. lia.
    + intros (Hr & -> & Hv). split; [assumption|]. split; [ring|]. lia.
Qed.

Lemma isDigit_minus : isDigit "-" = false. Proof. reflexivity. Qed.
Lemma isDigit_plus : isDigit "+" = false. Proof. reflexivity. Qed.

Lemma encodesInteger_nil n : ~ encodesInteger "" n.
Proof.
  intros (sign & digits & Hs & _ & Hd & _).
  destruct sign; simpl in Hs; [|discriminate].
  destruct digits; [congruence|discriminate].
Qed.

(** The sign of an encoded integer is read off its first byte. *)
Lemma encodesInteger_cons c r n :
  encodesInteger (String c r) n <->
  (c = "-"%char /\ r <> "" /\ allDigits r = true /\ n = - decimalValue r) \/
  (c = "+"%char /\ r <> "" /\ allDigits r = true /\ n = decimalValue r) \/
  (allDigits (String c r) = true /\ n = decimalValue (String c r)).
Proof.
  split.
  - intros (sign & digits & Hs & Hsign & Hne & Hd & Hn).
    destruct Hsign as [-> | [-> | ->]]; simpl in Hn.
    + change (String c r = digits) in Hs. subst digits. right. right. auto.
    + change (String c r = String "+" digits) in Hs.
      injection Hs as -> ->. right. left. auto.
    + change (String c r = String "-" digits) in Hs.
      injection Hs as -> ->. left. auto.
  - intros [(-> & Hne & Hd & ->) | [(-> & Hne & Hd & ->) | (Hd & ->)]].
    + exists "-", r. simpl. split; [reflexivity|]. auto 10.
    + exists "+", r. simpl. split; [reflexivity|]. auto 10.
    + exists "", (String c r). simpl. split; [reflexivity|].
      split; [auto|]. split; [discriminate|]. auto.
Qed.

Lemma allDigits_first c r :
  allDigits (String c r) = true -> c <> "-"%char /\ c <> "+"%char.
Proof.
  simpl. intros H. apply andb_true_iff in H as [H _].
  split; intros ->; discriminate.
Qed.

Lemma pow10_le (k : nat) : (k <= 18)%nat -> 10 ^ Z.of_nat k <= 10 ^ 18.
Proof. intros H. apply Z.pow_le_mono_r; lia. Qed.

Lemma short_fits s :
  allDigits s = true -> (String.length s <= 18)%nat ->
  0 <= decimalValue s < 2 ^ 63.
Proof.
  intros Hd Hl. pose proof (decimalValue_bounds s Hd).
  pose proof (pow10_le _ Hl).
  assert (10 ^ 18 < 2 ^ 63) by reflexivity. lia.
Qed.

Lemma ParseUint_spec s v :
  ParseUint s = inr v <->
  s <> "" /\ allDigits s = true /\ v = decimalValue s /\ v < 2 ^ 64.
Proof.
  unfold ParseUint. destruct s as [|c r].
  - split; [discriminate|]. intros [H _]. congruence.
  - rewrite parseUintLoop_spec by (split; [lia|reflexivity]).
    rewrite Z.mul_0_l, Z.add_0_l. split.
    + intros (? & ? & ?). split; [discriminate|]. auto.
    + intros (_ & ? & ? & ?). auto.
Qed.

(** The digits after the sign, on the fast path and on the slow path. *)
Lemma fast_digits (neg : bool) s1 n :
  (String.length s1 <= 18)%nat ->
  match fastLoop 0 s1 with
  | None => inl ErrSyntax
  | Some v => inr (if neg then - v else v)
  end = inr n ->
  allDigits s1 = true /\
  n = (if neg then - decimalValue s1 else decimalValue s1) /\ fitsInt n.
Proof.
  intros Hl. rewrite fastLoop_spec.
  destruct (allDigits s1) eqn:Hd; [|discriminate].
  intros [= <-]. rewrite Z.mul_0_l, Z.add_0_l.
  pose proof (short_fits _ Hd Hl). unfold fitsInt.
  split; [reflexivity|]. split; [reflexivity|]. destruct neg; lia.
Qed.

Lemma slow_digits (neg : bool) s1 n :
  match ParseUint s1 with
  | inl ErrSyntax => inl ErrSyntax
  | inl ErrRange => inl ErrRange
  | inr un =>
      if negb neg && (2 ^ (intSize - 1) <=? un) then inl ErrRange
      else if neg && (2 ^ (intSize - 1) <? un) then inl ErrRange
      else inr (if neg then - un else un)
  end = inr n ->
  s1 <> "" /\ allDigits s1 = true /\
  n = (if neg then - decimalValue s1 else decimalValue s1) /\ fitsInt n.
Proof.
  assert (H63 : 2 ^ (intSize - 1) = 2 ^ 63) by reflexivity. rewrite H63.
  destruct (ParseUint s1) as [[]|un] eqn:Hu; [discriminate|discriminate|].
  apply ParseUint_spec in Hu as (Hne & Hd & -> & Hv).
  pose proof (decimalValue_bounds s1 Hd). unfold fitsInt.
  destruct neg; simpl.
  - destruct (Z.ltb_spec (2 ^ 63) (decimalValue s1)); [discriminate|].
    intros [= <-]. repeat split; auto; lia.
  - destruct (Z.leb_spec (2 ^ 63) (decimalValue s1)); [discriminate|].
    intros [= <-]. repeat split; auto; lia.
Qed.

(** The other way round: an encoded integer in range is parsed. *)
Lemma fast_digits_complete (neg : bool) s1 :
  allDigits s1 = true ->
  match fastLoop 0 s1 with
  | None => inl ErrSyntax
  | Some v => inr (if neg then - v else v)
  end = inr (if neg then - decimalValue s1 else decimalValue s1).
Proof.
  intros Hd. rewrite fastLoop_spec, Hd. by rewrite Z.mul_0_l, Z.add_0_l.
Qed.

Lemma slow_digits_complete (neg : bool) s1 :
  s1 <> "" -> allDigits s1 = true ->
  fitsInt (if neg then - decimalValue s1 else decimalValue s1) ->
  match ParseUint s1 with
  | inl ErrSyntax => inl ErrSyntax
  | inl ErrRange => inl ErrRange
  | inr un =>
      if negb neg && (2 ^ (intSize - 1) <=? un) then inl ErrRange
      else if neg && (2 ^ (intSize - 1) <? un) then inl ErrRange
      else inr (if neg then - un else un)
  end = inr (if neg then - decimalValue s1 else decimalValue s1).
Proof.
  intros Hne Hd Hfit. unfold fitsInt in Hfit.
  assert (H63 : 2 ^ (intSize - 1) = 2 ^ 63) by reflexivity. rewrite H63.
  pose proof (decimalValue_bounds s1 Hd).
  assert (H64 : 2 ^ 64 = 2 * 2 ^ 63) by reflexivity.
  assert (Hu : ParseUint s1 = inr (decimalValue s1)).
  { apply ParseUint_spec. repeat split; auto. destruct neg; lia. }
  rewrite Hu. destruct neg; simpl.
  - destruct (Z.ltb_spec (2 ^ 63) (decimalValue s1)); [lia|reflexivity].
  - destruct (Z.leb_spec (2 ^ 63) (decimalValue s1)); [lia|reflexivity].
Qed.

Local Arguments fastLoop : simpl never.
Local Arguments ParseUint : simpl never.
Local Arguments decimalValue : simpl never.
Local Arguments allDigits : simpl never.
Local Arguments Z.pow : simpl never.
Local Arguments Z.sub : simpl never.

(** The fast path and the slow path of [Atoi] accept the same strings. *)
Lemma Atoi_sound s n : Atoi s = inr n -> encodesInteger s n /\ fitsInt n.
Proof.
  unfold Atoi.
  destruct ((0 <? String.length s)%nat && (String.length s <? 19)%nat) eqn:Hlen.
  - apply andb_true_iff in Hlen as [_ Hlen]. apply Nat.ltb_lt in Hlen.
    destruct s as [|c r]; [discriminate|]. simpl String.length in Hlen.
    rewrite encodesInteger_cons.
    destruct (Ascii.eqb_spec c "-") as [->|Hm]; simpl.
    + destruct r as [|c' r']; [discriminate|]. change (String.length (String c' r') <? 1)%nat with false.
      cbv iota. intros H.
      apply (fast_digits true (String c' r') n ltac:(simpl in *; lia))
        in H as (Hd & -> & Hf).
      split; [|assumption]. left. repeat split; auto; discriminate.
    + destruct (Ascii.eqb_spec c "+") as [->|Hp]; simpl.
      * destruct r as [|c' r']; [discriminate|]. change (String.length (String c' r') <? 1)%nat with false.
        cbv iota. intros H.
        apply (fast_digits false (String c' r') n ltac:(simpl in *; lia))
          in H as (Hd & -> & Hf).
        split; [|assumption]. right. left. repeat split; auto; discriminate.
      * intros H.
        apply (fast_digits false (String c r) n ltac:(simpl in *; lia))
          in H as (Hd & -> & Hf).
        split; [|assumption]. right. right. auto.
  - unfold ParseInt. destruct s as [|c r]; [discriminate|].
    rewrite encodesInteger_cons.
    destruct (Ascii.eqb_spec c "-") as [->|Hm]; simpl orb; cbv iota.
    + intros H. apply (slow_digits true) in H as (Hne & Hd & -> & Hf).
      split; [|assumption]. left. auto.
    + destruct (Ascii.eqb_spec c "+") as [->|Hp]; simpl orb; cbv iota.
      * intros H. apply (slow_digits false) in H as (Hne & Hd & -> & Hf).
        split; [|assumption]. right. left. auto.
      * intros H. apply (slow_digits false) in H as (Hne & Hd & -> & Hf).
        split; [|assumption]. right. right. auto.
Qed.

Lemma Atoi_complete s n : encodesInteger s n -> fitsInt n -> Atoi s = inr n.
Proof.
  intros He Hf. unfold Atoi.
  destruct s as [|c r]; [by apply encodesInteger_nil in He|].
  apply encodesInteger_cons in He.
  destruct ((0 <? String.length (String c r))%nat
            && (String.length (String c r) <? 19)%nat) eqn:Hlen.
  - destruct He as [(-> & Hne & Hd & ->) | [(-> & Hne & Hd & ->) | (Hd & ->)]]; simpl.
    + destruct r as [|c' r']; [congruence|]. change (String.length (String c' r') <? 1)%nat with false.
      cbv iota. apply (fast_digits_complete true _ Hd).
    + destruct r as [|c' r']; [congruence|]. change (String.length (String c' r') <? 1)%nat with false.
      cbv iota. apply (fast_digits_complete false _ Hd).
    + destruct (allDigits_first _ _ Hd) as [Hm Hp].
      destruct (Ascii.eqb_spec c "-"); [congruence|].
      destruct (Ascii.eqb_spec c "+"); [congruence|]. simpl.
      apply (fast_digits_complete false _ Hd).
  - unfold ParseInt.
    destruct He as [(-> & Hne & Hd & ->) | [(-> & Hne & Hd & ->) | (Hd & ->)]];
      simpl orb; cbv iota.
    + apply (slow_digits_complete true _ Hne Hd Hf).
    + apply (slow_digits_complete false _ Hne Hd Hf).
    + destruct (allDigits_first _ _ Hd) as [Hm Hp].
      destruct (Ascii.eqb_spec c "-"); [congruence|].
      destruct (Ascii.eqb_spec c "+"); [congruence|]. simpl orb. cbv iota.
      apply (slow_digits_complete false (String c r) ltac:(discriminate) Hd Hf).
Qed.

Section Resolve.
Context `{env : Env}.

(** C5, as amended.  The declared size is parsed as a signed integer: the
    parse succeeds, with that value, exactly when the string is an optional
    ['+'] or ['-'] followed by one or more decimal digits and the value fits
    a 64-bit [int]; resolving the entry fails with the error of the parse
    exactly when the string is no such encoding; and the size of a resolved
    entry is the encoded value (which may be negative). *)
Theorem C5_size_parses_as_signed_int (deployedFileUrl : URL) (deployedFile : coBase) :
  (forall n, Atoi (Size deployedFile) = inr n
             <-> encodesInteger (Size deployedFile) n /\ fitsInt n) /\
  ((exists e, remoteFileInfo deployedFileUrl deployedFile = Err (ErrAtoi e))
   <-> ~ exists n, encodesInteger (Size deployedFile) n /\ fitsInt n) /\
  (forall rf, remoteFileInfo deployedFileUrl deployedFile = Ok rf ->
              encodesInteger (Size deployedFile) (size rf) /\ fitsInt (size rf)).
Proof.
  assert (Hiff : forall n, Atoi (Size deployedFile) = inr n
             <-> encodesInteger (Size deployedFile) n /\ fitsInt n).
  { intros n. split; [apply Atoi_sound|]. intros [? ?]. by apply Atoi_complete. }
  split; [exact Hiff|]. unfold remoteFileInfo. split; [split|].
  - intros [e He] [n Hn]. apply Hiff in Hn. rewrite Hn in He.
    destruct (parseFragment _); discriminate.
  - intros Hno. destruct (Atoi (Size deployedFile)) as [e|n] eqn:Ha; [eauto|].
    exfalso. apply Hno. exists n. by apply Hiff.
  - intros rf. destruct (Atoi (Size deployedFile)) as [e|n] eqn:Ha; [discriminate|].
    destruct (parseFragment _); [|discriminate].
    intros [= <-]. simpl. by apply Hiff.
Qed.

End Resolve.

(** C5, as stated, fails both ways.  ["-1"] is no encoding of a
    non-negative integer, yet the entry resolves, with size [-1];
    ["9223372036854775808"] encodes a non-negative integer, yet resolving
    the entry fails. *)
Lemma C5_counterexample :
  let negative := {| Size := "-1"; Hash := Hash (Demo.entryFor "x") |} in
  let huge := {| Size := "9223372036854775808"; Hash := Hash (Demo.entryFor "x") |} in
  (~ encodesNonNegativeInteger (Size negative) /\
   exists rf, remoteFileInfo (env := Demo.demoEnv [] []) "http://h/a.exe" negative = Ok rf
              /\ size rf = -1) /\
  (encodesNonNegativeInteger (Size huge) /\
   remoteFileInfo (env := Demo.demoEnv [] []) "http://h/a.exe" huge
     = Err (ErrAtoi ErrRange)).
Proof.
  split.
  - split.
    + intros [_ H]. discriminate H.
    + eexists. split; [vm_compute; reflexivity|reflexivity].
  - split.
    + split; [discriminate|reflexivity].
    + vm_compute. reflexivity.
Qed.

End SizeParse.

(** ** C1: errors of a traversal *)

Module TraversalErrors.
Import Demo Scenario Scenario.BadSize.

(** C1.  The nested manifest [sub/app.manifest] lists [bad.bin], whose
    size ["abc"] does not parse, so resolving it fails.  The error reaches
    no caller: [retrieveAllDeployedFiles] answers [return nil] to it, [Get]
    returns nil, and the traversal goes on in the parent, where
    [readme.txt] is fetched and recorded after the failure. *)
Theorem C1_traversal_error_is_dropped :
  remoteFileInfo (env := env) "http://h/app/sub/bad.bin" (fileBase bad)
    = Err (ErrAtoi Strconv.ErrSyntax) /\
  exists co w,
    Get (env := env) 5 [] start = Some (Ok tt, (co, w)) /\
    requests w = ["http://h/app/sub/app.manifest";
                  "http://h/app/sub/readme.txt.deploy"] /\
    deployedFiles co !! "bad.bin" = None /\
    is_Some (deployedFiles co !! "readme.txt").
Proof.
  split; [reflexivity|].
  eexists _, _. split; [vm_compute; reflexivity|].
  split; [reflexivity|]. split; [reflexivity|].
  eexists. vm_compute. reflexivity.
Qed.

End TraversalErrors.

(** ** C3: the fallback without the suffix *)

Module SuffixFallback.
Import Demo Scenario Scenario.NoSuffix.

(** C3.  [tool.exe] is served at its plain URL only.  The suffixed URL is
    tried first and answers 404, the retry at the plain URL answers 200 with
    a body that has the declared size and digest.  The body that is checked
    is the one of the 404 answer, so the download fails with a size
    mismatch, nothing is recorded, the no-suffix flag of the session stays
    unset, and the next download tries the suffixed URL again. *)
Theorem C3_fallback_checks_the_404_body :
  httpGet (Env := env) ["http://h/app/tool.exe.deploy"] "http://h/app/tool.exe"
    = Response 200 (Some (bytes "payload")) /\
  size tool = Z.of_nat (length (bytes "payload")) /\
  digest tool = Base64.EncodeToString (sha256Sum (Env := env) (bytes "payload")) /\
  downloadAndCheck tool true (@emptyWorld env)
    = ({| requests := ["http://h/app/tool.exe.deploy"; "http://h/app/tool.exe"];
          written := [] |},
       false, Err (ErrSizeMismatch "tool.exe" 7 9)) /\
  exists co w,
    retrieveDeployedFile (env := env) 1 "tool.exe" (entryFor "payload")
      NonAssemblyFile start
      = Some (Err (ErrSizeMismatch "tool.exe" 7 9), (co, w)) /\
    noSuffix co = false /\
    deployedFiles co !! "tool.exe" = None /\
    exists r co' w',
      retrieveDeployedFile (env := env) 1 "lib.dll" (entryFor "library")
        NonAssemblyFile (co, w) = Some (r, (co', w')) /\
      requests w' = ["http://h/app/tool.exe.deploy"; "http://h/app/tool.exe";
                     "http://h/app/lib.dll.deploy"; "http://h/app/lib.dll"].
Proof.
  split; [reflexivity|]. split; [reflexivity|]. split; [reflexivity|].
  split; [vm_compute; reflexivity|].
  eexists _, _. split; [vm_compute; reflexivity|].
  split; [reflexivity|]. split; [reflexivity|].
  eexists _, _, _. split; [vm_compute; reflexivity|]. reflexivity.
Qed.

End SuffixFallback.

(** ** C4: what a subset retrieval writes *)

Module SubsetPersistence.
Import Demo Scenario Scenario.Subset.

(** C4.  [Get(["a.exe"])] with the output directory [out]: the manifest
    [app.exe.manifest] is not filtered out and is traversed, [b.dll] is
    skipped.  Recording the manifest stores its name in [co.subset], so
    [saveDeployedFile] finds it there and writes the manifest to disk next
    to [a.exe], though it was not requested. *)
Theorem C4_traversed_manifest_is_written :
  exists co w,
    Get (env := env) 5 ["a.exe"] start = Some (Ok tt, (co, w)) /\
    requests w = ["http://h/app/app.exe.manifest"; "http://h/app/a.exe.deploy"] /\
    deployedFiles co !! "b.dll" = None /\
    subset co = Some {[ "a.exe" := true; "app.exe.manifest" := true ]} /\
    ("out/app.exe.manifest", bytes "<app/>") ∈ written w /\
    ("out/a.exe", bytes "program") ∈ written w.
Proof.
  eexists _, _. split; [vm_compute; reflexivity|].
  split; [reflexivity|]. split; [reflexivity|].
  split; [f_equal; apply map_eq; intros k; vm_compute; reflexivity|].
  split; apply list_elem_of_In; vm_compute; tauto.
Qed.

End SubsetPersistence.

(** ** C2: verification of a downloaded body *)

Section Verification.
Context `{env : Env}.

(** What [downloadAndCheck] returns once it holds the body it reads. *)
Lemma downloadAndCheck_checks file suffix w status body :
  supported (algorithm file) ->
  httpGet (requests w) (candidateUrl file suffix) = Response status (Some body) ->
  (status = StatusNotFound ->
   exists status' body',
     httpGet (requests w ++ [candidateUrl file suffix]) (fallbackUrl file suffix)
       = Response status' body' /\ status' <> StatusNotFound) ->
  (downloadAndCheck file suffix w).2 =
  if negb (size file =? Z.of_nat (length body))
  then Err (ErrSizeMismatch (Base (urlPath (url file))) (size file)
              (Z.of_nat (length body)))
  else if negb (String.eqb (digest file) (digestOf (algorithm file) body))
  then Err (ErrDigestMismatch (Base (urlPath (url file))))
  else Ok body.
Proof.
  intros Hsup Hres Hretry.
  unfold downloadAndCheck, download, digestOf.
  fold (candidateUrl file suffix). cbv zeta.
  assert (Halg : negb (String.eqb (algorithm file) "sha1")
                 && negb (String.eqb (algorithm file) "sha256") = false).
  { destruct Hsup as [-> | ->]; reflexivity. }
  rewrite Halg. simpl requests. rewrite Hres.
  destruct (Z.eqb_spec status StatusNotFound) as [H404|H404].
  - destruct (Hretry H404) as (status' & body' & Hres' & Hne).
    fold (fallbackUrl file suffix). rewrite Hres'.
    rewrite (proj2 (Z.eqb_neq _ _) Hne).
    repeat case_match; reflexivity.
  - repeat case_match; reflexivity.
Qed.

(** C2.  With a supported algorithm, once [downloadAndCheck] holds the
    body it reads (the response is not a 404, or the retry is not), it
    returns that body exactly when the length of the body is the declared
    size and its base64-encoded digest is the declared digest; a different
    length gives the size-mismatch error, an equal length with a different
    digest gives the digest-mismatch error; and when the download of an
    entry fails so, [retrieveDeployedFile] returns that error and the result
    mapping is as before, without the entry. *)
Theorem C2_download_verifies_size_and_digest file suffix w status body :
  supported (algorithm file) ->
  httpGet (requests w) (candidateUrl file suffix) = Response status (Some body) ->
  (status = StatusNotFound ->
   exists status' body',
     httpGet (requests w ++ [candidateUrl file suffix]) (fallbackUrl file suffix)
       = Response status' body' /\ status' <> StatusNotFound) ->
  let r := (downloadAndCheck file suffix w).2 in
  let filename := Base (urlPath (url file)) in
  (r = Ok body <->
     size file = Z.of_nat (length body) /\
     digest file = digestOf (algorithm file) body) /\
  (size file <> Z.of_nat (length body) ->
     r = Err (ErrSizeMismatch filename (size file) (Z.of_nat (length body)))) /\
  (size file = Z.of_nat (length body) ->
   digest file <> digestOf (algorithm file) body ->
     r = Err (ErrDigestMismatch filename)) /\
  (forall fuel co path deployedFile ty b,
     skipped co path = false ->
     baseUrl co = Some b ->
     urlParse b (ReplaceBackslash path) = Some (url file) ->
     remoteFileInfo (url file) deployedFile = Ok file ->
     suffix = negb (noSuffix co) ->
     r <> Ok body ->
     exists e co',
       r = Err e /\
       retrieveDeployedFile fuel path deployedFile ty (co, w)
         = Some (Err e, (co', (downloadAndCheck file suffix w).1.1)) /\
       deployedFiles co' = deployedFiles co /\
       deployedFiles co' !! path = None).
Proof.
  intros Hsup Hres Hretry r filename.
  pose proof (downloadAndCheck_checks file suffix w status body Hsup Hres Hretry) as Hr.
  fold r filename in Hr.
  destruct (Z.eqb_spec (size file) (Z.of_nat (length body))) as [Hsz|Hsz];
    simpl in Hr.
  - destruct (String.eqb_spec (digest file) (digestOf (algorithm file) body))
      as [Hdg|Hdg]; simpl in Hr.
    + split; [split; auto|]. split; [congruence|]. split; [congruence|].
      intros; congruence.
    + split; [split; [rewrite Hr; discriminate|tauto]|].
      split; [congruence|]. split; [auto|].
      intros fuel co path deployedFile ty b Hsk Hb Hu Hrf -> _.
      exists (ErrDigestMismatch filename), (rebased ty path (url file) co).
      split; [exact Hr|]. split.
      * unfold retrieveDeployedFile. rewrite retrieveDeployedFileF_eq, Hsk, Hb, Hu, Hrf.
        destruct (downloadAndCheck file (negb (noSuffix co)) w) as [[w1 sfx] r1] eqn:Hd.
        simpl in *. subst r r1. reflexivity.
      * rewrite deployedFiles_rebased. split; [reflexivity|].
        by apply skipped_false_fresh.
  - split; [split; [rewrite Hr; discriminate|tauto]|].
    split; [auto|]. split; [congruence|].
    intros fuel co path deployedFile ty b Hsk Hb Hu Hrf -> _.
    exists (ErrSizeMismatch filename (size file) (Z.of_nat (length body))),
      (rebased ty path (url file) co).
    split; [exact Hr|]. split.
    + unfold retrieveDeployedFile. rewrite retrieveDeployedFileF_eq, Hsk, Hb, Hu, Hrf.
      destruct (downloadAndCheck file (negb (noSuffix co)) w) as [[w1 sfx] r1] eqn:Hd.
      simpl in *. subst r r1. reflexivity.
    + rewrite deployedFiles_rebased. split; [reflexivity|].
      by apply skipped_false_fresh.
Qed.

End Verification.

(** ** C6: the base URL and nested manifests *)

Section Rebase.
Context `{env : Env}.

Lemma remoteFileInfo_url u deployedFile rf :
  remoteFileInfo u deployedFile = Ok rf -> url rf = u.
Proof.
  unfold remoteFileInfo. repeat case_match; intros; simplify_eq. reflexivity.
Qed.

Lemma rebases_trans b1 b2 b3 : rebases b1 b2 -> rebases b2 b3 -> rebases b1 b3.
Proof.
  induction 1 as [|b path u b' Hm Hu _ IH]; [auto|].
  intros H. eapply rebases_step; eauto.
Qed.

Lemma baseUrl_subsetStore name v co :
  baseUrl (subsetStore name v co) = baseUrl co.
Proof. unfold subsetStore. by destruct (subset co). Qed.

Lemma baseUrl_stored path ty content sfx co :
  baseUrl (stored path ty content sfx co) = baseUrl co.
Proof. unfold stored. by rewrite baseUrl_subsetStore. Qed.

Lemma baseUrl_rebased ty path u co :
  baseUrl (rebased ty path u co)
  = if rebasing ty path then Some u else baseUrl co.
Proof. unfold rebased. by destruct (rebasing ty path). Qed.

Lemma rebasing_manifest ty path :
  rebasing ty path = true -> isManifest (entryName path) = true.
Proof. unfold rebasing. intros H. by apply andb_true_iff in H as [_ H]. Qed.

(** One visit leaves the base URL alone or rebases it. *)
Lemma visit_rebases s s' : visit s s' -> rebases (baseUrl s.1) (baseUrl s'.1).
Proof.
  destruct 1 as [co w path ty b u w1 Hsk Hb Hu _ _
                |co w path base ty b u rf sfx content w1 Hsk Hb Hu _ _]; simpl.
  - rewrite baseUrl_rebased. destruct (rebasing ty path) eqn:Hr; [|constructor].
    rewrite Hb. eapply rebases_step; eauto using rebasing_manifest. constructor.
  - rewrite baseUrl_stored, baseUrl_rebased.
    destruct (rebasing ty path) eqn:Hr; [|constructor].
    rewrite Hb. eapply rebases_step; eauto using rebasing_manifest. constructor.
Qed.

Lemma visits_rebases s s' : rtc visit s s' -> rebases (baseUrl s.1) (baseUrl s'.1).
Proof.
  induction 1 as [|s1 s2 s3 Hv _ IH]; [constructor|].
  eapply rebases_trans; [|exact IH]. by apply visit_rebases.
Qed.

(** The traversal of a manifest that lists no manifest keeps the base URL. *)
Section PlainLoops.
Variable rec : coAssembly -> M unit.

Lemma plain_visit path base ty s r s' :
  isManifest (entryName path) = false ->
  retrieveDeployedFileF rec path base ty s = Some (r, s') ->
  baseUrl s'.1 = baseUrl s.1.
Proof.
  intros Hm. destruct s as [co w]. rewrite retrieveDeployedFileF_eq.
  assert (Hreb : forall u, baseUrl (rebased ty path u co) = baseUrl co).
  { intros u. rewrite baseUrl_rebased. unfold rebasing. rewrite Hm.
    by rewrite andb_false_r. }
  rewrite Hm. repeat case_match; intros [= <- <-]; simpl;
    rewrite ?baseUrl_stored, ?Hreb; first [reflexivity | congruence].
Qed.

Lemma plain_rangeFile files s r s' :
  (forall f, f ∈ files -> isManifest (entryName (Name f)) = false) ->
  rangeFile rec files s = Some (r, s') -> baseUrl s'.1 = baseUrl s.1.
Proof.
  revert s. induction files as [|f rest IH]; intros s Hp; simpl.
  - by intros [= <- <-].
  - destruct (retrieveDeployedFileF rec (Name f) (fileBase f) NonAssemblyFile s)
      as [[[[]|e] s1]|] eqn:Hv; [| |discriminate].
    + intros H. apply IH in H; [|intros; apply Hp; by right].
      rewrite H. eapply plain_visit; eauto. apply Hp. by left.
    + intros [= <- <-]. eapply plain_visit; eauto. apply Hp. by left.
Qed.

Lemma plain_rangeDependentAssembly deps files s r s' :
  (forall d, d ∈ deps -> isManifest (entryName (Codebase d)) = false) ->
  (forall f, f ∈ files -> isManifest (entryName (Name f)) = false) ->
  rangeDependentAssembly rec deps files s = Some (r, s') ->
  baseUrl s'.1 = baseUrl s.1.
Proof.
  revert s. induction deps as [|d rest IH]; intros s Hd Hf; simpl.
  - by apply plain_rangeFile.
  - destruct (negb _); [apply IH; auto; intros; apply Hd; by right|].
    destruct (retrieveDeployedFileF rec (Codebase d) (depBase d) AssemblyDependency s)
      as [[[[]|e] s1]|] eqn:Hv; [| |discriminate].
    + intros H. apply IH in H; auto; [|intros; apply Hd; by right].
      rewrite H. eapply plain_visit; eauto. apply Hd. by left.
    + intros [= <- <-]. eapply plain_visit; eauto. apply Hd. by left.
Qed.

End PlainLoops.

Lemma plain_traversal fuel a s r s' :
  plain a ->
  retrieveAllDeployedFiles fuel a s = Some (r, s') -> baseUrl s'.1 = baseUrl s.1.
Proof.
  intros [Hd Hf]. destruct fuel as [|fuel]; simpl; [discriminate|].
  by apply plain_rangeDependentAssembly.
Qed.

(** C6, as amended.  An install dependency that is a manifest, not
    skipped, resolved to [u] against the current base:
    - the base URL is [u] before the download: whenever the visit ends with
      an error, the base URL it leaves is [u];
    - whatever the nested traversal does, the base URL it leaves is [u] or a
      further rebasing of [u], never the base of the parent again, and it
      is [u] itself when the nested manifest lists no manifest;
    - the entry visited next from there, a later sibling in the parent
      included, is resolved against the base URL so left: when it ends up
      in the result mapping, its content was downloaded from the resolution
      of its path against that base. *)
Theorem C6_rebase_before_download_and_onwards
  fuel path deployedFile co w b u r co' w' :
  skipped co path = false ->
  isManifest (entryName path) = true ->
  baseUrl co = Some b ->
  urlParse b (ReplaceBackslash path) = Some u ->
  retrieveDeployedFile fuel path deployedFile AssemblyDependency (co, w)
    = Some (r, (co', w')) ->
  (forall e, r = Err e -> baseUrl co' = Some u) /\
  rebases (Some u) (baseUrl co') /\
  (forall d a, deployedFiles co' !! path = Some d ->
               xmlDecode (Content d) = Some a -> plain a ->
               baseUrl co' = Some u) /\
  (forall fuel2 path2 deployedFile2 ty2 r2 co2 w2 u' d2,
     baseUrl co' = Some u' ->
     skipped co' path2 = false ->
     retrieveDeployedFile fuel2 path2 deployedFile2 ty2 (co', w') = Some (r2, (co2, w2)) ->
     deployedFiles co2 !! path2 = Some d2 ->
     exists u2 rf sfx w1,
       urlParse u' (ReplaceBackslash path2) = Some u2 /\
       remoteFileInfo u2 deployedFile2 = Ok rf /\ url rf = u2 /\
       downloadAndCheck rf (negb (noSuffix co')) w' = (w1, sfx, Ok (Content d2))).
Proof.
  intros Hsk Hm Hb Hu Hrun.
  assert (Hreb : rebased AssemblyDependency path u co = set_baseUrl (Some u) co).
  { unfold rebased, rebasing. by rewrite Hm. }
  unfold retrieveDeployedFile in Hrun.
  rewrite retrieveDeployedFileF_eq, Hsk, Hb, Hu, Hm, Hreb in Hrun.
  split; [|split; [|split]].
  - (* the base is set before anything can fail *)
    intros e ->.
    destruct (remoteFileInfo u deployedFile) as [rf|e1]; [|by injection Hrun as _ <- <-].
    destruct (downloadAndCheck rf _ w) as [[w1 sfx] [content|e1]];
      [|by injection Hrun as _ <- <-].
    cbv zeta in Hrun. unfold subApplicationF in Hrun.
    destruct (decodeManifest content) as [a|e1].
    + by apply retrieveAllDeployedFiles_visits in Hrun as [_ ?].
    + injection Hrun as _ <- <-. by rewrite baseUrl_stored.
  - (* only rebasing moves it afterwards *)
    destruct (remoteFileInfo u deployedFile) as [rf|e1];
      [|injection Hrun as _ <- <-; constructor].
    destruct (downloadAndCheck rf _ w) as [[w1 sfx] [content|e1]];
      [|injection Hrun as _ <- <-; constructor].
    cbv zeta in Hrun. unfold subApplicationF in Hrun.
    destruct (decodeManifest content) as [a|e1].
    + apply retrieveAllDeployedFiles_visits in Hrun as [Hv _].
      apply visits_rebases in Hv. simpl in Hv. by rewrite baseUrl_stored in Hv.
    + injection Hrun as _ <- <-. rewrite baseUrl_stored. constructor.
  - (* a nested manifest that lists no manifest *)
    intros d a Hd Ha Hplain.
    destruct (remoteFileInfo u deployedFile) as [rf|e1].
    2:{ injection Hrun as _ <- <-. reflexivity. }
    destruct (downloadAndCheck rf _ w) as [[w1 sfx] [content|e1]].
    2:{ injection Hrun as _ <- <-. reflexivity. }
    cbv zeta in Hrun. unfold subApplicationF, decodeManifest in Hrun.
    destruct (xmlDecode content) as [a'|] eqn:Ha'.
    + pose proof Hrun as Hv.
      apply retrieveAllDeployedFiles_visits in Hv as [Hv _].
      apply visits_deployedFiles in Hv. simpl in Hv.
      rewrite deployedFiles_stored in Hv.
      assert (Hd' : deployedFiles co' !! path
                    = Some {| Type_ := AssemblyDependency; Content := content |}).
      { eapply lookup_weaken; [|exact Hv]. apply lookup_insert_eq. }
      rewrite Hd in Hd'. injection Hd' as ->. simpl in Ha.
      rewrite Ha in Ha'. injection Ha' as <-.
      apply plain_traversal in Hrun; [|assumption]. simpl in Hrun.
      by rewrite Hrun, baseUrl_stored.
    + injection Hrun as _ <- <-. by rewrite baseUrl_stored.
  - (* the next entry is resolved against the base so left *)
    clear Hrun. intros fuel2 path2 deployedFile2 ty2 r2 co2 w2 u' d2 Hb' Hsk2 Hrun2 Hd2.
    unfold retrieveDeployedFile in Hrun2.
    rewrite retrieveDeployedFileF_eq, Hsk2, Hb' in Hrun2.
    pose proof (skipped_false_fresh _ _ Hsk2) as Hfresh.
    destruct (urlParse u' (ReplaceBackslash path2)) as [u2|] eqn:Hu2.
    2:{ injection Hrun2 as _ <- <-. congruence. }
    destruct (remoteFileInfo u2 deployedFile2) as [rf|e1] eqn:Hrf.
    2:{ injection Hrun2 as _ <- <-. rewrite deployedFiles_rebased in Hd2. congruence. }
    destruct (downloadAndCheck rf _ w') as [[w1 sfx] [content|e1]] eqn:Hdl.
    2:{ injection Hrun2 as _ <- <-. rewrite deployedFiles_rebased in Hd2. congruence. }
    exists u2, rf, sfx, w1. split; [reflexivity|]. split; [assumption|].
    split.
    { eapply remoteFileInfo_url; eauto. }
    cbv zeta in Hrun2.
    assert (Hin : deployedFiles co2 !! path2
                  = Some {| Type_ := ty2; Content := content |}).
    { destruct (isManifest (entryName path2)).
      - unfold subApplicationF in Hrun2. destruct (decodeManifest content) as [a|e1].
        + apply retrieveAllDeployedFiles_visits in Hrun2 as [Hv _].
          apply visits_deployedFiles in Hv. simpl in Hv.
          eapply lookup_weaken; [|exact Hv].
          rewrite deployedFiles_stored. apply lookup_insert_eq.
        + injection Hrun2 as _ <- <-. rewrite deployedFiles_stored.
          apply lookup_insert_eq.
      - injection Hrun2 as _ <- <-. rewrite deployedFiles_stored.
        apply lookup_insert_eq. }
    rewrite Hd2 in Hin. injection Hin as ->. exact Hdl.
Qed.

End Rebase.

(** C6, as stated, fails when a second manifest dependency follows: after
    [a/one.manifest] has been traversed the base URL is its URL, and the
    traversal of [b/two.manifest] moves it again, so it does not stay at the
    URL of the first for the rest of the session. *)
Lemma C6_counterexample :
  let env := Scenario.TwoManifests.env in
  exists co1 w1 co w,
    retrieveDeployedFile (env := env) 4 "a/one.manifest"
      (Demo.entryFor "<one/>") AssemblyDependency Scenario.TwoManifests.start
      = Some (Ok tt, (co1, w1)) /\
    baseUrl co1 = Some "http://h/app/a/one.manifest" /\
    Get (env := env) 5 [] Scenario.TwoManifests.start = Some (Ok tt, (co, w)) /\
    is_Some (deployedFiles co !! "a/one.manifest") /\
    baseUrl co = Some "http://h/app/a/b/two.manifest" /\
    baseUrl co <> Some "http://h/app/a/one.manifest".
Proof.
  eexists _, _, _, _. split; [vm_compute; reflexivity|].
  split; [reflexivity|]. split; [vm_compute; reflexivity|].
  split; [eexists; vm_compute; reflexivity|].
  split; [reflexivity|]. discriminate.
Qed.

(** ** The steps of [Get] around the traversal *)

Section Steps.
Context `{env : Env}.

Lemma freshSubset_lookup subset m s :
  freshSubset subset m !! s = if decide (s ∈ subset) then Some false else m !! s.
Proof.
  unfold freshSubset. revert m. induction subset as [|x l IH]; intros m.
  - destruct (decide (s ∈ [])) as [H|H]; [by apply elem_of_nil in H|reflexivity].
  - cbn [foldl]. rewrite IH.
    destruct (decide (s ∈ l)) as [Hl|Hl], (decide (s ∈ x :: l)) as [Hxl|Hxl];
      try reflexivity.
    + exfalso. apply Hxl. by right.
    + apply elem_of_cons in Hxl as [->|?]; [|done]. apply lookup_insert_eq.
    + apply lookup_insert_ne. intros ->. apply Hxl. by left.
Qed.

Lemma set_subset_set_subset x y co :
  set_subset x (set_subset y co) = set_subset x co.
Proof. reflexivity. Qed.

Lemma initSubsetLoop_valid subset m co w :
  "" ∉ subset ->
  initSubsetLoop subset (set_subset (Some m) co, w)
  = Some (Ok tt, (set_subset (Some (freshSubset subset m)) co, w)).
Proof.
  revert m. induction subset as [|s l IH]; intros m Hne; simpl.
  - reflexivity.
  - destruct (String.eqb_spec s "") as [->|Hs].
    { exfalso. apply Hne. by left. }
    unfold bind, modify. simpl. unfold subsetStore. simpl.
    rewrite set_subset_set_subset. apply IH. intros H. apply Hne. by right.
Qed.

Lemma initSubsetLoop_invalid subset m co w :
  "" ∈ subset ->
  exists m', initSubsetLoop subset (set_subset (Some m) co, w)
             = Some (Err ErrEmptyFilename, (set_subset (Some m') co, w)).
Proof.
  revert m. induction subset as [|s l IH]; intros m Hin; simpl.
  - by apply elem_of_nil in Hin.
  - destruct (String.eqb_spec s "") as [->|Hs]; [by exists m|].
    apply elem_of_cons in Hin as [Hin|Hin]; [congruence|].
    unfold bind, modify. simpl. unfold subsetStore. simpl.
    rewrite set_subset_set_subset. by apply IH.
Qed.

Lemma set_notFound_same co : set_notFound (notFound co) co = co.
Proof. by destruct co. Qed.

Lemma findSubsetLoop_spec subset co w :
  findSubsetLoop subset (co, w)
  = Some (Ok tt,
          (set_notFound (notFound co + Z.of_nat (length (missing co subset))) co, w)).
Proof.
  revert co. induction subset as [|s l IH]; intros co; simpl.
  - by rewrite Z.add_0_r, set_notFound_same.
  - unfold bind, modify. simpl. destruct (subsetFlag co s) eqn:Hf; simpl.
    + apply IH.
    + rewrite IH. simpl. unfold missing. simpl.
      replace (subsetFlag (set_notFound (notFound co + 1) co)) with (subsetFlag co)
        by reflexivity.
      do 3 f_equal. unfold set_notFound. simpl. f_equal. lia.
Qed.

Lemma saveLoop_spec entries co w :
  exists r new,
    saveLoop entries (co, w)
    = Some (r, (co, {| requests := requests w; written := written w ++ new |})) /\
    (forall x, x ∈ new ->
       exists path d, (path, d) ∈ entries /\ kept co path /\ x = savedAs co path d) /\
    ((r = Ok tt /\
      forall path d, (path, d) ∈ entries -> kept co path -> savedAs co path d ∈ new)
     \/ exists p, r = Err (ErrWrite p)).
Proof.
  revert w. induction entries as [|[path d] rest IH]; intros w; simpl.
  - exists (Ok tt), []. rewrite app_nil_r. split; [by destruct w|].
    split; [intros x Hx; by apply elem_of_nil in Hx|].
    left. split; [reflexivity|]. intros ? ? Hx. by apply elem_of_nil in Hx.
  - unfold bind, saveDeployedFile. fold (entryName path).
    destruct (subset co) as [m|] eqn:Hs.
    + destruct (m !! entryName path) as [v|] eqn:Hm.
      * rewrite bool_decide_eq_false_2 by discriminate.
        destruct (writeFile _ _ _) eqn:Hw.
        -- destruct (IH {| requests := requests w;
                           written := written w ++
                             [(pathJoin (outputDir co) (ReplaceBackslash path), Content d)] |})
             as (r & new & Hrun & Hnew & Hr).
           exists r, (savedAs co path d :: new). simpl in Hrun.
           rewrite Hrun. split; [by rewrite <- app_assoc|]. split.
           ++ intros x Hx. apply elem_of_cons in Hx as [->|Hx].
              ** exists path, d. split; [by left|]. split; [|reflexivity].
                 unfold kept. rewrite Hs. eauto.
              ** destruct (Hnew x Hx) as (p' & d' & ? & ? & ?).
                 exists p', d'. split; [by right|]. auto.
           ++ destruct Hr as [[-> Hall]|Hr]; [|by right].
              left. split; [reflexivity|]. intros p' d' Hin Hk.
              apply elem_of_cons in Hin as [[= -> ->]|Hin]; [by left|].
              right. by apply Hall.
        -- exists (Err (ErrWrite (pathJoin (outputDir co) (ReplaceBackslash path)))), [].
           rewrite app_nil_r. split; [by destruct w|].
           split; [intros x Hx; by apply elem_of_nil in Hx|]. right. eauto.
      * rewrite bool_decide_eq_true_2 by reflexivity.
        destruct (IH w) as (r & new & Hrun & Hnew & Hr).
        exists r, new. split; [exact Hrun|]. split.
        -- intros x Hx. destruct (Hnew x Hx) as (p' & d' & ? & ? & ?).
           exists p', d'. split; [by right|]. auto.
        -- destruct Hr as [[-> Hall]|Hr]; [|by right].
           left. split; [reflexivity|]. intros p' d' Hin Hk.
           apply elem_of_cons in Hin as [[= -> ->]|Hin].
           ++ unfold kept in Hk. rewrite Hs, Hm in Hk. by destruct Hk.
           ++ by apply Hall.
    + destruct (writeFile _ _ _) eqn:Hw.
      * destruct (IH {| requests := requests w;
                         written := written w ++
                           [(pathJoin (outputDir co) (ReplaceBackslash path), Content d)] |})
          as (r & new & Hrun & Hnew & Hr).
        exists r, (savedAs co path d :: new). simpl in Hrun.
        rewrite Hrun. split; [by rewrite <- app_assoc|]. split.
        -- intros x Hx. apply elem_of_cons in Hx as [->|Hx].
           ++ exists path, d. split; [by left|]. split; [|reflexivity].
              unfold kept. by rewrite Hs.
           ++ destruct (Hnew x Hx) as (p' & d' & ? & ? & ?).
              exists p', d'. split; [by right|]. auto.
        -- destruct Hr as [[-> Hall]|Hr]; [|by right].
           left. split; [reflexivity|]. intros p' d' Hin Hk.
           apply elem_of_cons in Hin as [[= -> ->]|Hin]; [by left|].
           right. by apply Hall.
      * exists (Err (ErrWrite (pathJoin (outputDir co) (ReplaceBackslash path)))), [].
        rewrite app_nil_r. split; [by destruct w|].
        split; [intros x Hx; by apply elem_of_nil in Hx|]. right. eauto.
Qed.

End Steps.

(** ** [Get] once the files are offline, and after a traversal *)

Section GetFacts.
Context `{env : Env}.

Lemma subset_subsetStore name v co :
  subset (subsetStore name v co) = (fun m => <[name := v]> m) <$> subset co.
Proof.
  unfold subsetStore. destruct (subset co) eqn:E; simpl; [reflexivity|].
  by rewrite E.
Qed.

(** The loop of [checkDownload] flags the names it finds among the keys of
    the subset map, and adds no key. *)
Lemma checkDownload_loop (l : list (string * DeployedFile)) co m :
  subset co = Some m ->
  exists m',
    foldl (fun co '(deployedFilePath, _) =>
             let codebase := ReplaceBackslash deployedFilePath in
             let deployedFileName := Base codebase in
             match subset co with
             | Some m =>
                 if bool_decide (is_Some (m !! deployedFileName))
                 then subsetStore deployedFileName true co else co
             | None => co
             end) co l
    = set_subset (Some m') co /\
    (forall s, is_Some (m' !! s) <-> is_Some (m !! s)) /\
    (forall s, m' !! s = Some true <->
               m !! s = Some true \/
               (is_Some (m !! s) /\ exists p d, (p, d) ∈ l /\ entryName p = s)).
Proof.
  revert co m. induction l as [|[p d] l IH]; intros co m Hm; simpl.
  - exists m. split; [destruct co; simpl in *; by subst|].
    split; [tauto|]. intros s. split; [tauto|].
    intros [?|(_ & p & d & Hin & _)]; [done|by apply elem_of_nil in Hin].
  - rewrite Hm. fold (entryName p).
    destruct (m !! entryName p) as [v|] eqn:Hp.
    + rewrite bool_decide_eq_true_2 by eauto.
      destruct (IH (subsetStore (entryName p) true co) (<[entryName p := true]> m))
        as (m' & Heq & Hdom & Htrue).
      { by rewrite subset_subsetStore, Hm. }
      exists m'. split.
      { etrans; [exact Heq|]. unfold subsetStore. rewrite Hm. reflexivity. }
      split.
      * intros s. rewrite Hdom. destruct (decide (s = entryName p)) as [->|Hne].
        -- rewrite lookup_insert_eq, Hp. split; eauto.
        -- by rewrite lookup_insert_ne.
      * intros s. rewrite Htrue. destruct (decide (s = entryName p)) as [->|Hne].
        -- rewrite lookup_insert_eq, Hp. split; [|auto].
           intros _. right. split; [eauto|]. exists p, d. split; [by left|done].
        -- rewrite lookup_insert_ne by done. split.
           ++ intros [?|(? & p' & d' & Hin & ?)]; [by left|].
              right. split; [done|]. exists p', d'. split; [by right|done].
           ++ intros [?|(? & p' & d' & Hin & ?)]; [by left|].
              apply elem_of_cons in Hin as [[= -> ->]|Hin]; [congruence|].
              right. split; [done|]. eauto.
    + rewrite bool_decide_eq_false_2 by (intros [? ?]; congruence).
      destruct (IH co m Hm) as (m' & Heq & Hdom & Htrue).
      exists m'. split; [exact Heq|]. split; [exact Hdom|].
      intros s. rewrite Htrue. split.
      * intros [?|(? & p' & d' & Hin & ?)]; [by left|].
        right. split; [done|]. exists p', d'. split; [by right|done].
      * intros [?|(Hs & p' & d' & Hin & Hn)]; [by left|].
        apply elem_of_cons in Hin as [[= -> ->]|Hin].
        -- subst s. destruct Hs; congruence.
        -- right. split; [done|]. eauto.
Qed.

Lemma elem_of_rangeOrder (m : gmap string DeployedFile) p d :
  (p, d) ∈ rangeOrder _ (map_to_list m) <-> m !! p = Some d.
Proof.
  rewrite (rangeOrder_perm _ (map_to_list m)). apply elem_of_map_to_list.
Qed.

Lemma checkDownload_spec co w m :
  subset co = Some m ->
  exists m',
    checkDownload (co, w) = Some (Ok tt, (set_subset (Some m') co, w)) /\
    (forall s, is_Some (m' !! s) <-> is_Some (m !! s)) /\
    (forall s, m' !! s = Some true <->
               m !! s = Some true \/
               (is_Some (m !! s) /\ present (deployedFiles co) s)).
Proof.
  intros Hm.
  destruct (checkDownload_loop (rangeOrder _ (map_to_list (deployedFiles co))) co m Hm)
    as (m' & Heq & Hdom & Htrue).
  exists m'. split; [|split; [exact Hdom|]].
  - unfold checkDownload, modify. simpl. do 3 f_equal. exact Heq.
  - intros s. rewrite Htrue. unfold present.
    split; (intros [?|(? & p & d & Hin & ?)]; [by left|]);
      right; (split; [done|]); exists p, d; (split; [|done]);
      by apply elem_of_rangeOrder.
Qed.

Lemma initSubset_valid subset co w :
  "" ∉ subset ->
  initSubset subset (co, w)
  = Some (Ok tt, (set_subset (Some (freshSubset subset ∅)) co, w)).
Proof. intros H. unfold initSubset, bind, modify. simpl. by apply initSubsetLoop_valid. Qed.

Lemma initSubset_invalid subset co w :
  "" ∈ subset ->
  exists m', initSubset subset (co, w)
             = Some (Err ErrEmptyFilename, (set_subset (Some m') co, w)).
Proof. intros H. unfold initSubset, bind, modify. simpl. by apply initSubsetLoop_invalid. Qed.

Lemma findSubset_spec subset co w :
  findSubset subset (co, w)
  = Some ((if notFound co + Z.of_nat (length (missing co subset))
              =? Z.of_nat (length subset)
           then Err ErrNoneFound else Ok tt),
          (set_notFound (notFound co + Z.of_nat (length (missing co subset))) co, w)).
Proof.
  unfold findSubset. rewrite (bind_Ok _ _ _ _ _ (findSubsetLoop_spec subset co w)).
  unfold bind, getCo, fail, ret. simpl. by destruct (_ =? _).
Qed.

Lemma saveAllDeployedFiles_spec co w :
  exists r new,
    saveAllDeployedFiles (co, w)
    = Some (r, (co, {| requests := requests w; written := written w ++ new |})) /\
    (forall x, x ∈ new ->
       exists path d, deployedFiles co !! path = Some d /\ kept co path /\
                      x = savedAs co path d) /\
    ((r = Ok tt /\
      forall path d, deployedFiles co !! path = Some d -> kept co path ->
                     savedAs co path d ∈ new)
     \/ exists p, r = Err (ErrWrite p)).
Proof.
  destruct (saveLoop_spec (rangeOrder _ (map_to_list (deployedFiles co))) co w)
    as (r & new & Hrun & Hnew & Hr).
  exists r, new. split; [exact Hrun|]. split.
  - intros x Hx. destruct (Hnew x Hx) as (p & d & Hin & ? & ?).
    exists p, d. split; [by apply elem_of_rangeOrder|]. auto.
  - destruct Hr as [[-> Hall]|?]; [|by right]. left. split; [done|].
    intros p d Hin. apply Hall. by apply elem_of_rangeOrder.
Qed.

Lemma missing_set_notFound n co subset :
  missing (set_notFound n co) subset = missing co subset.
Proof. reflexivity. Qed.

Lemma world_written_nil (w : World) :
  {| requests := requests w; written := written w ++ [] |} = w.
Proof. destruct w. simpl. by rewrite app_nil_r. Qed.

(** The part of [Get] that follows the traversal, with a valid subset. *)
Lemma Get_conclusion subset co2 w2 :
  exists r new,
    (modify (set_notFound 0);;
     findSubset subset;;
     (do co <- getCo;
      if negb (String.eqb (outputDir co) "") then saveAllDeployedFiles else ret tt);;
     do co <- getCo;
     if negb (notFound co =? 0) then fail ErrNotAllFound else ret tt)%go (co2, w2)
    = Some (r, (set_notFound (Z.of_nat (length (missing co2 subset))) co2,
                {| requests := requests w2; written := written w2 ++ new |})) /\
    (forall x, x ∈ new ->
       exists path d, deployedFiles co2 !! path = Some d /\ kept co2 path /\
                      x = savedAs co2 path d) /\
    (length (missing co2 subset) = length subset -> r = Err ErrNoneFound /\ new = []) /\
    (length (missing co2 subset) <> length subset ->
       (r = (if bool_decide (missing co2 subset = []) then Ok tt else Err ErrNotAllFound) /\
        (outputDir co2 <> "" ->
         forall path d, deployedFiles co2 !! path = Some d -> kept co2 path ->
                        savedAs co2 path d ∈ new))
       \/ exists p, r = Err (ErrWrite p)).
Proof.
  unfold bind at 1, modify at 1. simpl.
  set (n := length (missing co2 subset)).
  set (co4 := set_notFound (Z.of_nat n) co2).
  assert (Hfind : findSubset subset (set_notFound 0 co2, w2)
                  = Some ((if Z.of_nat n =? Z.of_nat (length subset)
                           then Err ErrNoneFound else Ok tt), (co4, w2))).
  { rewrite findSubset_spec. simpl. rewrite missing_set_notFound. reflexivity. }
  destruct (Z.eqb_spec (Z.of_nat n) (Z.of_nat (length subset))) as [Heq|Hneq].
  - rewrite (bind_Err _ _ _ _ _ Hfind).
    exists (Err ErrNoneFound), []. rewrite world_written_nil.
    split; [done|].
    split; [intros x Hx; by apply elem_of_nil in Hx|].
    split; [done|]. lia.
  - rewrite (bind_Ok _ _ _ _ _ Hfind).
    assert (Hlast : forall w3,
      (do co <- getCo;
       if negb (notFound co =? 0) then fail ErrNotAllFound else ret tt)%go (co4, w3)
      = Some ((if bool_decide (missing co2 subset = []) then Ok tt else Err ErrNotAllFound),
              (co4, w3))).
    { intros w3. unfold bind, getCo, fail, ret. simpl. fold n.
      destruct (missing co2 subset) as [|x l] eqn:Hmiss; subst n; simpl; reflexivity. }
    assert (Hstage :
      (do co <- getCo;
       if negb (String.eqb (outputDir co) "") then saveAllDeployedFiles else ret tt)%go
        (co4, w2)
      = if negb (String.eqb (outputDir co2) "")
        then saveAllDeployedFiles (co4, w2) else Some (Ok tt, (co4, w2))).
    { unfold bind, getCo, ret. simpl. by destruct (negb _). }
    destruct (String.eqb_spec (outputDir co2) "") as [Hout|Hout]; simpl in Hstage.
    + rewrite (bind_Ok _ _ _ _ _ Hstage), Hlast.
      eexists _, []. rewrite world_written_nil. split; [reflexivity|].
      split; [intros x Hx; by apply elem_of_nil in Hx|].
      split; [lia|]. intros _. left. split; [done|]. done.
    + destruct (saveAllDeployedFiles_spec co4 w2) as (rs & new & Hsave & Hnew & Hrs).
      rewrite Hsave in Hstage.
      destruct Hrs as [[-> Hall]|[p ->]].
      * rewrite (bind_Ok _ _ _ _ _ Hstage), Hlast.
        eexists _, new. split; [reflexivity|].
        split; [exact Hnew|]. split; [lia|]. intros _. left. split; [done|].
        intros _. exact Hall.
      * rewrite (bind_Err _ _ _ _ _ Hstage).
        eexists _, new. split; [reflexivity|].
        split; [exact Hnew|]. split; [lia|]. intros _. right. eauto.
Qed.

(** The same part when no subset is asked for. *)
Lemma Get_conclusion_all co2 w2 :
  exists r new,
    (modify (set_notFound 0);;
     ret tt;;
     (do co <- getCo;
      if negb (String.eqb (outputDir co) "") then saveAllDeployedFiles else ret tt);;
     do co <- getCo;
     if false && negb (notFound co =? 0) then fail ErrNotAllFound else ret tt)%go (co2, w2)
    = Some (r, (set_notFound 0 co2,
                {| requests := requests w2; written := written w2 ++ new |})) /\
    (forall x, x ∈ new ->
       exists path d, deployedFiles co2 !! path = Some d /\ kept co2 path /\
                      x = savedAs co2 path d) /\
    ((r = Ok tt /\
      (outputDir co2 <> "" ->
       forall path d, deployedFiles co2 !! path = Some d -> kept co2 path ->
                      savedAs co2 path d ∈ new))
     \/ exists p, r = Err (ErrWrite p)).
Proof.
  unfold bind at 1, modify at 1. simpl.
  unfold bind at 1, ret at 1. cbv beta iota.
  set (co4 := set_notFound 0 co2).
  assert (Hstage :
    (do co <- getCo;
     if negb (String.eqb (outputDir co) "") then saveAllDeployedFiles else ret tt)%go
      (co4, w2)
    = if negb (String.eqb (outputDir co2) "")
      then saveAllDeployedFiles (co4, w2) else Some (Ok tt, (co4, w2))).
  { unfold bind, getCo, ret. simpl. by destruct (negb _). }
  destruct (String.eqb_spec (outputDir co2) "") as [Hout|Hout]; simpl in Hstage.
  - rewrite (bind_Ok _ _ _ _ _ Hstage).
    exists (Ok tt), []. rewrite world_written_nil. split; [reflexivity|].
    split; [intros x Hx; by apply elem_of_nil in Hx|]. left. done.
  - destruct (saveAllDeployedFiles_spec co4 w2) as (rs & new & Hsave & Hnew & Hrs).
    rewrite Hsave in Hstage.
    destruct Hrs as [[-> Hall]|[p ->]].
    + rewrite (bind_Ok _ _ _ _ _ Hstage).
      exists (Ok tt), new. split; [reflexivity|].
      split; [exact Hnew|]. left. split; [done|]. intros _. exact Hall.
    + rewrite (bind_Err _ _ _ _ _ Hstage).
      eexists _, new. split; [reflexivity|].
      split; [exact Hnew|]. right. eauto.
Qed.

(** *** The subset filter along a traversal *)

Lemma present_mono (f f' : gmap string DeployedFile) name :
  f ⊆ f' -> present f name -> present f' name.
Proof.
  intros Hsub (p & d & Hp & Hn). exists p, d. split; [|done].
  eapply lookup_weaken; eauto.
Qed.

Lemma skipped_false_filter co path m :
  skipped co path = false -> subset co = Some m ->
  isManifest (entryName path) = true \/ is_Some (m !! entryName path).
Proof.
  unfold skipped, filtered. intros H Hm. rewrite Hm in H.
  apply orb_false_iff in H as [H _]. apply orb_false_iff in H as [_ H].
  destruct (isManifest (entryName path)); [by left|]. right.
  simpl in H. apply bool_decide_eq_false in H.
  destruct (m !! entryName path); [eauto|done].
Qed.

(** With a filter in place, one visit keeps the keys of the filter and adds
    at most the name of a manifest; a flag it sets belongs to a recorded
    entry; the entry it records is a manifest or is named in the filter. *)
Lemma visit_filter s s' m :
  visit s s' -> subset s.1 = Some m ->
  exists m',
    subset s'.1 = Some m' /\
    (forall n, is_Some (m !! n) -> is_Some (m' !! n)) /\
    (forall n, is_Some (m' !! n) -> is_Some (m !! n) \/ isManifest n = true) /\
    (forall n, m' !! n = Some true ->
               m !! n = Some true \/ present (deployedFiles s'.1) n) /\
    (forall path, is_Some (deployedFiles s'.1 !! path) ->
                  is_Some (deployedFiles s.1 !! path)
                  \/ isManifest (entryName path) = true
                  \/ is_Some (m !! entryName path)).
Proof.
  destruct 1 as [co w path ty b u w1 Hsk Hb Hu _ _
                |co w path base ty b u rf sfx content w1 Hsk Hb Hu _ _];
    simpl; intros Hm.
  - exists m. rewrite subset_rebased, deployedFiles_rebased. auto 10.
  - exists (<[entryName path := true]> m).
    pose proof (skipped_false_filter _ _ _ Hsk Hm) as Hpass.
    split.
    { unfold stored. rewrite subset_subsetStore. simpl.
      by rewrite subset_rebased, Hm. }
    rewrite deployedFiles_stored, deployedFiles_rebased.
    split; [|split; [|split]].
    + intros n Hn. destruct (decide (n = entryName path)) as [->|Hne].
      * rewrite lookup_insert_eq. eauto.
      * by rewrite lookup_insert_ne.
    + intros n. destruct (decide (n = entryName path)) as [->|Hne].
      * intros _. destruct Hpass; auto.
      * rewrite lookup_insert_ne by done. auto.
    + intros n. destruct (decide (n = entryName path)) as [->|Hne].
      * intros _. right. eexists path, _. split; [apply lookup_insert_eq|done].
      * rewrite lookup_insert_ne by done. auto.
    + intros p. destruct (decide (p = path)) as [->|Hne].
      * intros _. destruct Hpass; auto.
      * rewrite lookup_insert_ne by done. auto.
Qed.

Lemma visits_filter s s' :
  rtc visit s s' ->
  forall m, subset s.1 = Some m ->
  exists m',
    subset s'.1 = Some m' /\
    (forall n, is_Some (m !! n) -> is_Some (m' !! n)) /\
    (forall n, is_Some (m' !! n) -> is_Some (m !! n) \/ isManifest n = true) /\
    (forall n, m' !! n = Some true ->
               m !! n = Some true \/ present (deployedFiles s'.1) n) /\
    (forall path, is_Some (deployedFiles s'.1 !! path) ->
                  is_Some (deployedFiles s.1 !! path)
                  \/ isManifest (entryName path) = true
                  \/ is_Some (m !! entryName path)).
Proof.
  induction 1 as [s|s1 s2 s3 Hv Hrest IH]; intros m Hm.
  - exists m. split; [done|]. auto 10.
  - destruct (visit_filter _ _ _ Hv Hm) as (m2 & Hm2 & Ha & Hb & Hc & Hd).
    destruct (IH _ Hm2) as (m3 & Hm3 & Ha' & Hb' & Hc' & Hd').
    pose proof (visits_deployedFiles _ _ Hrest) as Hmono.
    exists m3. split; [done|]. split; [|split; [|split]].
    + auto.
    + intros n Hn. destruct (Hb' n Hn); auto.
    + intros n Hn. destruct (Hc' n Hn) as [H2|?]; [|auto].
      destruct (Hc n H2); [auto|]. right. eapply present_mono; eauto.
    + intros p Hp. destruct (Hd' p Hp) as [H2|[?|H2]]; [|auto|].
      * destruct (Hd p H2) as [?|[?|?]]; auto.
      * destruct (Hb _ H2); auto.
Qed.

(** A traversal writes nothing, and only adds requests. *)
Lemma visits_world s s' :
  rtc visit s s' ->
  written s'.2 = written s.2 /\
  exists l, requests s'.2 = (requests s.2 ++ l)%list.
Proof.
  induction 1 as [s|s1 s2 s3 Hv _ [IHw [l IHr]]].
  - split; [done|]. exists []. by rewrite app_nil_r.
  - assert (Hstep : written s2.2 = written s1.2 /\
                    exists l, requests s2.2 = (requests s1.2 ++ l)%list).
    { destruct Hv as [co w path ty b u w1 Hsk Hb Hu Hw Hr
                     |co w path base ty b u rf sfx content w1 Hsk Hb Hu Hrf Hd]; simpl.
      - auto.
      - pose proof (downloadAndCheck_world rf (negb (noSuffix co)) w) as Hw.
        by rewrite Hd in Hw. }
    destruct Hstep as [Hw [l1 Hr]]. split; [congruence|].
    exists (l1 ++ l)%list. rewrite IHr, Hr. by rewrite app_assoc.
Qed.

(** *** [Get] as its three stages *)

Lemma Get_not_initialized fuel subset co w :
  ~ initialized co ->
  Get fuel subset (co, w) = Some (Err ErrNotInitialized, (co, w)).
Proof.
  intros Hni. unfold Get. unfold bind at 1, getCo at 1. simpl.
  destruct (bool_decide (baseUrl co = None)) eqn:Hb; [reflexivity|].
  destruct (bool_decide (assembly co = None)) eqn:Ha; [reflexivity|].
  apply bool_decide_eq_false in Hb, Ha. exfalso. apply Hni. by split.
Qed.

Lemma Get_invalid_subset fuel subset co w :
  initialized co -> "" ∈ subset ->
  exists m', Get fuel subset (co, w)
             = Some (Err ErrEmptyFilename, (set_subset (Some m') co, w)).
Proof.
  intros [Hb Ha] Hin.
  assert (Hne : subset <> []) by (intros ->; by apply elem_of_nil in Hin).
  destruct (initSubset_invalid subset co w Hin) as [m' Hinit].
  exists m'. unfold Get. unfold bind at 1, getCo at 1. simpl.
  rewrite (bool_decide_eq_false_2 _ Hb), (bool_decide_eq_false_2 _ Ha).
  rewrite (bool_decide_eq_false_2 _ Hne). simpl.
  by rewrite (bind_Err _ _ _ _ _ Hinit).
Qed.

(** With a valid subset: the filter is installed, then the traversal or,
    offline, the check of what is there, then the conclusion. *)
Lemma Get_subset_stages fuel subset co w :
  initialized co -> subset <> [] -> "" ∉ subset ->
  Get fuel subset (co, w) =
  match
    (if offline co
     then checkDownload (set_subset (Some (freshSubset subset ∅)) co, w)
     else match assembly co with
          | Some a => retrieveAllDeployedFiles fuel a
                        (set_subset (Some (freshSubset subset ∅)) co, w)
          | None => None
          end)
  with
  | None => None
  | Some (Err e, s) => Some (Err e, s)
  | Some (Ok _, s) =>
      (modify (set_notFound 0);;
       findSubset subset;;
       (do co <- getCo;
        if negb (String.eqb (outputDir co) "") then saveAllDeployedFiles else ret tt);;
       do co <- getCo;
       if negb (notFound co =? 0) then fail ErrNotAllFound else ret tt)%go s
  end.
Proof.
  intros [Hb Ha] Hne Hvalid.
  unfold Get. unfold bind at 1, getCo at 1. simpl.
  rewrite (bool_decide_eq_false_2 _ Hb), (bool_decide_eq_false_2 _ Ha).
  rewrite (bool_decide_eq_false_2 _ Hne). simpl.
  rewrite (bind_Ok _ _ _ _ _ (initSubset_valid subset co w Hvalid)).
  unfold bind at 1. unfold bind at 1, getCo at 1. simpl.
  destruct (offline co); simpl; [reflexivity|].
  destruct (assembly co); [reflexivity|done].
Qed.

(** Without a subset: the filter is left as it is. *)
Lemma Get_all_stages fuel co w :
  initialized co ->
  Get fuel [] (co, w) =
  match
    (if offline co then Some (Ok tt, (co, w))
     else match assembly co with
          | Some a => retrieveAllDeployedFiles fuel a (co, w)
          | None => None
          end)
  with
  | None => None
  | Some (Err e, s) => Some (Err e, s)
  | Some (Ok _, s) =>
      (modify (set_notFound 0);;
       ret tt;;
       (do co <- getCo;
        if negb (String.eqb (outputDir co) "") then saveAllDeployedFiles else ret tt);;
       do co <- getCo;
       if false && negb (notFound co =? 0) then fail ErrNotAllFound else ret tt)%go s
  end.
Proof.
  intros [Hb Ha].
  unfold Get. unfold bind at 1, getCo at 1. simpl.
  rewrite (bool_decide_eq_false_2 _ Hb), (bool_decide_eq_false_2 _ Ha). simpl.
  unfold bind at 1, ret at 1. cbv beta iota.
  unfold bind at 1. unfold bind at 1, getCo at 1. simpl.
  destruct (offline co); simpl; [reflexivity|].
  destruct (assembly co); [reflexivity|done].
Qed.

End GetFacts.

(** ** C7, C8, C10: subsets, offline reuse and the stale filter *)

Section SubsetRetrieval.
Context `{env : Env}.

Lemma visits_fields s s' :
  rtc visit s s' ->
  outputDir s'.1 = outputDir s.1 /\ assembly s'.1 = assembly s.1 /\
  offline s'.1 = offline s.1.
Proof.
  induction 1 as [s|s1 s2 s3 Hv _ (IH1 & IH2 & IH3)]; [done|].
  rewrite IH1, IH2, IH3.
  destruct Hv; simpl; unfold stored, subsetStore, rebased;
    repeat case_match; simpl; done.
Qed.

Lemma freshSubset_keys subset s :
  is_Some (freshSubset subset ∅ !! s) <-> s ∈ subset.
Proof.
  rewrite freshSubset_lookup. destruct (decide (s ∈ subset)); split; eauto.
  - intros [? H]. by rewrite lookup_empty in H.
  - done.
Qed.

Lemma freshSubset_false subset s : freshSubset subset ∅ !! s <> Some true.
Proof.
  rewrite freshSubset_lookup. destruct (decide (s ∈ subset)); [done|].
  by rewrite lookup_empty.
Qed.

(** What the middle stage leaves behind. *)
Lemma middle_spec fuel names co w r2 co2 w2 :
  middle fuel names co w = Some (r2, (co2, w2)) ->
  r2 = Ok tt /\
  outputDir co2 = outputDir co /\ offline co2 = offline co /\
  written w2 = written w /\
  deployedFiles co ⊆ deployedFiles co2 /\
  (exists m2, subset co2 = Some m2 /\
     (forall s, s ∈ names -> is_Some (m2 !! s)) /\
     (forall n, is_Some (m2 !! n) -> n ∈ names \/ isManifest n = true) /\
     (forall n, m2 !! n = Some true -> present (deployedFiles co2) n) /\
     (offline co = true ->
      (forall n, is_Some (m2 !! n) -> n ∈ names) /\
      (forall s, s ∈ names -> present (deployedFiles co) s -> m2 !! s = Some true))) /\
  (forall path, is_Some (deployedFiles co2 !! path) ->
     is_Some (deployedFiles co !! path)
     \/ isManifest (entryName path) = true \/ entryName path ∈ names) /\
  (offline co = true -> w2 = w /\ deployedFiles co2 = deployedFiles co).
Proof.
  unfold middle. destruct (offline co) eqn:Hoff.
  - destruct (checkDownload_spec (set_subset (Some (freshSubset names ∅)) co) w
                (freshSubset names ∅) eq_refl) as (m' & Hrun & Hdom & Htrue).
    rewrite Hrun. intros [= <- <- <-]. simpl.
    split; [done|]. split; [done|]. split; [done|]. split; [done|]. split; [done|].
    split; [|split; [auto|done]].
    exists m'. split; [done|]. split; [|split; [|split]].
    + intros s Hs. apply Hdom. by apply freshSubset_keys.
    + intros n Hn. left. apply freshSubset_keys. by apply Hdom.
    + intros n Hn. apply Htrue in Hn as [Hn|[_ Hn]]; [|exact Hn].
      by apply freshSubset_false in Hn.
    + intros _. split.
      * intros n Hn. apply freshSubset_keys. by apply Hdom.
      * intros s Hs Hp. apply Htrue. right. split; [|exact Hp].
        by apply freshSubset_keys.
  - destruct (assembly co) as [a|]; [|discriminate].
    intros Hrun. apply retrieveAllDeployedFiles_visits in Hrun as [Hv ->].
    pose proof (visits_fields _ _ Hv) as (Hf1 & _ & Hf3).
    pose proof (visits_world _ _ Hv) as [Hw _].
    pose proof (visits_deployedFiles _ _ Hv) as Hmono.
    destruct (visits_filter _ _ Hv (freshSubset names ∅) eq_refl)
      as (m' & Hm' & Ha & Hb & Hc & Hd).
    simpl in *.
    split; [done|]. split; [done|]. split; [by rewrite Hf3|]. split; [done|].
    split; [done|]. split; [|split; [|done]].
    + exists m'. split; [done|]. split; [|split; [|split]].
      * intros s Hs. apply Ha. by apply freshSubset_keys.
      * intros n Hn. destruct (Hb n Hn) as [H|H]; [left|by right].
        by apply freshSubset_keys.
      * intros n Hn. destruct (Hc n Hn) as [H|H]; [|done].
        by apply freshSubset_false in H.
      * done.
    + intros p Hp. destruct (Hd p Hp) as [?|[?|H]]; auto.
      right. right. by apply freshSubset_keys.
Qed.

Lemma missing_all co subset :
  length (missing co subset) = length subset <->
  forall s, s ∈ subset -> subsetFlag co s = false.
Proof.
  unfold missing. induction subset as [|x l IH]; simpl.
  - split; [|done]. intros _ s Hs. by apply elem_of_nil in Hs.
  - destruct (subsetFlag co x) eqn:Hx; simpl.
    + split.
      * intros H. pose proof (List.filter_length_le (fun s => negb (subsetFlag co s)) l).
        lia.
      * intros H. specialize (H x ltac:(by left)). congruence.
    + split.
      * intros H s Hs. apply elem_of_cons in Hs as [->|Hs]; [done|].
        apply IH; [lia|done].
      * intros H. f_equal. apply IH. intros s Hs. apply H. by right.
Qed.

Lemma missing_none co subset :
  missing co subset = [] <-> forall s, s ∈ subset -> subsetFlag co s = true.
Proof.
  unfold missing. induction subset as [|x l IH]; simpl.
  - split; [|done]. intros _ s Hs. by apply elem_of_nil in Hs.
  - destruct (subsetFlag co x) eqn:Hx; simpl.
    + rewrite IH. split.
      * intros H s Hs. apply elem_of_cons in Hs as [->|Hs]; auto.
      * intros H s Hs. apply H. by right.
    + split; [done|]. intros H. specialize (H x ltac:(by left)). congruence.
Qed.

Lemma Get_subset_middle fuel names co w :
  initialized co -> names <> [] -> "" ∉ names ->
  Get fuel names (co, w) =
  match middle fuel names co w with
  | None => None
  | Some (Err e, s) => Some (Err e, s)
  | Some (Ok _, s) =>
      (modify (set_notFound 0);;
       findSubset names;;
       (do co <- getCo;
        if negb (String.eqb (outputDir co) "") then saveAllDeployedFiles else ret tt);;
       do co <- getCo;
       if negb (notFound co =? 0) then fail ErrNotAllFound else ret tt)%go s
  end.
Proof. apply Get_subset_stages. Qed.

(** A run of [Get] with a valid subset, from the state its middle stage
    leaves. *)
Lemma Get_subset_run fuel names co w r co' w' :
  initialized co -> names <> [] -> "" ∉ names ->
  Get fuel names (co, w) = Some (r, (co', w')) ->
  exists co2 w2 new,
    middle fuel names co w = Some (Ok tt, (co2, w2)) /\
    co' = set_notFound (Z.of_nat (length (missing co2 names))) co2 /\
    w' = {| requests := requests w2; written := written w2 ++ new |} /\
    (forall x, x ∈ new ->
       exists path d, deployedFiles co2 !! path = Some d /\ kept co2 path /\
                      x = savedAs co2 path d) /\
    (length (missing co2 names) = length names -> r = Err ErrNoneFound /\ new = []) /\
    (length (missing co2 names) <> length names ->
       (r = (if bool_decide (missing co2 names = []) then Ok tt else Err ErrNotAllFound) /\
        (outputDir co2 <> "" ->
         forall path d, deployedFiles co2 !! path = Some d -> kept co2 path ->
                        savedAs co2 path d ∈ new))
       \/ exists p, r = Err (ErrWrite p)).
Proof.
  intros Hi Hne Hvalid. rewrite Get_subset_middle by done.
  destruct (middle fuel names co w) as [[r2 [co2 w2]]|] eqn:Hmid; [|discriminate].
  pose proof (middle_spec _ _ _ _ _ _ _ Hmid) as [-> _].
  destruct (Get_conclusion names co2 w2) as (r' & new & Hrun & Hnew & Hnone & Hsome).
  rewrite Hrun. intros [= <- <- <-].
  exists co2, w2, new. auto 10.
Qed.

(** C8.  [Get] with a non-empty subset of non-empty names, on an
    initialized session, when it returns:
    - if no member of the subset is the name of an entry of the result
      mapping, or none is flagged as found, [Get] fails with the error
      "none of requested files are found" (and writes nothing);
    - if some member is flagged as found and some is not, [Get] fails; it
      fails with "not all or requested files are found" after the save
      step, and then, when an output directory is set, every entry of the
      result mapping that bears the name of a member has been written; the
      only other outcome is the error of a write that failed;
    - a member flagged as found names an entry of the result mapping, and
      what was on disk before is still there: writes are appended. *)
Theorem C8_none_or_not_all_found fuel names co w r co' w' :
  initialized co -> names <> [] -> "" ∉ names ->
  Get fuel names (co, w) = Some (r, (co', w')) ->
  ((forall s, s ∈ names -> ~ present (deployedFiles co') s) -> r = Err ErrNoneFound) /\
  ((forall s, s ∈ names -> subsetFlag co' s = false) ->
     r = Err ErrNoneFound /\ written w' = written w) /\
  ((exists s, s ∈ names /\ subsetFlag co' s = true) ->
   (exists s, s ∈ names /\ subsetFlag co' s = false) ->
     (r = Err ErrNotAllFound /\
      (outputDir co <> "" ->
       exists new, written w' = (written w ++ new)%list /\
         forall path d, deployedFiles co' !! path = Some d ->
                        entryName path ∈ names -> savedAs co' path d ∈ new))
     \/ exists p, r = Err (ErrWrite p)) /\
  (forall s, s ∈ names -> subsetFlag co' s = true -> present (deployedFiles co') s) /\
  (exists new, written w' = (written w ++ new)%list).
Proof.
  intros Hi Hne Hvalid Hrun.
  destruct (Get_subset_run _ _ _ _ _ _ _ Hi Hne Hvalid Hrun)
    as (co2 & w2 & new & Hmid & -> & -> & Hnew & Hnone & Hsome).
  destruct (middle_spec _ _ _ _ _ _ _ Hmid)
    as (_ & Hout & _ & Hw & _ & (m2 & Hm2 & Hkeys & _ & Htrue & _) & _ & _).
  assert (Hflag : forall s, subsetFlag co2 s = true -> present (deployedFiles co2) s).
  { intros s. unfold subsetFlag. rewrite Hm2.
    destruct (m2 !! s) as [[]|] eqn:Hs; simpl; [|done|done]. intros _. by apply Htrue. }
  assert (Hnoflag : (forall s, s ∈ names -> subsetFlag co2 s = false) ->
                    r = Err ErrNoneFound /\ new = []).
  { intros H. apply Hnone. by apply missing_all. }
  simpl. split; [|split; [|split; [|split]]].
  - intros Habsent. apply Hnoflag. intros s Hs.
    destruct (subsetFlag co2 s) eqn:Hf; [|done].
    exfalso. apply (Habsent s Hs). by apply Hflag.
  - intros H. destruct (Hnoflag H) as [-> ->]. split; [done|].
    rewrite app_nil_r. exact Hw.
  - intros (s1 & Hs1 & Hf1) (s0 & Hs0 & Hf0).
    change (subsetFlag co2 s1 = true) in Hf1.
    change (subsetFlag co2 s0 = false) in Hf0.
    assert (Hlen : length (missing co2 names) <> length names).
    { intros Hlen. pose proof (proj1 (missing_all _ _) Hlen s1 Hs1). congruence. }
    assert (Hmiss : missing co2 names <> []).
    { intros Hmiss. pose proof (proj1 (missing_none _ _) Hmiss s0 Hs0). congruence. }
    destruct (Hsome Hlen) as [[-> Hall]|?]; [|by right]. left.
    rewrite (bool_decide_eq_false_2 _ Hmiss). split; [done|].
    intros Hdir. exists new. split; [by rewrite Hw|].
    intros path d Hd Hname. apply Hall; [congruence|done|].
    unfold kept. rewrite Hm2. by apply Hkeys.
  - intros s _. apply Hflag.
  - exists new. by rewrite Hw.
Qed.

Lemma classic_initialized co : initialized co \/ ~ initialized co.
Proof.
  unfold initialized. destruct (baseUrl co), (assembly co);
    [left; split; discriminate| right; tauto..].
Qed.

Lemma rebases_Some b b' : rebases b b' -> b <> None -> b' <> None.
Proof. induction 1; auto. Qed.

Lemma visits_initialized s s' :
  rtc visit s s' -> initialized s.1 -> initialized s'.1.
Proof.
  intros Hv [Hb Ha]. split.
  - eapply rebases_Some; eauto using visits_rebases.
  - destruct (visits_fields _ _ Hv) as (_ & -> & _). done.
Qed.

(** A run of [Get] without a subset, from the state its traversal leaves. *)
Lemma Get_all_run fuel co w r co' w' :
  initialized co ->
  Get fuel [] (co, w) = Some (r, (co', w')) ->
  exists co2 w2 new,
    rtc visit (co, w) (co2, w2) /\
    (offline co = true -> (co2, w2) = (co, w)) /\
    co' = set_notFound 0 co2 /\
    w' = {| requests := requests w2; written := written w2 ++ new |} /\
    (forall x, x ∈ new ->
       exists path d, deployedFiles co2 !! path = Some d /\ kept co2 path /\
                      x = savedAs co2 path d) /\
    ((r = Ok tt /\
      (outputDir co2 <> "" ->
       forall path d, deployedFiles co2 !! path = Some d -> kept co2 path ->
                      savedAs co2 path d ∈ new))
     \/ exists p, r = Err (ErrWrite p)).
Proof.
  intros Hi. rewrite Get_all_stages by done.
  destruct (offline co) eqn:Hoff.
  - destruct (Get_conclusion_all co w) as (r' & new & Hrun & Hnew & Hr).
    rewrite Hrun. intros [= <- <- <-]. exists co, w, new.
    split; [apply rtc_refl|]. auto 10.
  - destruct (assembly co) as [a|]; [|discriminate].
    destruct (retrieveAllDeployedFiles fuel a (co, w)) as [[r2 [co2 w2]]|] eqn:Hmid;
      [|discriminate].
    apply retrieveAllDeployedFiles_visits in Hmid as [Hv ->].
    destruct (Get_conclusion_all co2 w2) as (r' & new & Hrun & Hnew & Hr).
    rewrite Hrun. intros [= <- <- <-]. exists co2, w2, new.
    split; [done|]. split; [done|]. auto 10.
Qed.

(** [GetAll] is [Get] without a subset, then the offline mark. *)
Lemma GetAll_run fuel s :
  GetAll fuel s =
  match Get fuel [] s with
  | None => None
  | Some (Err e, s') => Some (Err e, s')
  | Some (Ok _, (co', w')) => Some (Ok tt, (set_offline true co', w'))
  end.
Proof.
  unfold GetAll, bind, modify.
  destruct (Get fuel [] s) as [[[[]|e] [co' w']]|]; reflexivity.
Qed.

(** C7.  After a successful [GetAll] the session is initialized and marked
    offline.  From any initialized session marked offline, [Get] with a
    non-empty subset returns for every fuel, sends no request, leaves the
    result mapping and the offline mark as they are, flags exactly the
    members that name an entry of the result mapping, returns nil only if
    every member does, and writes only entries of the result mapping that
    bear the name of a member: all of them, when an output directory is set
    and no write fails. *)
Theorem C7_offline_get_sends_no_request fuel s0 co w :
  GetAll fuel s0 = Some (Ok tt, (co, w)) ->
  initialized co /\ offline co = true /\
  forall co1 w1, initialized co1 -> offline co1 = true ->
  forall fuel' names, names <> [] ->
  exists r co' w',
    Get fuel' names (co1, w1) = Some (r, (co', w')) /\
    initialized co' /\ offline co' = true /\
    requests w' = requests w1 /\
    deployedFiles co' = deployedFiles co1 /\
    ("" ∈ names -> r = Err ErrEmptyFilename /\ w' = w1) /\
    ("" ∉ names ->
       (forall s, s ∈ names ->
          subsetFlag co' s = true <-> present (deployedFiles co1) s) /\
       (r = Ok tt -> forall s, s ∈ names -> present (deployedFiles co1) s) /\
       ((forall s, s ∈ names -> present (deployedFiles co1) s) ->
          r = Ok tt \/ exists p, r = Err (ErrWrite p)) /\
       (exists new, written w' = (written w1 ++ new)%list /\
          (forall x, x ∈ new ->
             exists path d, deployedFiles co1 !! path = Some d /\
                            entryName path ∈ names /\ x = savedAs co1 path d) /\
          (r = Ok tt \/ r = Err ErrNotAllFound -> outputDir co1 <> "" ->
           forall path d, deployedFiles co1 !! path = Some d ->
                          entryName path ∈ names -> savedAs co1 path d ∈ new))).
Proof.
  intros Hall. split; [|split].
  - (* initialized *)
    rewrite GetAll_run in Hall. destruct s0 as [co0 w0].
    destruct (Get fuel [] (co0, w0)) as [[[[]|e] [co' w']]|] eqn:Hget; [|done|done].
    injection Hall as <- <-.
    destruct (classic_initialized co0) as [Hi|Hni].
    + destruct (Get_all_run _ _ _ _ _ _ Hi Hget) as (co2 & w2 & new & Hv & _ & -> & _).
      apply visits_initialized in Hv; [|done]. exact Hv.
    + rewrite (Get_not_initialized _ _ _ _ Hni) in Hget. discriminate.
  - rewrite GetAll_run in Hall.
    destruct (Get fuel [] s0) as [[[[]|e] [co' w']]|]; [|done|done].
    by injection Hall as <- <-.
  - clear Hall. intros co1 w1 Hi Hoff fuel' names Hne.
    destruct (decide ("" ∈ names)) as [Hin|Hvalid].
    { destruct (Get_invalid_subset fuel' names co1 w1 Hi Hin) as [m' Hrun].
      eexists _, _, _. split; [exact Hrun|]. simpl.
      split; [exact Hi|]. split; [done|]. split; [done|]. split; [done|].
      split; [done|]. done. }
    destruct (checkDownload_spec (set_subset (Some (freshSubset names ∅)) co1) w1
                (freshSubset names ∅) eq_refl) as (mc & Hcheck & _ & _).
    assert (Hmid : middle fuel' names co1 w1
                   = Some (Ok tt, (set_subset (Some mc)
                                     (set_subset (Some (freshSubset names ∅)) co1), w1))).
    { unfold middle. by rewrite Hoff. }
    destruct (middle_spec _ _ _ _ _ _ _ Hmid)
      as (_ & _ & _ & _ & _ & (m2 & Hm2 & Hkeys & _ & Htrue & Hoffl) & _ & _).
    destruct (Hoffl Hoff) as [Honly Hfound].
    set (co2 := set_subset (Some mc) (set_subset (Some (freshSubset names ∅)) co1)) in *.
    destruct (Get_conclusion names co2 w1) as (r & new & Hrun & Hnew & Hnone & Hsome).
    exists r, (set_notFound (Z.of_nat (length (missing co2 names))) co2),
      {| requests := requests w1; written := written w1 ++ new |}.
    split. { rewrite Get_subset_middle by done. by rewrite Hmid. }
    simpl. split; [exact Hi|]. split; [done|]. split; [done|]. split; [done|].
    split; [done|]. intros _.
    assert (Hflag : forall s, s ∈ names ->
              subsetFlag co2 s = true <-> present (deployedFiles co1) s).
    { intros s Hs. unfold subsetFlag. rewrite Hm2. split.
      - destruct (m2 !! s) as [[]|] eqn:E; simpl; [|done|done].
        intros _. by apply Htrue.
      - intros Hp. by rewrite (Hfound s Hs Hp). }
    split; [exact Hflag|]. split; [|split].
    + intros -> s Hs. apply Hflag; [done|].
      destruct (Nat.eq_dec (length (missing co2 names)) (length names)) as [Hlen|Hlen].
      { by destruct (Hnone Hlen). }
      destruct (Hsome Hlen) as [[Hr _]|[p Hr]]; [|done].
      destruct (bool_decide (missing co2 names = [])) eqn:Hb; [|done].
      apply bool_decide_eq_true in Hb. by apply (proj1 (missing_none _ _) Hb).
    + intros Hp.
      assert (Hmiss : missing co2 names = []).
      { apply missing_none. intros s Hs. apply Hflag; auto. }
      assert (Hlen : length (missing co2 names) <> length names).
      { rewrite Hmiss. simpl. destruct names; [done|]. simpl. lia. }
      destruct (Hsome Hlen) as [[Hr _]|?]; [|by right]. left.
      by rewrite (bool_decide_eq_true_2 _ Hmiss) in Hr.
    + exists new. split; [done|]. split.
      * intros x Hx.
        destruct (Hnew x Hx) as (path & d & Hd & Hk & ->).
        exists path, d. split; [done|]. split; [|done].
        unfold kept in Hk. rewrite Hm2 in Hk. by apply Honly.
      * intros Hr Hdir path d Hd Hname.
        destruct (Nat.eq_dec (length (missing co2 names)) (length names)) as [Hlen|Hlen].
        { destruct (Hnone Hlen) as [-> _]. by destruct Hr. }
        destruct (Hsome Hlen) as [[_ Hall]|[p ->]]; [|by destruct Hr].
        apply Hall; [done|done|]. unfold kept. rewrite Hm2. by apply Hkeys.
Qed.

(** C10.  A session that holds a subset filter [m], left by an earlier
    [Get] with a non-empty subset, and then runs [Get] with no subset (or
    [GetAll]): the filter is still there afterwards, with its keys, and with
    no new key but names of manifests; an entry that is no manifest and
    whose name is not in [m] is skipped without a fetch; every entry the
    traversal adds to the result mapping is a manifest or is named in [m];
    and every file written is such an entry. *)
Theorem C10_filter_outlives_its_get fuel co w m r co' w' :
  initialized co -> subset co = Some m ->
  Get fuel [] (co, w) = Some (r, (co', w')) ->
  (exists m', subset co' = Some m' /\
     (forall n, is_Some (m !! n) -> is_Some (m' !! n)) /\
     (forall n, is_Some (m' !! n) -> is_Some (m !! n) \/ isManifest n = true)) /\
  (forall fuel2 path deployedFile ty w2,
     isManifest (entryName path) = false -> m !! entryName path = None ->
     retrieveDeployedFile fuel2 path deployedFile ty (co, w2) = Some (Ok tt, (co, w2))) /\
  (forall path, is_Some (deployedFiles co' !! path) ->
     is_Some (deployedFiles co !! path)
     \/ isManifest (entryName path) = true \/ is_Some (m !! entryName path)) /\
  (exists new, written w' = (written w ++ new)%list /\
     forall x, x ∈ new ->
       exists path d, deployedFiles co' !! path = Some d /\ x = savedAs co' path d /\
         (is_Some (m !! entryName path) \/ isManifest (entryName path) = true)) /\
  (forall r2 co2 w2, GetAll fuel (co, w) = Some (r2, (co2, w2)) ->
     subset co2 = subset co' /\ deployedFiles co2 = deployedFiles co' /\ w2 = w').
Proof.
  intros Hi Hm Hrun.
  destruct (Get_all_run _ _ _ _ _ _ Hi Hrun)
    as (co2 & w2 & new & Hv & _ & -> & -> & Hnew & _).
  destruct (visits_filter _ _ Hv m Hm) as (m' & Hm' & Ha & Hb & _ & Hd).
  pose proof (visits_world _ _ Hv) as [Hw _]. simpl in Hm', Hd, Hw.
  split; [|split; [|split; [|split]]].
  - exists m'. auto.
  - intros fuel2 path deployedFile ty w3 Hnm Hnone.
    unfold retrieveDeployedFile. rewrite retrieveDeployedFileF_eq.
    assert (Hsk : skipped co path = true).
    { unfold skipped, filtered. rewrite Hm, Hnm, Hnone. simpl.
      by destruct (String.eqb path ""). }
    by rewrite Hsk.
  - exact Hd.
  - exists new. split; [by rewrite Hw|]. intros x Hx.
    destruct (Hnew x Hx) as (path & d & Hpd & Hk & ->).
    exists path, d. split; [done|]. split; [done|].
    unfold kept in Hk. rewrite Hm' in Hk. by apply Hb.
  - intros r2 co3 w3. rewrite GetAll_run, Hrun.
    destruct r as [[]|e]; intros [= <- <- <-]; done.
Qed.

End SubsetRetrieval.

(** ** Fuel: more of it changes nothing, and a finite graph needs finitely much *)

Section Fuel.
Context `{env : Env}.

Section Monotone.
Variables rec rec' : coAssembly -> M unit.
Hypothesis rec_le : forall a s x, rec a s = Some x -> rec' a s = Some x.

Lemma retrieveDeployedFileF_mono path base ty s x :
  retrieveDeployedFileF rec path base ty s = Some x ->
  retrieveDeployedFileF rec' path base ty s = Some x.
Proof.
  destruct s as [co w]. rewrite !retrieveDeployedFileF_eq.
  repeat case_match; try done.
  cbv zeta. unfold subApplicationF. destruct (decodeManifest _); [apply rec_le|done].
Qed.

Lemma rangeFile_mono files s x :
  rangeFile rec files s = Some x -> rangeFile rec' files s = Some x.
Proof.
  revert s. induction files as [|f rest IH]; intros s; simpl; [done|].
  destruct (retrieveDeployedFileF rec (Name f) (fileBase f) NonAssemblyFile s)
    as [[[[]|e] s1]|] eqn:Hv; [| |done];
    rewrite (retrieveDeployedFileF_mono _ _ _ _ _ Hv); [apply IH|done].
Qed.

Lemma rangeDependentAssembly_mono deps files s x :
  rangeDependentAssembly rec deps files s = Some x ->
  rangeDependentAssembly rec' deps files s = Some x.
Proof.
  revert s. induction deps as [|d rest IH]; intros s; simpl;
    [apply rangeFile_mono|].
  destruct (negb _); [apply IH|].
  destruct (retrieveDeployedFileF rec (Codebase d) (depBase d) AssemblyDependency s)
    as [[[[]|e] s1]|] eqn:Hv; [| |done];
    rewrite (retrieveDeployedFileF_mono _ _ _ _ _ Hv); [apply IH|done].
Qed.

End Monotone.

(** A traversal that returns with some fuel returns the same with more. *)
Lemma retrieveAllDeployedFiles_fuel fuel fuel' a s x :
  (fuel <= fuel')%nat ->
  retrieveAllDeployedFiles fuel a s = Some x ->
  retrieveAllDeployedFiles fuel' a s = Some x.
Proof.
  revert fuel' a s x. induction fuel as [|fuel IH]; intros fuel' a s x Hle; [done|].
  destruct fuel' as [|fuel']; [lia|]. simpl.
  apply rangeDependentAssembly_mono. intros a0 s0 x0. apply IH. lia.
Qed.

Lemma bind_mono {A B} (m m' : M A) (f f' : A -> M B) :
  (forall s x, m s = Some x -> m' s = Some x) ->
  (forall a s x, f a s = Some x -> f' a s = Some x) ->
  forall s x, bind m f s = Some x -> bind m' f' s = Some x.
Proof.
  intros Hm Hf s x. unfold bind.
  destruct (m s) as [[[a|e] s1]|] eqn:E; [| |done]; rewrite (Hm _ _ E); auto.
Qed.

Lemma Get_fuel fuel fuel' names s x :
  (fuel <= fuel')%nat ->
  Get fuel names s = Some x -> Get fuel' names s = Some x.
Proof.
  intros Hle. revert s x. unfold Get.
  apply bind_mono; [done|]. intros co0.
  destruct (_ || _); [done|].
  apply bind_mono; [done|]. intros _.
  apply bind_mono; [|done].
  apply bind_mono; [done|]. intros co1.
  destruct (negb (offline co1)); [|done].
  destruct (assembly co1); [|done].
  intros s x. by apply retrieveAllDeployedFiles_fuel.
Qed.

(** When the manifests that can be decoded name their entries within a
    finite set [P] of paths, every traversal returns, with fuel bounded by
    the paths of [P] not yet in the result mapping. *)
Section Finite.
Variable P : gset string.
Hypothesis decoded_in_P :
  forall content a, xmlDecode content = Some a ->
  forall p, p ∈ pathsOf a -> p ∈ P.

Lemma remaining_visits s s' : rtc visit s s' -> (remaining P s' <= remaining P s)%nat.
Proof.
  intros Hv. apply visits_deployedFiles in Hv. unfold remaining.
  apply subseteq_size. apply subseteq_dom in Hv. set_solver.
Qed.

Section Loops.
Variable n : nat.
Variable rec : coAssembly -> M unit.
Hypothesis rec_visits :
  forall a s r s', rec a s = Some (r, s') -> rtc visit s s'.
Hypothesis rec_returns :
  forall a s, (forall p, p ∈ pathsOf a -> p ∈ P) ->
              (remaining P s < n)%nat -> is_Some (rec a s).

Lemma retrieveDeployedFileF_returns path base ty s :
  path ∈ P -> (remaining P s <= n)%nat ->
  is_Some (retrieveDeployedFileF rec path base ty s).
Proof.
  intros HP Hn. destruct s as [co w]. rewrite retrieveDeployedFileF_eq.
  destruct (skipped co path) eqn:Hsk; [eauto|].
  destruct (baseUrl co) as [b|]; [|eauto].
  destruct (urlParse b _) as [u|]; [|eauto].
  destruct (remoteFileInfo u base) as [rf|e0]; [|eauto].
  destruct (downloadAndCheck rf _ w) as [[w1 sfx] [content|e0]]; [|eauto].
  cbv zeta. destruct (isManifest (entryName path)); [|eauto].
  unfold subApplicationF, decodeManifest.
  destruct (xmlDecode content) as [a'|] eqn:Ha; [|unfold fail; eauto].
  apply rec_returns; [by apply (decoded_in_P _ _ Ha)|].
  eapply Nat.lt_le_trans; [|exact Hn]. unfold remaining. simpl.
  rewrite deployedFiles_stored, deployedFiles_rebased.
  apply subset_size. rewrite dom_insert_L.
  pose proof (skipped_false_fresh _ _ Hsk) as Hfresh.
  apply not_elem_of_dom in Hfresh. set_solver.
Qed.

Lemma rangeFile_returns files s :
  (forall f, f ∈ files -> Name f ∈ P) -> (remaining P s <= n)%nat ->
  is_Some (rangeFile rec files s).
Proof.
  revert s. induction files as [|f rest IH]; intros s HP Hn; simpl.
  - unfold ret. eauto.
  - destruct (retrieveDeployedFileF_returns (Name f) (fileBase f) NonAssemblyFile s)
      as [[r s1] Hv]; [apply HP; by left|done|].
    rewrite Hv. destruct r as [[]|e]; [|eauto].
    apply IH; [intros; apply HP; by right|].
    apply retrieveDeployedFileF_visits in Hv; [|exact rec_visits].
    apply remaining_visits in Hv. lia.
Qed.

Lemma rangeDependentAssembly_returns deps files s :
  (forall d, d ∈ deps -> Codebase d ∈ P) ->
  (forall f, f ∈ files -> Name f ∈ P) -> (remaining P s <= n)%nat ->
  is_Some (rangeDependentAssembly rec deps files s).
Proof.
  revert s. induction deps as [|d rest IH]; intros s HD HF Hn; simpl.
  - by apply rangeFile_returns.
  - destruct (negb _); [apply IH; auto; intros; apply HD; by right|].
    destruct (retrieveDeployedFileF_returns (Codebase d) (depBase d)
                AssemblyDependency s) as [[r s1] Hv]; [apply HD; by left|done|].
    rewrite Hv. destruct r as [[]|e]; [|eauto].
    apply IH; [intros; apply HD; by right|done|].
    apply retrieveDeployedFileF_visits in Hv; [|exact rec_visits].
    apply remaining_visits in Hv. lia.
Qed.

End Loops.

Lemma retrieveAllDeployedFiles_returns fuel a s :
  (forall p, p ∈ pathsOf a -> p ∈ P) ->
  (remaining P s < fuel)%nat ->
  is_Some (retrieveAllDeployedFiles fuel a s).
Proof.
  revert a s. induction fuel as [|fuel IH]; intros a s HP Hn; [lia|]. simpl.
  apply rangeDependentAssembly_returns with (n := fuel).
  - intros a0 s0 r0 s0' H. by apply retrieveAllDeployedFiles_visits in H as [H _].
  - exact IH.
  - intros d Hd. apply HP. unfold pathsOf. apply elem_of_app. left.
    by apply list_elem_of_fmap_2.
  - intros f Hf. apply HP. unfold pathsOf. apply elem_of_app. right.
    by apply list_elem_of_fmap_2.
  - lia.
Qed.

(** So [Get] returns, whatever the session, once the fuel exceeds the size
    of [P]. *)
Lemma Get_returns names co w :
  (forall a, assembly co = Some a -> forall p, p ∈ pathsOf a -> p ∈ P) ->
  is_Some (Get (S (base.size P)) names (co, w)).
Proof.
  intros HP.
  assert (Htrav : forall a co1 w1, assembly co = Some a ->
            exists s2, retrieveAllDeployedFiles (S (base.size P)) a (co1, w1)
                       = Some (Ok tt, s2)).
  { intros a co1 w1 Ha.
    destruct (retrieveAllDeployedFiles_returns (S (base.size P)) a (co1, w1))
      as [[r s2] Hrun]; [by apply HP| |].
    - unfold remaining. simpl.
      apply Nat.lt_succ_r, subseteq_size. set_solver.
    - pose proof Hrun as Hv. apply retrieveAllDeployedFiles_visits in Hv as [_ ->].
      eauto. }
  destruct (classic_initialized co) as [Hi|Hni].
  2:{ rewrite Get_not_initialized by done. eauto. }
  destruct (decide (names = [])) as [->|Hne].
  - rewrite Get_all_stages by done.
    destruct (offline co).
    + destruct (Get_conclusion_all co w) as (r & new & -> & _). eauto.
    + destruct (assembly co) as [a|] eqn:Ha; [|by destruct Hi].
      destruct (Htrav a co w eq_refl) as [[co2 w2] ->].
      destruct (Get_conclusion_all co2 w2) as (r & new & -> & _). eauto.
  - destruct (decide ("" ∈ names)) as [Hin|Hvalid].
    { destruct (Get_invalid_subset (S (base.size P)) names co w Hi Hin) as [m' ->]. eauto. }
    rewrite Get_subset_middle by done. unfold middle.
    destruct (offline co).
    + destruct (checkDownload_spec (set_subset (Some (freshSubset names ∅)) co) w
                  (freshSubset names ∅) eq_refl) as (mc & -> & _).
      destruct (Get_conclusion names (set_subset (Some mc)
                  (set_subset (Some (freshSubset names ∅)) co)) w)
        as (r & new & -> & _). eauto.
    + destruct (assembly co) as [a|] eqn:Ha; [|by destruct Hi].
      destruct (Htrav a (set_subset (Some (freshSubset names ∅)) co) w eq_refl)
        as [[co2 w2] ->].
      destruct (Get_conclusion names co2 w2) as (r & new & -> & _). eauto.
Qed.

End Finite.

End Fuel.

(** ** The theorems at concrete sessions *)

Module Witness.
Import Demo Scenario.

(** An entry already recorded: [a.exe] is in the result mapping, and
    retrieving it again changes nothing. *)
Lemma C9_witness :
  let env := Subset.env in
  let d := {| Type_ := NonAssemblyFile; Content := bytes "program" |} in
  let co := set_deployedFiles {[ "a.exe" := d ]} (Subset.start).1 in
  deployedFiles co !! "a.exe" = Some d /\
  retrieveDeployedFile (env := env) 3 "a.exe" (entryFor "program") NonAssemblyFile
    (co, @emptyWorld env) = Some (Ok tt, (co, @emptyWorld env)).
Proof.
  intros env d co.
  assert (H : deployedFiles co !! "a.exe" = Some d) by reflexivity.
  split; [exact H|].
  exact (proj1 (C9_present_path_is_noop (env := env) 3 "a.exe" (entryFor "program")
                  NonAssemblyFile co (@emptyWorld env) d H)).
Defined.

(** The payload [a.exe], served with status 200 at its suffixed URL,
    passes the size and digest checks. *)
Lemma C2_witness :
  let env := Subset.env in
  let file := @Build_remoteFile env "http://h/app/a.exe" 7
                (DigestValue (Hash (entryFor "program"))) "sha256" in
  let body := bytes "program" in
  supported (algorithm file) /\
  httpGet (Env := env) [] (candidateUrl file true) = Response 200 (Some body) /\
  (downloadAndCheck file true (@emptyWorld env)).2 = Ok body.
Proof.
  intros env file body.
  assert (H1 : supported (algorithm file)) by (right; reflexivity).
  assert (H2 : httpGet (Env := env) (requests (@emptyWorld env)) (candidateUrl file true)
               = Response 200 (Some body)) by reflexivity.
  split; [exact H1|]. split; [exact H2|].
  assert (H3 : 200 = StatusNotFound ->
               exists status' body',
                 httpGet (Env := env)
                   (requests (@emptyWorld env) ++ [candidateUrl file true])
                   (fallbackUrl file true) = Response status' body'
                 /\ status' <> StatusNotFound)
    by (intros H; discriminate H).
  destruct (C2_download_verifies_size_and_digest (env := env) file true
              (@emptyWorld env) 200 body H1 H2 H3) as [Hiff _].
  apply Hiff. split; reflexivity.
Defined.

(** The first manifest dependency of the session with two of them: the
    base URL it leaves is its own URL. *)
Lemma C6_witness :
  let env := TwoManifests.env in
  let co := (TwoManifests.start).1 in
  skipped co "a/one.manifest" = false /\
  urlParse (Env := env) rootUrl "a/one.manifest" = Some "http://h/app/a/one.manifest" /\
  exists r co' w',
    retrieveDeployedFile (env := env) 4 "a/one.manifest" (entryFor "<one/>")
      AssemblyDependency TwoManifests.start = Some (r, (co', w')) /\
    rebases (Some "http://h/app/a/one.manifest") (baseUrl co') /\
    baseUrl co' = Some "http://h/app/a/one.manifest".
Proof.
  intros env co.
  assert (H1 : skipped co "a/one.manifest" = false) by reflexivity.
  assert (H2 : isManifest (entryName "a/one.manifest") = true) by reflexivity.
  assert (H3 : baseUrl co = Some rootUrl) by reflexivity.
  assert (H4 : urlParse (Env := env) rootUrl (ReplaceBackslash "a/one.manifest")
               = Some "http://h/app/a/one.manifest") by reflexivity.
  split; [exact H1|]. split; [exact H4|].
  eexists _, _, _.
  split; [vm_compute; reflexivity|].
  match goal with
  | |- rebases _ (baseUrl ?c) /\ _ =>
      destruct (C6_rebase_before_download_and_onwards (env := env) 4 "a/one.manifest"
                  (entryFor "<one/>") co (@emptyWorld env) rootUrl
                  "http://h/app/a/one.manifest" (Ok tt) c _
                  H1 H2 H3 H4 ltac:(vm_compute; reflexivity))
        as (_ & Hreb & Hplain & _)
  end.
  split; [exact Hreb|].
  eapply Hplain.
  - vm_compute. reflexivity.
  - vm_compute. reflexivity.
  - split; intros x Hx; by apply elem_of_nil in Hx.
Defined.

(** [GetAll], then [Get] of one name with no fuel at all: no request, the
    same result mapping. *)
Lemma C7_witness :
  let env := Subset.env in
  exists co w,
    GetAll (env := env) 5 Subset.start = Some (Ok tt, (co, w)) /\
    offline co = true /\
    exists r co' w',
      Get (env := env) 0 ["a.exe"] (co, w) = Some (r, (co', w')) /\
      requests w' = requests w /\
      deployedFiles co' = deployedFiles co.
Proof.
  intros env.
  destruct (GetAll (env := env) 5 Subset.start) as [[[[]|e] [co w]]|] eqn:E;
    [|exfalso; vm_compute in E; discriminate E..].
  exists co, w. split; [reflexivity|].
  destruct (C7_offline_get_sends_no_request (env := env) 5 Subset.start co w E)
    as (Hi & Hoff & Hget).
  split; [exact Hoff|].
  assert (Hne : ["a.exe"] <> []) by discriminate.
  destruct (Hget co w Hi Hoff 0%nat ["a.exe"] Hne)
    as (r & co' & w' & Hrun & _ & _ & Hreq & Hfiles & _).
  exists r, co', w'. split; [exact Hrun|]. split; [exact Hreq|exact Hfiles].
Defined.

(** One requested name is served, the other does not exist. *)
Lemma C8_witness :
  let env := Subset.env in
  let names := ["a.exe"; "zzz.dll"] in
  initialized (Subset.start).1 /\ ("" ∉ names) /\
  exists r co' w',
    Get (env := env) 5 names Subset.start = Some (r, (co', w')) /\
    (forall s, s ∈ names -> subsetFlag co' s = true -> present (deployedFiles co') s) /\
    exists new, written w' = (written (Subset.start).2 ++ new)%list.
Proof.
  intros env names.
  assert (Hi : initialized (Subset.start).1) by (split; discriminate).
  assert (Hv : "" ∉ names).
  { intros H. apply elem_of_cons in H as [H|H]; [discriminate H|].
    apply elem_of_cons in H as [H|H]; [discriminate H|].
    by apply elem_of_nil in H. }
  split; [exact Hi|]. split; [exact Hv|].
  destruct (Get (env := env) 5 names Subset.start) as [[r [co' w']]|] eqn:E;
    [|exfalso; vm_compute in E; discriminate E].
  exists r, co', w'. split; [reflexivity|].
  assert (Hne : names <> []) by discriminate.
  destruct (C8_none_or_not_all_found (env := env) 5 names (Subset.start).1
              (Subset.start).2 r co' w' Hi Hne Hv E)
    as (_ & _ & _ & Hflag & Hnew).
  split; [exact Hflag|exact Hnew].
Defined.

(** [Get] of one name, then [Get] of everything on the same session: the
    filter is still in place. *)
Lemma C10_witness :
  let env := Subset.env in
  exists co w m r co' w',
    Get (env := env) 5 ["a.exe"] Subset.start = Some (Ok tt, (co, w)) /\
    initialized co /\ subset co = Some m /\
    Get (env := env) 5 [] (co, w) = Some (r, (co', w')) /\
    exists m', subset co' = Some m' /\
      (forall n, is_Some (m !! n) -> is_Some (m' !! n)) /\
      (forall n, is_Some (m' !! n) -> is_Some (m !! n) \/ isManifest n = true).
Proof.
  intros env.
  destruct (Get (env := env) 5 ["a.exe"] Subset.start) as [[[[]|e] [co w]]|] eqn:E1;
    [|exfalso; vm_compute in E1; discriminate E1..].
  assert (Hi : initialized co).
  { split; intros H; vm_compute in E1; injection E1 as <- _; discriminate H. }
  destruct (subset co) as [m|] eqn:Hm;
    [|exfalso; vm_compute in E1; injection E1 as <- _; discriminate Hm].
  destruct (Get (env := env) 5 [] (co, w)) as [[r [co' w']]|] eqn:E2;
    [|exfalso; vm_compute in E1; injection E1 as <- <-;
      vm_compute in E2; discriminate E2].
  exists co, w, m, r, co', w'. split; [reflexivity|]. split; [exact Hi|].
  split; [exact Hm|]. split; [exact E2|].
  exact (proj1 (C10_filter_outlives_its_get (env := env) 5 co w m r co' w' Hi Hm E2)).
Defined.

End Witness.

(** ** Paths, extensions and bare file names *)

Module PathFacts.

Lemma append_nil_r s : s ++ "" = s.
Proof.
  induction s as [|c r IH]; [reflexivity|].
  change (String c (r ++ "") = String c r). by rewrite IH.
Qed.

Lemma append_cons c r t : String c r ++ t = String c (r ++ t).
Proof. reflexivity. Qed.

Lemma append_assoc (a b c : string) : (a ++ b) ++ c = a ++ (b ++ c).
Proof.
  induction a as [|x r IH]; [reflexivity|].
  rewrite !append_cons. by rewrite IH.
Qed.

Lemma length_append (a b : string) :
  String.length (a ++ b) = (String.length a + String.length b)%nat.
Proof.
  induction a as [|x r IH]; [reflexivity|].
  rewrite append_cons. simpl. by rewrite IH.
Qed.

Lemma substring_prefix (a b : string) :
  String.substring 0 (String.length a) (a ++ b) = a.
Proof.
  induction a as [|x r IH]; [by destruct b|].
  rewrite append_cons. simpl. by rewrite IH.
Qed.

Lemma substring_all (b : string) :
  String.substring 0 (String.length b) b = b.
Proof. induction b as [|x r IH]; [reflexivity|]. simpl. by rewrite IH. Qed.

Lemma substring_suffix (a b : string) :
  String.substring (String.length a) (String.length b) (a ++ b) = b.
Proof.
  induction a as [|x r IH]; [apply substring_all|].
  rewrite append_cons. simpl. exact IH.
Qed.

Lemma HasSuffix_append (a b : string) : HasSuffix (a ++ b) b = true.
Proof.
  unfold HasSuffix. rewrite length_append.
  replace (String.length a + String.length b - String.length b)%nat
    with (String.length a) by lia.
  rewrite substring_suffix, String.eqb_refl, andb_true_r.
  apply Nat.leb_le. lia.
Qed.

(** Trimming a suffix that was appended gives the stem back. *)
Lemma TrimSuffix_append (a b : string) : TrimSuffix (a ++ b) b = a.
Proof.
  unfold TrimSuffix. rewrite HasSuffix_append, length_append.
  replace (String.length a + String.length b - String.length b)%nat
    with (String.length a) by lia.
  apply substring_prefix.
Qed.

Lemma containsSlash_occurs s : containsSlash s = occurs "/" s.
Proof. induction s as [|c r IH]; [reflexivity|]. simpl. by rewrite IH. Qed.

Lemma occurs_append c (a b : string) :
  occurs c (a ++ b) = occurs c a || occurs c b.
Proof.
  induction a as [|x r IH]; [reflexivity|].
  rewrite append_cons. simpl. rewrite IH. by rewrite orb_assoc.
Qed.

(** The extension is a suffix of the path: the path is a stem followed by
    its extension, and the extension is empty or a dot followed by bytes
    that are neither dots nor slashes. *)
Lemma Ext_split s :
  exists stem,
    s = stem ++ Ext s /\
    (Ext s = "" \/
     exists rest, Ext s = String "." rest /\
                  occurs "." rest = false /\ occurs "/" rest = false).
Proof.
  induction s as [|c r (stem & Hs & Hshape)].
  - exists "". split; [reflexivity|]. by left.
  - simpl Ext. destruct (Ext r) as [|e0 e] eqn:He.
    + destruct (containsSlash r) eqn:Hsl.
      * exists (String c r). split; [by rewrite append_nil_r|]. by left.
      * destruct (Ascii.eqb_spec c ".") as [->|Hc].
        -- exists "". split; [reflexivity|]. right. exists r.
           split; [reflexivity|].
           rewrite <- containsSlash_occurs. split; [|exact Hsl].
           (* no dot in [r]: its extension is empty and it has no slash *)
           clear Hs Hshape stem. induction r as [|x r IH]; [reflexivity|].
           simpl in He, Hsl. apply orb_false_iff in Hsl as [Hx Hsl].
           destruct (Ext r) as [|? ?] eqn:Her; [|discriminate].
           rewrite Hsl in He. simpl.
           destruct (Ascii.eqb_spec x "."); [discriminate|].
           simpl. by apply IH.
        -- exists (String c r). split; [by rewrite append_nil_r|]. by left.
    + exists (String c stem). split.
      * rewrite append_cons. by rewrite <- Hs.
      * exact Hshape.
Qed.

(** Stripping the extension and putting it back gives the path. *)
Lemma TrimSuffix_Ext s : TrimSuffix s (Ext s) ++ Ext s = s.
Proof.
  destruct (Ext_split s) as (stem & Hs & _).
  rewrite Hs at 1. rewrite TrimSuffix_append. by rewrite <- Hs.
Qed.

(** The extension of a path that ends in an extension [e] is [e]. *)
Lemma Ext_append s rest :
  occurs "." rest = false -> occurs "/" rest = false ->
  Ext (s ++ String "." rest) = String "." rest.
Proof.
  intros Hdot Hsl. induction s as [|c r IH].
  - change ("" ++ String "." rest) with (String "." rest).
    simpl Ext.
    assert (He : Ext rest = "").
    { induction rest as [|x r IH]; [reflexivity|].
      simpl in Hdot, Hsl. apply orb_false_iff in Hdot as [Hx Hdot].
      apply orb_false_iff in Hsl as [_ Hsl].
      simpl. rewrite (IH Hdot Hsl). rewrite containsSlash_occurs, Hsl.
      by rewrite Hx. }
    rewrite He, containsSlash_occurs, Hsl. reflexivity.
  - rewrite append_cons. simpl Ext. by rewrite IH.
Qed.

Lemma ReplaceBackslash_clean s : occurs "\" (ReplaceBackslash s) = false.
Proof.
  induction s as [|c r IH]; [reflexivity|]. simpl. rewrite IH, orb_false_r.
  destruct (Ascii.eqb_spec c "\") as [->|Hc]; [reflexivity|].
  by apply Ascii.eqb_neq.
Qed.

Lemma ReplaceBackslash_id s : occurs "\" s = false -> ReplaceBackslash s = s.
Proof.
  induction s as [|c r IH]; [reflexivity|]. simpl. intros H.
  apply orb_false_iff in H as [Hc Hr]. by rewrite Hc, IH.
Qed.

Lemma stripTrailingSlashes_occurs c s :
  occurs c s = false -> occurs c (stripTrailingSlashes s) = false.
Proof.
  induction s as [|x r IH]; [reflexivity|]. simpl. intros H.
  apply orb_false_iff in H as [Hx Hr]. specialize (IH Hr).
  destruct (stripTrailingSlashes r) as [|y t].
  - destruct (Ascii.eqb x "/"); simpl; [reflexivity|]. by rewrite Hx.
  - simpl in *. by rewrite Hx.
Qed.

Lemma stripTrailingSlashes_id s :
  occurs "/" s = false -> stripTrailingSlashes s = s.
Proof.
  induction s as [|x r IH]; [reflexivity|]. simpl. intros H.
  apply orb_false_iff in H as [Hx Hr]. rewrite (IH Hr).
  destruct r; [by rewrite Hx|reflexivity].
Qed.

Lemma lastElement_occurs c s :
  occurs c s = false -> occurs c (lastElement s) = false.
Proof.
  induction s as [|x r IH]; [reflexivity|]. simpl. intros H.
  apply orb_false_iff in H as [Hx Hr].
  destruct (containsSlash r); [by apply IH|].
  destruct (Ascii.eqb x "/"); [exact Hr|]. simpl. by rewrite Hx.
Qed.

Lemma lastElement_no_slash s : occurs "/" (lastElement s) = false.
Proof.
  induction s as [|x r IH]; [reflexivity|]. simpl.
  destruct (containsSlash r) eqn:Hr; [exact IH|].
  rewrite containsSlash_occurs in Hr.
  destruct (Ascii.eqb x "/") eqn:Hx; [exact Hr|]. simpl. by rewrite Hx.
Qed.

Lemma lastElement_id s : occurs "/" s = false -> lastElement s = s.
Proof.
  destruct s as [|x r]; [reflexivity|]. simpl. intros H.
  apply orb_false_iff in H as [Hx Hr].
  by rewrite containsSlash_occurs, Hr, Hx.
Qed.

(** [path.Base] gives ["."], ["/"] or the last element, which holds no
    slash and is not empty. *)
Lemma Base_shape p :
  Base p <> "" /\ (Base p = "/" \/ occurs "/" (Base p) = false).
Proof.
  unfold Base. destruct (String.eqb p ""); [split; [discriminate|by right]|].
  destruct (String.eqb_spec (lastElement (stripTrailingSlashes p)) "") as [He|He].
  - split; [discriminate|by left].
  - split; [exact He|]. right. apply lastElement_no_slash.
Qed.

Lemma Base_occurs c p :
  c <> "."%char -> c <> "/"%char ->
  occurs c p = false -> occurs c (Base p) = false.
Proof.
  intros Hdot Hsl H. unfold Base.
  assert (Hd : Ascii.eqb "." c = false) by (apply Ascii.eqb_neq; congruence).
  assert (Hs : Ascii.eqb "/" c = false) by (apply Ascii.eqb_neq; congruence).
  destruct (String.eqb p "");
    [change (Ascii.eqb "." c || false = false); by rewrite Hd|].
  destruct (String.eqb (lastElement (stripTrailingSlashes p)) "");
    [change (Ascii.eqb "/" c || false = false); by rewrite Hs|].
  by apply lastElement_occurs, stripTrailingSlashes_occurs.
Qed.

Lemma Base_id p : p <> "" -> occurs "/" p = false -> Base p = p.
Proof.
  intros Hne Hsl. unfold Base.
  rewrite (proj2 (String.eqb_neq p "") Hne).
  rewrite (stripTrailingSlashes_id _ Hsl), (lastElement_id _ Hsl).
  by rewrite (proj2 (String.eqb_neq p "") Hne).
Qed.

End PathFacts.

(** ** Further properties of the download engine *)

Section Names.
Context `{env : Env}.
Import PathFacts.

(** X1.  The bare file name of an entry is never empty, holds no
    backslash, holds no slash unless it is ["/"] itself, and is its own bare
    name.  So a name that is empty or holds a separator names no entry of
    any result mapping: as a member of a subset it is never found. *)
Theorem X1_bare_name_shape path :
  entryName path <> "" /\
  occurs "\" (entryName path) = false /\
  (entryName path = "/" \/ occurs "/" (entryName path) = false) /\
  entryName (entryName path) = entryName path /\
  forall files name,
    name = "" \/ occurs "\" name = true \/ (occurs "/" name = true /\ name <> "/") ->
    ~ present files name.
Proof.
  unfold entryName.
  destruct (Base_shape (ReplaceBackslash path)) as [Hne Hsl].
  assert (Hbs : occurs "\" (Base (ReplaceBackslash path)) = false).
  { apply Base_occurs; [discriminate|discriminate|apply ReplaceBackslash_clean]. }
  split; [exact Hne|]. split; [exact Hbs|]. split; [exact Hsl|]. split.
  - rewrite (ReplaceBackslash_id _ Hbs).
    destruct Hsl as [->|Hsl]; [reflexivity|]. by apply Base_id.
  - intros files name Hbad (p & d & _ & Hp). unfold entryName in Hp.
    destruct (Base_shape (ReplaceBackslash p)) as [Hne' Hsl'].
    assert (Hbs' : occurs "\" (Base (ReplaceBackslash p)) = false).
    { apply Base_occurs; [discriminate|discriminate|apply ReplaceBackslash_clean]. }
    rewrite Hp in *.
    destruct Hbad as [->|[Hb|[Hs Hn]]]; [done|congruence|].
    destruct Hsl'; congruence.
Qed.

(** X2.  When the suffix was appended to the URL of a payload, the retry
    after a 404 goes to the URL itself; and in every case the URL of the
    retry followed by the extension that was stripped is the URL tried
    first. *)
Theorem X2_retry_url file suffix :
  fallbackUrl file suffix ++ Ext (candidateUrl file suffix)
    = candidateUrl file suffix /\
  (suffix = true -> isManifest (Base (urlPath (url file))) = false ->
   candidateUrl file suffix = urlString (url file) ++ ".deploy" /\
   fallbackUrl file suffix = urlString (url file)).
Proof.
  split; [apply TrimSuffix_Ext|].
  intros -> Hm. unfold fallbackUrl, candidateUrl. rewrite Hm. simpl.
  split; [reflexivity|]. unfold deployedFileExtension.
  rewrite (Ext_append (urlString (url file)) "deploy") by reflexivity.
  apply TrimSuffix_append.
Qed.

End Names.

Section Engine.
Context `{env : Env}.

Lemma unsupported_test alg :
  ~ supported alg ->
  negb (String.eqb alg "sha1") && negb (String.eqb alg "sha256") = true.
Proof.
  intros H. unfold supported in H.
  destruct (String.eqb_spec alg "sha1"); [tauto|].
  destruct (String.eqb_spec alg "sha256"); [tauto|]. reflexivity.
Qed.

Lemma supported_test alg :
  negb (String.eqb alg "sha1") && negb (String.eqb alg "sha256") = false ->
  supported alg.
Proof.
  unfold supported.
  destruct (String.eqb_spec alg "sha1"); [auto|].
  destruct (String.eqb_spec alg "sha256"); [auto|]. discriminate.
Qed.

(** What holds of a body that [downloadAndCheck] returns. *)
Lemma downloadAndCheck_Ok file suffix w w' suffix' body :
  downloadAndCheck file suffix w = (w', suffix', Ok body) ->
  supported (algorithm file) /\
  size file = Z.of_nat (length body) /\
  digest file = digestOf (algorithm file) body.
Proof.
  unfold downloadAndCheck, download, digestOf. cbv zeta.
  destruct (negb (String.eqb (algorithm file) "sha1")
            && negb (String.eqb (algorithm file) "sha256")) eqn:Halg; [discriminate|].
  apply supported_test in Halg. intros H. split; [exact Halg|].
  repeat match type of H with
  | context [match ?x with _ => _ end] => destruct x eqn:?; try discriminate H
  end.
  all: injection H as _ _ <-.
  all: match goal with
       | Hs : negb (_ =? _) = false, Hd : negb (String.eqb _ _) = false |- _ =>
           apply negb_false_iff in Hs, Hd;
           apply Z.eqb_eq in Hs; apply String.eqb_eq in Hd
       end.
  all: split; assumption.
Qed.

(** X3.  An entry whose digest algorithm is neither sha1 nor sha256 is
    refused before anything is fetched: [downloadAndCheck] returns the
    unsupported-algorithm error with the world and the hint untouched, and
    [retrieveDeployedFile] returns that error with no request sent and
    nothing recorded (the base URL has been rebased by then if the entry is
    a manifest dependency). *)
Theorem X3_unsupported_algorithm_sends_no_request
  fuel path deployedFile ty co w b u rf :
  skipped co path = false ->
  baseUrl co = Some b ->
  urlParse b (ReplaceBackslash path) = Some u ->
  remoteFileInfo u deployedFile = Ok rf ->
  ~ supported (algorithm rf) ->
  (forall suffix w0,
     downloadAndCheck rf suffix w0
     = (w0, suffix, Err (ErrUnsupported (algorithm rf) (Base (urlPath (url rf)))))) /\
  retrieveDeployedFile fuel path deployedFile ty (co, w)
  = Some (Err (ErrUnsupported (algorithm rf) (Base (urlPath (url rf)))),
          (rebased ty path u co, w)) /\
  deployedFiles (rebased ty path u co) = deployedFiles co.
Proof.
  intros Hsk Hb Hu Hrf Hun.
  assert (Hd : forall suffix w0,
     downloadAndCheck rf suffix w0
     = (w0, suffix, Err (ErrUnsupported (algorithm rf) (Base (urlPath (url rf)))))).
  { intros suffix w0. unfold downloadAndCheck.
    by rewrite (unsupported_test _ Hun). }
  split; [exact Hd|]. split; [|apply deployedFiles_rebased].
  unfold retrieveDeployedFile.
  by rewrite retrieveDeployedFileF_eq, Hsk, Hb, Hu, Hrf, Hd.
Qed.

(** X4.  With a supported algorithm [downloadAndCheck] writes nothing and
    sends one request, to the candidate URL, or two: the second one, to the
    URL with the last extension stripped, exactly when the first response
    has status 404. *)
Theorem X4_one_request_or_two file suffix w :
  supported (algorithm file) ->
  let w' := (downloadAndCheck file suffix w).1.1 in
  written w' = written w /\
  requests w' =
    (requests w ++
     match httpGet (requests w) (candidateUrl file suffix) with
     | Response status _ =>
         if status =? StatusNotFound
         then [candidateUrl file suffix; fallbackUrl file suffix]
         else [candidateUrl file suffix]
     | RequestError => [candidateUrl file suffix]
     end)%list.
Proof.
  intros Hsup w'. subst w'.
  split; [apply downloadAndCheck_world|].
  unfold downloadAndCheck, download.
  fold (candidateUrl file suffix). cbv zeta.
  assert (Halg : negb (String.eqb (algorithm file) "sha1")
                 && negb (String.eqb (algorithm file) "sha256") = false).
  { destruct Hsup as [-> | ->]; reflexivity. }
  rewrite Halg. simpl requests.
  destruct (httpGet (requests w) (candidateUrl file suffix)) as [|status body];
    [reflexivity|].
  fold (fallbackUrl file suffix).
  destruct (status =? StatusNotFound).
  - simpl requests.
    destruct (httpGet _ (fallbackUrl file suffix)) as [|status' body'];
      [by rewrite <- app_assoc|].
    destruct (status' =? StatusNotFound); repeat case_match;
      simpl; by rewrite <- app_assoc.
  - repeat case_match; reflexivity.
Qed.

(** X5.  Whatever the network answers, a body that [downloadAndCheck]
    returns is the body of the first response, has the declared size and
    the declared digest under a supported algorithm, and the returned hint
    is the given one or off.  In particular an entry with a negative
    declared size never verifies. *)
Theorem X5_returned_body_is_verified file suffix w w' suffix' body :
  downloadAndCheck file suffix w = (w', suffix', Ok body) ->
  supported (algorithm file) /\
  (exists status,
     httpGet (requests w) (candidateUrl file suffix) = Response status (Some body)) /\
  size file = Z.of_nat (length body) /\
  digest file = digestOf (algorithm file) body /\
  0 <= size file /\
  (suffix' = suffix \/ suffix' = false).
Proof.
  unfold downloadAndCheck, download, digestOf.
  fold (candidateUrl file suffix). cbv zeta.
  destruct (negb (String.eqb (algorithm file) "sha1")
            && negb (String.eqb (algorithm file) "sha256")) eqn:Halg; [discriminate|].
  apply supported_test in Halg. simpl requests.
  destruct (httpGet (requests w) (candidateUrl file suffix)) as [|status rbody];
    [discriminate|].
  intros H.
  assert (Hcheck : forall (wx : World) (sx : bool),
    match rbody with
    | None => (wx, sx, Err ErrBody)
    | Some body0 =>
        if negb (size file =? Z.of_nat (length body0))
        then (wx, sx, Err (ErrSizeMismatch (Base (urlPath (url file))) (size file)
                             (Z.of_nat (length body0))))
        else if negb (String.eqb (digest file)
                        (Base64.EncodeToString
                           (if String.eqb (algorithm file) "sha1"
                            then sha1Sum body0 else sha256Sum body0)))
             then (wx, sx, Err (ErrDigestMismatch (Base (urlPath (url file)))))
             else (wx, sx, Ok body0)
    end = (w', suffix', Ok body) ->
    rbody = Some body /\ size file = Z.of_nat (length body) /\
    digest file = Base64.EncodeToString
                    (if String.eqb (algorithm file) "sha1"
                     then sha1Sum body else sha256Sum body) /\
    sx = suffix').
  { intros wx sx. destruct rbody as [body0|]; [|discriminate].
    destruct (Z.eqb_spec (size file) (Z.of_nat (length body0))) as [Hs|]; [|discriminate].
    simpl. destruct (String.eqb_spec (digest file)
             (Base64.EncodeToString
                (if String.eqb (algorithm file) "sha1"
                 then sha1Sum body0 else sha256Sum body0))) as [Hd|]; [|discriminate].
    simpl. intros [= <- <- <-]. auto. }
  destruct (status =? StatusNotFound).
  - destruct (httpGet _ _) as [|status' body']; [discriminate|].
    destruct (status' =? StatusNotFound); [discriminate|].
    apply Hcheck in H as (-> & Hs & Hd & <-).
    split; [done|]. split; [eauto|]. split; [done|]. split; [done|].
    split; [lia|]. by right.
  - apply Hcheck in H as (-> & Hs & Hd & <-).
    split; [done|]. split; [eauto|]. split; [done|]. split; [done|].
    split; [lia|]. by left.
Qed.

(** X6.  When the first response and the retry both have status 404,
    [downloadAndCheck] fails with the error that names the URL of the
    retry, after exactly these two requests, and returns the hint as it was
    given. *)
Theorem X6_both_not_found file suffix w body body' :
  supported (algorithm file) ->
  httpGet (requests w) (candidateUrl file suffix) = Response StatusNotFound body ->
  httpGet (requests w ++ [candidateUrl file suffix]) (fallbackUrl file suffix)
    = Response StatusNotFound body' ->
  downloadAndCheck file suffix w
  = ({| requests := requests w ++ [candidateUrl file suffix; fallbackUrl file suffix];
        written := written w |},
     suffix, Err (ErrNoFile (fallbackUrl file suffix))).
Proof.
  intros Hsup H1 H2. unfold downloadAndCheck, download.
  fold (candidateUrl file suffix). cbv zeta.
  assert (Halg : negb (String.eqb (algorithm file) "sha1")
                 && negb (String.eqb (algorithm file) "sha256") = false).
  { destruct Hsup as [-> | ->]; reflexivity. }
  rewrite Halg. simpl requests. rewrite H1. simpl.
  fold (fallbackUrl file suffix). rewrite H2. simpl.
  by rewrite <- app_assoc.
Qed.

End Engine.

(** ** Further properties of the traversal *)

Section Traversal.
Context `{env : Env}.

Lemma noSuffix_rebased ty path u co :
  noSuffix (rebased ty path u co) = noSuffix co.
Proof. unfold rebased. by destruct (rebasing ty path). Qed.

Lemma noSuffix_stored path ty content sfx co :
  noSuffix (stored path ty content sfx co) = negb sfx.
Proof. unfold stored, subsetStore. by destruct (subset _). Qed.

Lemma notFound_stored path ty content sfx co :
  notFound (stored path ty content sfx co) = notFound co.
Proof. unfold stored, subsetStore. by destruct (subset _). Qed.

Lemma notFound_rebased ty path u co :
  notFound (rebased ty path u co) = notFound co.
Proof. unfold rebased. by destruct (rebasing ty path). Qed.

Lemma visits_noSuffix s s' :
  rtc visit s s' -> noSuffix s.1 = true -> noSuffix s'.1 = true.
Proof.
  induction 1 as [s|s1 s2 s3 Hv _ IH]; [done|]. intros Hns. apply IH.
  destruct Hv as [co w path ty b u w1 _ _ _ _ _
                 |co w path base ty b u rf sfx content w1 _ _ _ _ Hd]; simpl in *.
  - by rewrite noSuffix_rebased.
  - rewrite noSuffix_stored. rewrite Hns in Hd. simpl in Hd.
    pose proof (downloadAndCheck_suffix rf w) as Hs. rewrite Hd in Hs.
    simpl in Hs. by rewrite Hs.
Qed.

Lemma visits_notFound s s' : rtc visit s s' -> notFound s'.1 = notFound s.1.
Proof.
  induction 1 as [s|s1 s2 s3 Hv _ IH]; [done|]. rewrite IH.
  destruct Hv; simpl; by rewrite ?notFound_stored, ?notFound_rebased.
Qed.

(** X7.  Once the session has learnt that files are served without the
    suffix, no traversal and no [Get] unlearns it: [noSuffix] stays set. *)
Theorem X7_noSuffix_stays_set fuel names co w r co' w' :
  noSuffix co = true ->
  Get fuel names (co, w) = Some (r, (co', w')) ->
  noSuffix co' = true /\
  forall fuel2 a r2 co2 w2,
    retrieveAllDeployedFiles fuel2 a (co', w') = Some (r2, (co2, w2)) ->
    noSuffix co2 = true.
Proof.
  intros Hns Hrun.
  assert (Hco' : noSuffix co' = true).
  { destruct (classic_initialized co) as [Hi|Hni].
    2:{ rewrite Get_not_initialized in Hrun by done. by injection Hrun as _ <- _. }
    destruct (decide (names = [])) as [->|Hne].
    - destruct (Get_all_run _ _ _ _ _ _ Hi Hrun) as (co2 & w2 & new & Hv & _ & -> & _).
      apply visits_noSuffix in Hv; done.
    - destruct (decide ("" ∈ names)) as [Hin|Hvalid].
      + destruct (Get_invalid_subset fuel names co w Hi Hin) as [m' Hrun'].
        rewrite Hrun' in Hrun. by injection Hrun as _ <- _.
      + destruct (Get_subset_run _ _ _ _ _ _ _ Hi Hne Hvalid Hrun)
          as (co2 & w2 & new & Hmid & -> & _).
        unfold middle in Hmid. destruct (offline co).
        * destruct (checkDownload_spec (set_subset (Some (freshSubset names ∅)) co) w
                      (freshSubset names ∅) eq_refl) as (mc & Hc & _).
          rewrite Hc in Hmid. by injection Hmid as <- _.
        * destruct (assembly co); [|done].
          apply retrieveAllDeployedFiles_visits in Hmid as [Hv _].
          apply visits_noSuffix in Hv; done. }
  split; [exact Hco'|].
  intros fuel2 a r2 co2 w2 H. apply retrieveAllDeployedFiles_visits in H as [Hv _].
  by apply visits_noSuffix in Hv.
Qed.

(** X8.  A traversal returns nil, writes no file, only adds requests to
    those already sent, only adds entries to the result mapping, and
    leaves the root assembly, the output directory, the offline mark and
    the not-found counter as they are; a session that was initialized
    still is. *)
Theorem X8_traversal_frame fuel a co w r co' w' :
  retrieveAllDeployedFiles fuel a (co, w) = Some (r, (co', w')) ->
  r = Ok tt /\
  written w' = written w /\
  (exists sent, requests w' = (requests w ++ sent)%list) /\
  deployedFiles co ⊆ deployedFiles co' /\
  assembly co' = assembly co /\ outputDir co' = outputDir co /\
  offline co' = offline co /\ notFound co' = notFound co /\
  (initialized co -> initialized co').
Proof.
  intros H. apply retrieveAllDeployedFiles_visits in H as [Hv ->].
  destruct (visits_world _ _ Hv) as [Hw Hr].
  destruct (visits_fields _ _ Hv) as (Ho & Ha & Hoff).
  split; [done|]. split; [done|]. split; [done|].
  split; [by apply visits_deployedFiles in Hv|].
  split; [done|]. split; [done|]. split; [done|].
  split; [by apply visits_notFound in Hv|].
  intros Hi. exact (visits_initialized _ _ Hv Hi).
Qed.

(** The dependents that the first loop does not pass over. *)
Lemma install_only rec deps files s :
  rangeDependentAssembly rec deps files s
  = rangeDependentAssembly rec
      (List.filter (fun d => String.eqb (DependencyType d) "install") deps) files s.
Proof.
  revert s. induction deps as [|d rest IH]; intros s; [reflexivity|]. simpl.
  destruct (String.eqb (DependencyType d) "install") eqn:Hd; simpl; [|apply IH].
  rewrite Hd. simpl.
  destruct (retrieveDeployedFileF rec (Codebase d) (depBase d) AssemblyDependency s)
    as [[[[]|e] s1]|]; [apply IH|reflexivity|reflexivity].
Qed.

(** X9.  Only the dependents tagged exactly ["install"] count: dropping
    all the others from a manifest changes nothing in its traversal. *)
Theorem X9_only_install_dependents fuel a s :
  retrieveAllDeployedFiles fuel a s
  = retrieveAllDeployedFiles fuel
      {| File := File a;
         DependentAssembly :=
           List.filter (fun d => String.eqb (DependencyType d) "install")
             (DependentAssembly a) |} s.
Proof. destruct fuel as [|fuel]; [reflexivity|]. simpl. apply install_only. Qed.

(** X10.  An entry that a visit puts in the result mapping carries the
    type tag of the list it was visited from, and its content has the size
    that its declared size string parses to and the digest it declares,
    under sha1 or sha256. *)
Theorem X10_recorded_entry_is_verified fuel path deployedFile ty co w r co' w' d :
  deployedFiles co !! path = None ->
  retrieveDeployedFile fuel path deployedFile ty (co, w) = Some (r, (co', w')) ->
  deployedFiles co' !! path = Some d ->
  Type_ d = ty /\
  Strconv.Atoi (Size deployedFile) = inr (Z.of_nat (length (Content d))) /\
  (exists alg, supported alg /\
     DigestValue (Hash deployedFile) = digestOf alg (Content d)).
Proof.
  intros Hfresh Hrun Hd. unfold retrieveDeployedFile in Hrun.
  rewrite retrieveDeployedFileF_eq in Hrun.
  destruct (skipped co path); [injection Hrun as _ <- _; congruence|].
  destruct (baseUrl co) as [b|]; [|injection Hrun as _ <- _; congruence].
  destruct (urlParse b _) as [u|]; [|injection Hrun as _ <- _; congruence].
  destruct (remoteFileInfo u deployedFile) as [rf|e] eqn:Hrf.
  2:{ injection Hrun as _ <- _. rewrite deployedFiles_rebased in Hd. congruence. }
  destruct (downloadAndCheck rf _ w) as [[w1 sfx] [content|e]] eqn:Hdl.
  2:{ injection Hrun as _ <- _. rewrite deployedFiles_rebased in Hd. congruence. }
  cbv zeta in Hrun.
  assert (Hin : deployedFiles co' !! path = Some {| Type_ := ty; Content := content |}).
  { destruct (isManifest (entryName path)).
    - unfold subApplicationF in Hrun. destruct (decodeManifest content) as [a|e1].
      + apply retrieveAllDeployedFiles_visits in Hrun as [Hv _].
        apply visits_deployedFiles in Hv. simpl in Hv.
        eapply lookup_weaken; [|exact Hv].
        rewrite deployedFiles_stored. apply lookup_insert_eq.
      + injection Hrun as _ <- _. rewrite deployedFiles_stored. apply lookup_insert_eq.
    - injection Hrun as _ <- _. rewrite deployedFiles_stored. apply lookup_insert_eq. }
  rewrite Hd in Hin. injection Hin as ->. simpl.
  apply downloadAndCheck_Ok in Hdl as (Hsup & Hsize & Hdig).
  unfold remoteFileInfo in Hrf.
  destruct (Strconv.Atoi (Size deployedFile)) as [e|n]; [discriminate|].
  destruct (parseFragment _) as [fragment|]; [|discriminate].
  injection Hrf as <-. simpl in *.
  split; [reflexivity|]. split; [by rewrite Hsize|]. eauto.
Qed.

(** X11.  [retrieveDeployedFile] returns nil with the session untouched
    exactly when it skips the entry: the path is empty, the filter rejects
    it, or the path is already in the result mapping. *)
Theorem X11_untouched_iff_skipped fuel path deployedFile ty co w r co' w' :
  retrieveDeployedFile fuel path deployedFile ty (co, w) = Some (r, (co', w')) ->
  (r = Ok tt /\ co' = co) <-> skipped co path = true.
Proof.
  intros Hrun. split.
  - intros [-> ->]. destruct (skipped co path) eqn:Hsk; [reflexivity|]. exfalso.
    pose proof (skipped_false_fresh _ _ Hsk) as Hfresh.
    unfold retrieveDeployedFile in Hrun.
    rewrite retrieveDeployedFileF_eq, Hsk in Hrun.
    destruct (baseUrl co) as [b|]; [|discriminate].
    destruct (urlParse b _) as [u|]; [|discriminate].
    destruct (remoteFileInfo u deployedFile) as [rf|e]; [|discriminate].
    destruct (downloadAndCheck rf _ w) as [[w1 sfx] [content|e]]; [|discriminate].
    cbv zeta in Hrun.
    assert (Hin : is_Some (deployedFiles co !! path)).
    { destruct (isManifest (entryName path)).
      - unfold subApplicationF in Hrun. destruct (decodeManifest content) as [a|e1];
          [|discriminate].
        apply retrieveAllDeployedFiles_visits in Hrun as [Hv _].
        apply visits_deployedFiles in Hv. simpl in Hv.
        eexists. eapply lookup_weaken; [|exact Hv].
        rewrite deployedFiles_stored. apply lookup_insert_eq.
      - injection Hrun as Hco _. rewrite <- Hco at 1.
        rewrite deployedFiles_stored. rewrite lookup_insert_eq. eauto. }
    destruct Hin as [? Hin]. congruence.
  - intros Hsk. unfold retrieveDeployedFile in Hrun.
    rewrite retrieveDeployedFileF_eq, Hsk in Hrun. by injection Hrun as <- <- _.
Qed.

(** X12.  A manifest that was downloaded and verified but cannot be
    decoded stays in the result mapping: [retrieveDeployedFile] returns the
    decode error after recording it. *)
Theorem X12_undecodable_manifest_is_recorded
  fuel path deployedFile ty co w b u rf w1 sfx content :
  skipped co path = false ->
  isManifest (entryName path) = true ->
  baseUrl co = Some b ->
  urlParse b (ReplaceBackslash path) = Some u ->
  remoteFileInfo u deployedFile = Ok rf ->
  downloadAndCheck rf (negb (noSuffix co)) w = (w1, sfx, Ok content) ->
  xmlDecode content = None ->
  exists co',
    retrieveDeployedFile fuel path deployedFile ty (co, w)
      = Some (Err ErrDecode, (co', w1)) /\
    deployedFiles co' !! path = Some {| Type_ := ty; Content := content |}.
Proof.
  intros Hsk Hm Hb Hu Hrf Hdl Hdec.
  exists (stored path ty content sfx (rebased ty path u co)). split.
  - unfold retrieveDeployedFile.
    rewrite retrieveDeployedFileF_eq, Hsk, Hb, Hu, Hrf, Hdl, Hm. cbv zeta.
    unfold subApplicationF, decodeManifest. by rewrite Hdec.
  - rewrite deployedFiles_stored. apply lookup_insert_eq.
Qed.

(** X13.  When every manifest that can be decoded names its entries
    within a finite set [P] of paths, a traversal returns as soon as the
    fuel exceeds the number of paths of [P] that are not yet in the result
    mapping, also when manifests list one another in a cycle; and it
    returns the same with any larger fuel. *)
Theorem X13_traversal_returns_on_finite_graph (P : gset string) fuel a s :
  (forall content a', xmlDecode content = Some a' ->
                      forall p, p ∈ pathsOf a' -> p ∈ P) ->
  (forall p, p ∈ pathsOf a -> p ∈ P) ->
  (remaining P s < fuel)%nat ->
  exists s',
    retrieveAllDeployedFiles fuel a s = Some (Ok tt, s') /\
    forall fuel', (fuel <= fuel')%nat ->
                  retrieveAllDeployedFiles fuel' a s = Some (Ok tt, s').
Proof.
  intros Hdec HP Hfuel.
  destruct (retrieveAllDeployedFiles_returns P Hdec fuel a s HP Hfuel) as [[r s'] Hrun].
  pose proof Hrun as Hv. apply retrieveAllDeployedFiles_visits in Hv as [_ ->].
  exists s'. split; [exact Hrun|].
  intros fuel' Hle. by apply (retrieveAllDeployedFiles_fuel fuel fuel').
Qed.

End Traversal.

(** ** Further properties of the steps of [Get] *)

Section SessionSteps.
Context `{env : Env}.

Lemma initSubsetLoop_stops before after m co w :
  "" ∉ before ->
  initSubsetLoop (before ++ "" :: after)%list (set_subset (Some m) co, w)
  = Some (Err ErrEmptyFilename, (set_subset (Some (freshSubset before m)) co, w)).
Proof.
  revert m. induction before as [|s l IH]; intros m Hne; simpl.
  - reflexivity.
  - destruct (String.eqb_spec s "") as [->|Hs].
    { exfalso. apply Hne. by left. }
    unfold bind, modify. simpl. unfold subsetStore. simpl.
    rewrite set_subset_set_subset. apply IH. intros H. apply Hne. by right.
Qed.

Lemma split_at_empty (names : list string) :
  "" ∈ names -> exists before after, names = (before ++ "" :: after)%list /\ ("" ∉ before).
Proof.
  induction names as [|s l IH]; intros Hin; [by apply elem_of_nil in Hin|].
  destruct (decide (s = "")) as [->|Hs].
  - exists [], l. split; [reflexivity|]. apply not_elem_of_nil.
  - apply elem_of_cons in Hin as [Hin|Hin]; [congruence|].
    destruct (IH Hin) as (before & after & -> & Hne).
    exists (s :: before), after. split; [reflexivity|].
    intros H. apply elem_of_cons in H as [H|H]; [congruence|done].
Qed.

(** X14.  [initSubset] discards the filter that was there.  With no empty
    name in the list it returns nil and the new filter has exactly the
    listed names as keys, none flagged.  With an empty name it returns the
    empty-filename error, and the filter is replaced all the same: its
    keys are the names listed before the first empty one.  Nothing else in
    the session or the world changes. *)
Theorem X14_initSubset_replaces_the_filter names co w :
  exists r m,
    initSubset names (co, w) = Some (r, (set_subset (Some m) co, w)) /\
    (("" ∉ names) -> r = Ok tt /\
       forall s, m !! s = if decide (s ∈ names) then Some false else None) /\
    ("" ∈ names -> r = Err ErrEmptyFilename /\
       exists before after, names = (before ++ "" :: after)%list /\ ("" ∉ before) /\
         forall s, m !! s = if decide (s ∈ before) then Some false else None).
Proof.
  destruct (decide ("" ∈ names)) as [Hin|Hvalid].
  - destruct (split_at_empty names Hin) as (before & after & Heq & Hne).
    exists (Err ErrEmptyFilename), (freshSubset before ∅). split; [|split; [done|]].
    + unfold initSubset, bind, modify. simpl. rewrite Heq.
      by apply initSubsetLoop_stops.
    + intros _. split; [done|]. exists before, after. split; [done|]. split; [done|].
      intros s. rewrite freshSubset_lookup. by rewrite lookup_empty.
  - exists (Ok tt), (freshSubset names ∅). split; [by apply initSubset_valid|].
    split; [|done]. intros _. split; [done|].
    intros s. rewrite freshSubset_lookup. by rewrite lookup_empty.
Qed.

(** X15.  [checkDownload] returns with only the filter changed, whatever
    the order in which the result mapping is walked: it adds no key and
    clears no flag, and afterwards a key is flagged exactly when it was
    flagged before or is the bare name of an entry of the result mapping.
    Run after [initSubset] on a list without an empty name, as [Get] does
    on an offline session, it leaves a filter whose keys are the listed
    names, flagged exactly when they name an entry of the result mapping. *)
Theorem X15_checkDownload_flags_what_is_there co w :
  (forall m, subset co = Some m ->
   exists m',
     checkDownload (co, w) = Some (Ok tt, (set_subset (Some m') co, w)) /\
     (forall s, is_Some (m' !! s) <-> is_Some (m !! s)) /\
     (forall s, m !! s = Some true -> m' !! s = Some true) /\
     (forall s, m' !! s = Some true <->
                m !! s = Some true \/
                (is_Some (m !! s) /\ present (deployedFiles co) s))) /\
  (forall names, ("" ∉ names) ->
   exists m',
     (initSubset names ;; checkDownload)%go (co, w)
       = Some (Ok tt, (set_subset (Some m') co, w)) /\
     (forall s, is_Some (m' !! s) <-> s ∈ names) /\
     (forall s, m' !! s = Some true <-> s ∈ names /\ present (deployedFiles co) s)).
Proof.
  split.
  - intros m Hm. destruct (checkDownload_spec co w m Hm) as (m' & Hrun & Hdom & Htrue).
    exists m'. split; [exact Hrun|]. split; [exact Hdom|]. split; [|exact Htrue].
    intros s Hs. apply Htrue. by left.
  - intros names Hvalid. unfold bind. rewrite initSubset_valid by done.
    destruct (checkDownload_spec (set_subset (Some (freshSubset names ∅)) co) w
                (freshSubset names ∅) eq_refl) as (m' & Hrun & Hdom & Htrue).
    exists m'. rewrite Hrun, set_subset_set_subset. split; [done|]. split.
    + intros s. rewrite Hdom. apply freshSubset_keys.
    + intros s. rewrite Htrue. simpl. rewrite freshSubset_keys. split.
      * intros [Hs|Hs]; [|done]. exfalso.
        rewrite freshSubset_lookup, lookup_empty in Hs. by destruct (decide _).
      * intros Hs. by right.
Qed.

(** X16.  [findSubset] adds to the not-found counter the number of listed
    positions (a name listed twice counts twice) whose name is not flagged,
    and fails exactly when the counter then equals the length of the list.
    Entered with the counter at zero it fails exactly when no listed name
    is flagged, so also on the empty list. *)
Theorem X16_findSubset_counts_positions names co w :
  exists r,
    findSubset names (co, w)
    = Some (r, (set_notFound (notFound co + Z.of_nat (length (missing co names))) co, w)) /\
    (r = Err ErrNoneFound <->
       notFound co + Z.of_nat (length (missing co names)) = Z.of_nat (length names)) /\
    (r = Err ErrNoneFound \/ r = Ok tt) /\
    (notFound co = 0 ->
       (r = Err ErrNoneFound <-> forall s, s ∈ names -> subsetFlag co s = false)).
Proof.
  rewrite findSubset_spec.
  destruct (Z.eqb_spec (notFound co + Z.of_nat (length (missing co names)))
              (Z.of_nat (length names))) as [Heq|Hneq].
  - exists (Err ErrNoneFound). split; [done|]. split; [done|]. split; [by left|].
    intros H0. split; [|done]. intros _. apply missing_all. lia.
  - exists (Ok tt). split; [done|]. split; [split; [done|lia]|]. split; [by right|].
    intros H0. split; [done|]. intros Hall. exfalso. apply Hneq.
    apply missing_all in Hall. lia.
Qed.

Lemma keptb_kept co path : keptb co path = true <-> kept co path.
Proof.
  unfold keptb, kept. destruct (subset co); [|done].
  by rewrite bool_decide_eq_true.
Qed.

Lemma saveDeployedFile_eq path content co w :
  saveDeployedFile path content (co, w) =
  if keptb co path
  then if writeFile (written w) (pathJoin (outputDir co) (ReplaceBackslash path)) content
       then Some (Ok tt, (co, {| requests := requests w;
                                 written := written w ++
                                   [(pathJoin (outputDir co) (ReplaceBackslash path),
                                     content)] |}))
       else Some (Err (ErrWrite (pathJoin (outputDir co) (ReplaceBackslash path))),
                  (co, w))
  else Some (Ok tt, (co, w)).
Proof.
  unfold saveDeployedFile, keptb. fold (entryName path).
  destruct (subset co) as [m|]; [|reflexivity].
  destruct (m !! entryName path) eqn:E.
  - rewrite bool_decide_eq_false_2 by done.
    by rewrite bool_decide_eq_true_2 by eauto.
  - rewrite bool_decide_eq_true_2 by done.
    rewrite bool_decide_eq_false_2; [done|]. by intros [? ?].
Qed.

Lemma saveLoop_exact entries co w :
  exists r w',
    saveLoop entries (co, w) = Some (r, (co, w')) /\
    requests w' = requests w /\
    ((r = Ok tt /\ written w' = (written w ++ savedOf co entries)%list) \/
     (exists done path d pending,
        entries = (done ++ (path, d) :: pending)%list /\
        keptb co path = true /\
        written w' = (written w ++ savedOf co done)%list /\
        writeFile (written w') (savedAs co path d).1 (Content d) = false /\
        r = Err (ErrWrite (savedAs co path d).1))).
Proof.
  revert w. induction entries as [|[path d] rest IH]; intros w; simpl.
  - exists (Ok tt), w. split; [done|]. split; [done|]. left.
    split; [done|]. unfold savedOf. simpl. by rewrite app_nil_r.
  - unfold bind. rewrite saveDeployedFile_eq.
    destruct (keptb co path) eqn:Hk.
    + destruct (writeFile _ _ _) eqn:Hw.
      * destruct (IH {| requests := requests w;
                         written := written w ++
                           [(pathJoin (outputDir co) (ReplaceBackslash path), Content d)] |})
          as (r & w' & Hrun & Hreq & Hres).
        exists r, w'. split; [exact Hrun|]. split; [exact Hreq|].
        simpl in Hres.
        destruct Hres as [[-> Hwr]|(done & p & d0 & pending & -> & Hkp & Hwr & Hfail & ->)].
        -- left. split; [done|]. rewrite Hwr. unfold savedOf. simpl. rewrite Hk.
           simpl. by rewrite <- app_assoc.
        -- right. exists ((path, d) :: done), p, d0, pending.
           split; [done|]. split; [done|]. split; [|done].
           rewrite Hwr. unfold savedOf. simpl. rewrite Hk. simpl.
           by rewrite <- app_assoc.
      * exists (Err (ErrWrite (pathJoin (outputDir co) (ReplaceBackslash path)))), w.
        split; [done|]. split; [done|]. right.
        exists [], path, d, rest. split; [done|]. split; [done|].
        split; [unfold savedOf; simpl; by rewrite app_nil_r|]. done.
    + destruct (IH w) as (r & w' & Hrun & Hreq & Hres).
      exists r, w'. split; [exact Hrun|]. split; [exact Hreq|].
      destruct Hres as [[-> Hwr]|(done & p & d0 & pending & -> & Hkp & Hwr & Hfail & ->)].
      * left. split; [done|]. rewrite Hwr. unfold savedOf. simpl. by rewrite Hk.
      * right. exists ((path, d) :: done), p, d0, pending.
        split; [done|]. split; [done|]. split; [|done].
        rewrite Hwr. unfold savedOf. simpl. by rewrite Hk.
Qed.

(** [saveAllDeployedFiles] on the entries in the order they are walked. *)
Lemma saveAllDeployedFiles_exact co w :
  exists entries r w',
    entries ≡ₚ map_to_list (deployedFiles co) /\
    saveAllDeployedFiles (co, w) = Some (r, (co, w')) /\
    requests w' = requests w /\
    ((r = Ok tt /\ written w' = (written w ++ savedOf co entries)%list) \/
     (exists done path d pending,
        entries = (done ++ (path, d) :: pending)%list /\
        keptb co path = true /\
        written w' = (written w ++ savedOf co done)%list /\
        writeFile (written w') (savedAs co path d).1 (Content d) = false /\
        r = Err (ErrWrite (savedAs co path d).1))).
Proof.
  exists (rangeOrder _ (map_to_list (deployedFiles co))).
  destruct (saveLoop_exact (rangeOrder _ (map_to_list (deployedFiles co))) co w)
    as (r & w' & Hrun & Hreq & Hres).
  exists r, w'. split; [apply rangeOrder_perm|]. split; [exact Hrun|]. done.
Qed.

(** X17.  [saveAllDeployedFiles] never changes the session and sends no
    request.  Walking the entries of the result mapping in some order, it
    returns nil after writing exactly the entries that the filter keeps
    (all of them without a filter), each once, in that order; or it stops
    at the first write that fails, with the kept entries before it written
    and none after it.  Every file it writes is an entry of the result
    mapping, under the output directory. *)
Theorem X17_saveAll_writes_the_kept_entries co w :
  exists entries r w',
    entries ≡ₚ map_to_list (deployedFiles co) /\
    saveAllDeployedFiles (co, w) = Some (r, (co, w')) /\
    requests w' = requests w /\
    ((r = Ok tt /\ written w' = (written w ++ savedOf co entries)%list) \/
     (exists done path d pending,
        entries = (done ++ (path, d) :: pending)%list /\
        keptb co path = true /\
        written w' = (written w ++ savedOf co done)%list /\
        writeFile (written w') (savedAs co path d).1 (Content d) = false /\
        r = Err (ErrWrite (savedAs co path d).1))) /\
    (forall x, x ∈ savedOf co entries ->
       exists path d, deployedFiles co !! path = Some d /\ kept co path /\
                      x = (pathJoin (outputDir co) (ReplaceBackslash path), Content d)).
Proof.
  destruct (saveAllDeployedFiles_exact co w)
    as (entries & r & w' & Hperm & Hrun & Hreq & Hres).
  exists entries, r, w'. split; [exact Hperm|]. split; [exact Hrun|].
  split; [exact Hreq|]. split; [exact Hres|].
  intros x Hx. unfold savedOf in Hx.
  apply list_elem_of_fmap in Hx as ([path d] & -> & Hin).
  apply list_elem_of_In, filter_In in Hin as [Hin Hk].
  apply list_elem_of_In in Hin. rewrite Hperm in Hin.
  apply elem_of_map_to_list in Hin. simpl in *.
  exists path, d. split; [done|]. split; [by apply keptb_kept|]. done.
Qed.

End SessionSteps.

(** ** Further properties of the public operations *)

Section Api.
Context `{env : Env}.
Import PathFacts.

(** X18.  [isManifest] is a test on the end of the name: it holds exactly
    of the names that end in [.manifest], the bare [.manifest] included;
    and an entry with such a name is fetched at its own URL whatever the
    hint, never with the [.deploy] suffix. *)
Theorem X18_isManifest_is_a_suffix_test name :
  (isManifest name = true <-> exists stem, name = stem ++ ".manifest") /\
  isManifest name = HasSuffix name ".manifest" /\
  forall file suffix,
    Base (urlPath (url file)) = name -> isManifest name = true ->
    candidateUrl file suffix = urlString (url file).
Proof.
  assert (Hiff : isManifest name = true <-> exists stem, name = stem ++ ".manifest").
  { unfold isManifest, manifestExtension. rewrite String.eqb_eq. split.
    - intros Hext. destruct (Ext_split name) as (stem & Hname & _).
      exists stem. by rewrite <- Hext.
    - intros [stem ->]. by apply (Ext_append stem "manifest"). }
  split; [exact Hiff|]. split.
  - destruct (HasSuffix name ".manifest") eqn:Hs.
    + apply Hiff. exists (TrimSuffix name ".manifest").
      unfold TrimSuffix. rewrite Hs. unfold HasSuffix in Hs.
      apply andb_true_iff in Hs as [Hle Heq].
      apply Nat.leb_le in Hle. apply String.eqb_eq in Heq.
      rewrite <- Heq at 2. clear Heq.
      generalize dependent (String.length ".manifest"). intros k Hle.
      assert (Hsplit : forall (s : string) (n : nat), (n <= String.length s)%nat ->
                s = String.substring 0 n s ++ String.substring n (String.length s - n) s).
      { induction s as [|c s IH]; intros [|n] Hn; simpl in *; try lia.
        - reflexivity.
        - by rewrite substring_all.
        - rewrite append_cons. f_equal. apply IH. lia. }
      rewrite (Hsplit name (String.length name - k)%nat) at 1 by lia.
      do 2 f_equal. lia.
    + apply not_true_is_false. intros Hm. apply Hiff in Hm as [stem ->].
      by rewrite HasSuffix_append in Hs.
  - intros file suffix <- Hm. unfold candidateUrl. rewrite Hm.
    by rewrite andb_false_r.
Qed.

(** The end of [Get] when no output directory is set: nothing is written. *)
Lemma conclusion_no_dir names co2 w2 r s' :
  outputDir co2 = "" ->
  (modify (set_notFound 0);;
   findSubset names;;
   (do co <- getCo;
    if negb (String.eqb (outputDir co) "") then saveAllDeployedFiles else ret tt);;
   do co <- getCo;
   if negb (notFound co =? 0) then fail ErrNotAllFound else ret tt)%go (co2, w2)
  = Some (r, s') ->
  s'.2 = w2.
Proof.
  intros Hd. unfold bind at 1. unfold modify. simpl.
  unfold bind at 1. rewrite findSubset_spec.
  destruct (_ =? _); [by intros [= _ <-]|].
  unfold bind, getCo. simpl. rewrite Hd. simpl.
  destruct (negb _); by intros [= _ <-].
Qed.

Lemma conclusion_all_no_dir co2 w2 r s' :
  outputDir co2 = "" ->
  (modify (set_notFound 0);;
   ret tt;;
   (do co <- getCo;
    if negb (String.eqb (outputDir co) "") then saveAllDeployedFiles else ret tt);;
   do co <- getCo;
   if false && negb (notFound co =? 0) then fail ErrNotAllFound else ret tt)%go (co2, w2)
  = Some (r, s') ->
  r = Ok tt /\ s' = (set_notFound 0 co2, w2).
Proof.
  intros Hd. unfold bind, modify, getCo, ret. simpl. rewrite Hd. simpl.
  by intros [= <- <-].
Qed.

(** What a run of visits leaves as it is. *)
Lemma visits_frame s s' :
  rtc visit s s' ->
  assembly s'.1 = assembly s.1 /\ outputDir s'.1 = outputDir s.1 /\
  offline s'.1 = offline s.1 /\
  deployedFiles s.1 ⊆ deployedFiles s'.1 /\
  (initialized s.1 -> initialized s'.1) /\
  (exists sent, requests s'.2 = (requests s.2 ++ sent)%list) /\
  written s'.2 = written s.2.
Proof.
  intros Hv. destruct (visits_fields _ _ Hv) as (Ho & Ha & Hoff).
  destruct (visits_world _ _ Hv) as [Hw Hr].
  split; [done|]. split; [done|]. split; [done|].
  split; [by apply visits_deployedFiles|].
  split; [by apply visits_initialized|]. done.
Qed.

(** What every run of [Get] leaves as it is. *)
Lemma Get_frame fuel names co w r co' w' :
  Get fuel names (co, w) = Some (r, (co', w')) ->
  assembly co' = assembly co /\ outputDir co' = outputDir co /\
  offline co' = offline co /\
  deployedFiles co ⊆ deployedFiles co' /\
  (initialized co -> initialized co') /\
  (exists sent, requests w' = (requests w ++ sent)%list) /\
  (exists new, written w' = (written w ++ new)%list) /\
  (outputDir co = "" -> written w' = written w) /\
  (offline co = true ->
   requests w' = requests w /\ deployedFiles co' = deployedFiles co).
Proof.
  intros Hrun.
  assert (Hnil : forall l : list string, l = (l ++ [])%list)
    by (intros; by rewrite app_nil_r).
  assert (Hnilw : forall l : list (string * list byte), l = (l ++ [])%list)
    by (intros; by rewrite app_nil_r).
  destruct (classic_initialized co) as [Hi|Hni].
  2:{ rewrite Get_not_initialized in Hrun by done. injection Hrun as _ <- <-.
      repeat split; eauto. }
  destruct (decide (names = [])) as [->|Hne].
  - rewrite Get_all_stages in Hrun by done.
    assert (Hmid : exists co2 w2,
      rtc visit (co, w) (co2, w2) /\
      (offline co = true -> (co2, w2) = (co, w)) /\
      (modify (set_notFound 0);;
       ret tt;;
       (do co <- getCo;
        if negb (String.eqb (outputDir co) "") then saveAllDeployedFiles else ret tt);;
       do co <- getCo;
       if false && negb (notFound co =? 0) then fail ErrNotAllFound else ret tt)%go
        (co2, w2) = Some (r, (co', w'))).
    { destruct (offline co).
      - exists co, w. split; [apply rtc_refl|]. done.
      - destruct (assembly co) as [a|]; [|discriminate].
        destruct (retrieveAllDeployedFiles fuel a (co, w)) as [[r2 [co2 w2]]|] eqn:Hmid;
          [|discriminate].
        apply retrieveAllDeployedFiles_visits in Hmid as [Hv ->].
        exists co2, w2. done. }
    destruct Hmid as (co2 & w2 & Hv & Hoff & Htail).
    destruct (visits_frame _ _ Hv) as (Ha & Ho & Hof & Hsub & Hinit & [sent Hsent] & Hwr).
    simpl in Ha, Ho, Hof, Hsub, Hinit, Hsent, Hwr.
    destruct (Get_conclusion_all co2 w2) as (r' & new & Heq & _).
    pose proof Htail as Htail'. rewrite Heq in Htail'. injection Htail' as _ <- <-.
    simpl. split; [done|]. split; [done|]. split; [done|]. split; [done|].
    split; [exact Hinit|]. split; [eauto|]. split; [exists new; by rewrite Hwr|].
    split.
    + intros Hd. rewrite Hd in Ho.
      apply conclusion_all_no_dir in Htail as [_ Hs']; [|done].
      apply (f_equal (fun s => written s.2)) in Hs'. simpl in Hs'.
      by rewrite Hs'.
    + intros Hon. specialize (Hoff Hon). by injection Hoff as -> ->.
  - destruct (decide ("" ∈ names)) as [Hin|Hvalid].
    + destruct (Get_invalid_subset fuel names co w Hi Hin) as [m' Hrun'].
      rewrite Hrun' in Hrun. injection Hrun as _ <- <-. simpl.
      repeat split; eauto; apply Hi.
    + rewrite Get_subset_middle in Hrun by done.
      destruct (middle fuel names co w) as [[r2 [co2 w2]]|] eqn:Hmid; [|discriminate].
      assert (Hv : exists m1 co1,
        co1 = set_subset (Some m1) co /\
        ((offline co = false /\ rtc visit (co1, w) (co2, w2)) \/
         (offline co = true /\ w2 = w /\ exists m2, co2 = set_subset (Some m2) co))).
      { unfold middle in Hmid. exists (freshSubset names ∅). eexists. split; [done|].
        destruct (offline co).
        - right. split; [done|].
          destruct (checkDownload_spec (set_subset (Some (freshSubset names ∅)) co) w
                      (freshSubset names ∅) eq_refl) as (mc & Hc & _).
          rewrite Hc in Hmid. injection Hmid as _ <- <-. split; [done|].
          exists mc. apply set_subset_set_subset.
        - left. split; [done|]. destruct (assembly co); [|done].
          by apply retrieveAllDeployedFiles_visits in Hmid as [Hv _]. }
      pose proof (middle_spec _ _ _ _ _ _ _ Hmid) as [-> _].
      destruct (Get_conclusion names co2 w2) as (r' & new & Heq & _).
      pose proof Hrun as Htail. rewrite Heq in Hrun. injection Hrun as _ <- <-.
      assert (Hfr :
        assembly co2 = assembly co /\ outputDir co2 = outputDir co /\
        offline co2 = offline co /\ deployedFiles co ⊆ deployedFiles co2 /\
        initialized co2 /\
        (exists sent, requests w2 = (requests w ++ sent)%list) /\
        written w2 = written w /\
        (offline co = true -> requests w2 = requests w /\
                              deployedFiles co2 = deployedFiles co)).
      { destruct Hv as (m1 & co1 & -> & [[Hoff Hv]|(Hoff & -> & m2 & ->)]).
        - destruct (visits_frame _ _ Hv)
            as (Ha & Ho & Hof & Hsub & Hinit & Hsent & Hwr).
          simpl in Ha, Ho, Hof, Hsub, Hinit, Hsent, Hwr.
          split; [done|]. split; [done|]. split; [done|]. split; [done|].
          split; [by apply Hinit|]. split; [done|]. split; [done|].
          intros Hon. congruence.
        - simpl. repeat split; eauto; apply Hi. }
      destruct Hfr as (Ha & Ho & Hof & Hsub & Hinit & Hsent & Hwr & Hoff).
      simpl. split; [done|]. split; [done|]. split; [done|]. split; [done|].
      split; [by intros _|]. split; [done|]. split; [exists new; by rewrite Hwr|].
      split; [|done].
      intros Hd. rewrite Hd in Ho.
      apply conclusion_no_dir in Htail; [|done].
      apply (f_equal written) in Htail. simpl in Htail. by rewrite Htail.
Qed.

(** X19.  Whatever the subset and however it ends, [Get] leaves the root
    assembly, the output directory and the offline mark as they are, only
    adds entries to the result mapping, only adds to the requests sent and
    to the files written, and writes nothing when no output directory is
    set; a session that was initialized still is.  On a session that is not
    initialized it returns the not-initialized error and touches nothing,
    not even the filter. *)
Theorem X19_Get_frame fuel names co w r co' w' :
  Get fuel names (co, w) = Some (r, (co', w')) ->
  (assembly co' = assembly co /\ outputDir co' = outputDir co /\
   offline co' = offline co) /\
  deployedFiles co ⊆ deployedFiles co' /\
  (exists sent new,
     requests w' = (requests w ++ sent)%list /\
     written w' = (written w ++ new)%list /\
     (outputDir co = "" -> new = [])) /\
  (initialized co -> initialized co') /\
  (~ initialized co -> r = Err ErrNotInitialized /\ co' = co /\ w' = w).
Proof.
  intros Hrun.
  destruct (Get_frame _ _ _ _ _ _ _ Hrun)
    as (Ha & Ho & Hof & Hsub & Hinit & [sent Hsent] & [new Hnew] & Hnodir & _).
  split; [done|]. split; [done|]. split; [|split; [done|]].
  - exists sent, new. split; [done|]. split; [done|].
    intros Hd. specialize (Hnodir Hd). rewrite Hnodir in Hnew.
    rewrite <- (app_nil_r (written w)) in Hnew at 1.
    by apply app_inv_head in Hnew.
  - intros Hni. rewrite Get_not_initialized in Hrun by done.
    by injection Hrun as <- <- <-.
Qed.

(** X20.  [GetAll] marks the session offline exactly when [Get] returned
    nil, and otherwise returns the error of [Get] with the mark as it was.
    After a [GetAll] that returned nil, any further [GetAll] or [Get] sends
    no request and leaves the result mapping as it is: what was not
    downloaded by then (entries past a failing one) is never fetched. *)
Theorem X20_GetAll_downloads_once fuel co w r co' w' :
  GetAll fuel (co, w) = Some (r, (co', w')) ->
  (r = Ok tt -> offline co' = true) /\
  (r <> Ok tt -> offline co' = offline co) /\
  (r = Ok tt ->
   forall fuel2 names r2 co2 w2,
     (Get fuel2 names (co', w') = Some (r2, (co2, w2)) \/
      GetAll fuel2 (co', w') = Some (r2, (co2, w2))) ->
     requests w2 = requests w' /\ deployedFiles co2 = deployedFiles co' /\
     offline co2 = true).
Proof.
  rewrite GetAll_run.
  destruct (Get fuel [] (co, w)) as [[[[]|e] [co1 w1]]|] eqn:Hget; [| |discriminate].
  - intros [= <- <- <-]. split; [done|]. split; [done|]. intros _.
    intros fuel2 names r2 co2 w2 [Hrun|Hrun].
    + destruct (Get_frame _ _ _ _ _ _ _ Hrun) as (_ & _ & Hof & _ & _ & _ & _ & _ & Hoff).
      destruct (Hoff eq_refl) as [Hr Hd]. by rewrite Hof.
    + rewrite GetAll_run in Hrun.
      destruct (Get fuel2 [] _) as [[[[]|e2] [co3 w3]]|] eqn:Hget2; [| |discriminate].
      * injection Hrun as _ <- <-.
        destruct (Get_frame _ _ _ _ _ _ _ Hget2) as (_ & _ & _ & _ & _ & _ & _ & _ & Hoff).
        destruct (Hoff eq_refl) as [Hr Hd]. done.
      * injection Hrun as _ <- <-.
        destruct (Get_frame _ _ _ _ _ _ _ Hget2)
          as (_ & _ & Hof & _ & _ & _ & _ & _ & Hoff).
        destruct (Hoff eq_refl) as [Hr Hd]. by rewrite Hof.
  - intros [= <- <- <-]. split; [done|]. split; [|done]. intros _.
    by destruct (Get_frame _ _ _ _ _ _ _ Hget) as (_ & _ & Hof & _).
Qed.

(** X25.  A [Get] with a subset of non-empty names records nothing but
    manifests and entries whose bare name is listed; the filter it leaves
    has every listed name as a key, no key that is neither listed nor the
    name of a manifest, and flags only names of entries that are in the
    result mapping; and each file it writes is an entry of the result
    mapping whose bare name is listed or is the name of a manifest. *)
Theorem X25_filtered_get_takes_members_and_manifests fuel names co w r co' w' :
  initialized co -> names <> [] -> ("" ∉ names) ->
  Get fuel names (co, w) = Some (r, (co', w')) ->
  (forall path, is_Some (deployedFiles co' !! path) ->
     is_Some (deployedFiles co !! path)
     \/ isManifest (entryName path) = true \/ entryName path ∈ names) /\
  (exists m', subset co' = Some m' /\
     (forall s, s ∈ names -> is_Some (m' !! s)) /\
     (forall n, is_Some (m' !! n) -> n ∈ names \/ isManifest n = true) /\
     (forall n, m' !! n = Some true -> present (deployedFiles co') n)) /\
  (exists new, written w' = (written w ++ new)%list /\
     forall x, x ∈ new ->
       exists path d, deployedFiles co' !! path = Some d /\
                      x = (pathJoin (outputDir co') (ReplaceBackslash path), Content d) /\
                      (entryName path ∈ names \/ isManifest (entryName path) = true)).
Proof.
  intros Hi Hne Hvalid Hrun.
  destruct (Get_subset_run _ _ _ _ _ _ _ Hi Hne Hvalid Hrun)
    as (co2 & w2 & new & Hmid & -> & -> & Hnew & _).
  destruct (middle_spec _ _ _ _ _ _ _ Hmid)
    as (_ & _ & _ & Hwr & _ & (m2 & Hm2 & Hkeys & Honly & Hflag & _) & Hrec & _).
  simpl. split; [exact Hrec|]. split; [by exists m2|].
  exists new. split; [by rewrite Hwr|].
  intros x Hx. destruct (Hnew x Hx) as (path & d & Hd & Hk & ->).
  exists path, d. split; [done|]. split; [done|].
  unfold kept in Hk. rewrite Hm2 in Hk. by apply Honly.
Qed.

End Api.

(** ** [Init] and what follows it *)

Section Initialisation.
Context `{env : Env}.
Variable requestUrl : list string -> string -> URL.

(** What [Init] never touches, and the one request it sends. *)
Lemma Init_frame appUrl co w :
  let s' := (Init requestUrl appUrl (co, w)).2 in
  deployedFiles s'.1 = deployedFiles co /\ subset s'.1 = subset co /\
  outputDir s'.1 = outputDir co /\ noSuffix s'.1 = noSuffix co /\
  offline s'.1 = offline co /\ notFound s'.1 = notFound co /\
  written s'.2 = written w /\
  requests s'.2 = (if String.eqb appUrl "" then requests w
                   else requests w ++ [appUrl])%list.
Proof.
  unfold Init, download. destruct (String.eqb appUrl ""); [done|].
  destruct (httpGet (requests w) appUrl) as [|status [content|]]; [done| |];
    (destruct (status =? StatusNotFound); [done|]); [|done].
  destruct (Nat.eqb (length content) 0); [done|].
  by destruct (decodeManifest content).
Qed.

(** X21.  [Init] returns nil exactly when the URL is not empty and the
    one request it sends is answered, with a status other than 404, by a
    body that is not empty and decodes as a manifest; the session is then
    initialized on that manifest, with the URL of the answered request as
    its base.  In every case [Init] writes no file and leaves the result
    mapping, the filter, the output directory, the suffix knowledge, the
    offline mark and the counter as they were. *)
Theorem X21_Init_succeeds_iff appUrl co w :
  let r := (Init requestUrl appUrl (co, w)).1 in
  let co' := (Init requestUrl appUrl (co, w)).2.1 in
  let w' := (Init requestUrl appUrl (co, w)).2.2 in
  (r = None <->
     appUrl <> "" /\
     exists status content a,
       httpGet (requests w) appUrl = Response status (Some content) /\
       status <> StatusNotFound /\ content <> [] /\ xmlDecode content = Some a) /\
  (r = None ->
     initialized co' /\
     baseUrl co' = Some (requestUrl (requests w) appUrl) /\
     exists status content,
       httpGet (requests w) appUrl = Response status (Some content) /\
       xmlDecode content = assembly co') /\
  (deployedFiles co' = deployedFiles co /\ subset co' = subset co /\
   outputDir co' = outputDir co /\ noSuffix co' = noSuffix co /\
   offline co' = offline co /\ notFound co' = notFound co) /\
  written w' = written w /\
  (appUrl = "" -> r = Some ErrMissingUrl /\ co' = co /\ w' = w) /\
  (appUrl <> "" -> requests w' = (requests w ++ [appUrl])%list).
Proof.
  intros r co' w'.
  pose proof (Init_frame appUrl co w) as (Hd & Hs & Ho & Hn & Hoff & Hnf & Hw & Hr).
  fold co' w' in Hd, Hs, Ho, Hn, Hoff, Hnf, Hw, Hr.
  assert (Hcases :
    (appUrl = "" /\ r = Some ErrMissingUrl /\ co' = co /\ w' = w) \/
    (appUrl <> "" /\
     ((r <> None /\
       ~ exists status content a,
           httpGet (requests w) appUrl = Response status (Some content) /\
           status <> StatusNotFound /\ content <> [] /\ xmlDecode content = Some a) \/
      (r = None /\
       exists status content a,
         httpGet (requests w) appUrl = Response status (Some content) /\
         status <> StatusNotFound /\ content <> [] /\ xmlDecode content = Some a /\
         assembly co' = Some a /\
         baseUrl co' = Some (requestUrl (requests w) appUrl))))).
  { subst r co' w'. unfold Init, download, decodeManifest.
    destruct (String.eqb_spec appUrl "") as [->|Hne]; [by left|]. right.
    split; [done|].
    destruct (httpGet (requests w) appUrl) as [|status [content|]] eqn:Hget.
    - left. split; [done|]. by intros (? & ? & ? & ? & _).
    - destruct (Z.eqb_spec status StatusNotFound) as [H404|H404].
      { left. split; [done|]. intros (? & ? & ? & [= <- <-] & ? & _). done. }
      destruct content as [|c content].
      { left. split; [done|]. intros (? & ? & ? & [= <- <-] & _ & ? & _). done. }
      simpl. destruct (xmlDecode (c :: content)) as [a|] eqn:Hdec.
      + right. split; [done|]. exists status, (c :: content), a. simpl. done.
      + left. split; [done|]. intros (? & ? & ? & [= <- <-] & _ & _ & ?). congruence.
    - left. destruct (status =? StatusNotFound);
        (split; [done|]); by intros (? & ? & ? & ? & _). }
  split; [|split; [|split; [done|split; [done|split]]]].
  - split.
    + intros Hnone.
      destruct Hcases as [(_ & Hr' & _)|(Hne & [[Hr' _]|(_ & st & c & a & H)])];
        [congruence|done|].
      split; [done|]. exists st, c, a. tauto.
    + intros [Hne Hex].
      destruct Hcases as [(He & _)|(_ & [[_ Hno]|(Hr' & _)])]; done.
  - intros Hnone.
    destruct Hcases as [(_ & Hr' & _)|(Hne & [[Hr' _]|(_ & st & c & a & H)])];
      [congruence|done|].
    destruct H as (Hget & _ & _ & Hdec & Ha & Hb).
    split; [split; congruence|]. split; [done|]. exists st, c. split; congruence.
  - intros He. destruct Hcases as [(_ & ? & ? & ?)|(Hne & _)]; done.
  - intros Hne. rewrite Hr. by destruct (String.eqb_spec appUrl "").
Qed.

(** X22.  A manifest that does not decode un-initializes the session:
    [Init] has by then put nil where the root assembly was, so on a session
    that was initialized every later [Get] fails with the not-initialized
    error and sends nothing, although the base URL and the results of the
    earlier application are still there.  The failures of [Init] before the
    decoding leave the session exactly as it was. *)
Theorem X22_undecodable_application_uninitializes appUrl co w status content :
  appUrl <> "" ->
  httpGet (requests w) appUrl = Response status (Some content) ->
  status <> StatusNotFound ->
  content <> [] ->
  xmlDecode content = None ->
  let s' := (Init requestUrl appUrl (co, w)).2 in
  (Init requestUrl appUrl (co, w)).1 = Some (ErrInit ErrDecode) /\
  assembly s'.1 = None /\ baseUrl s'.1 = baseUrl co /\
  deployedFiles s'.1 = deployedFiles co /\
  (forall fuel names, Get fuel names s' = Some (Err ErrNotInitialized, s')) /\
  (forall appUrl2,
     (Init requestUrl appUrl2 (co, w)).1 <> None ->
     (Init requestUrl appUrl2 (co, w)).1 <> Some (ErrInit ErrDecode) ->
     (Init requestUrl appUrl2 (co, w)).2.1 = co).
Proof.
  intros Hne Hget H404 Hcontent Hdec s'.
  assert (Hrun : Init requestUrl appUrl (co, w)
                 = (Some (ErrInit ErrDecode),
                    (set_assembly None co,
                     {| requests := requests w ++ [appUrl]; written := written w |}))).
  { unfold Init, download, decodeManifest.
    rewrite (proj2 (String.eqb_neq _ _) Hne), Hget, (proj2 (Z.eqb_neq _ _) H404).
    destruct content as [|c content]; [done|]. simpl. by rewrite Hdec. }
  subst s'. rewrite Hrun. simpl.
  split; [done|]. split; [done|]. split; [done|]. split; [done|]. split.
  - intros fuel names. apply Get_not_initialized. intros [_ Ha]. by apply Ha.
  - intros appUrl2. unfold Init, download, decodeManifest.
    destruct (String.eqb appUrl2 ""); [done|].
    destruct (httpGet (requests w) appUrl2) as [|status2 [content2|]]; [done| |];
      (destruct (status2 =? StatusNotFound); [done|]); [|done].
    destruct (Nat.eqb (length content2) 0); [done|].
    destruct (xmlDecode content2); simpl; done.
Qed.

(** X23.  [Init] resets nothing: on a session that [GetAll] has marked
    offline, a second [Init], on whatever application, leaves the mark and
    the result mapping, so the [Get] and [GetAll] that follow send no
    request and still answer with the entries of the first application,
    none of the new one. *)
Theorem X23_second_Init_keeps_the_first_results appUrl co w co1 w1 :
  offline co = true ->
  Init requestUrl appUrl (co, w) = (None, (co1, w1)) ->
  offline co1 = true /\ DeployedFiles co1 = DeployedFiles co /\
  forall fuel names r co2 w2,
    (Get fuel names (co1, w1) = Some (r, (co2, w2)) \/
     GetAll fuel (co1, w1) = Some (r, (co2, w2))) ->
    requests w2 = requests w1 /\ DeployedFiles co2 = DeployedFiles co.
Proof.
  intros Hoff Hinit.
  pose proof (Init_frame appUrl co w) as (Hd & _ & _ & _ & Hoff1 & _).
  rewrite Hinit in Hd, Hoff1. simpl in Hd, Hoff1. rewrite Hoff in Hoff1.
  unfold DeployedFiles. split; [done|]. split; [done|].
  intros fuel names r co2 w2 [Hrun|Hrun].
  - destruct (Get_frame _ _ _ _ _ _ _ Hrun) as (_ & _ & _ & _ & _ & _ & _ & _ & Hstay).
    destruct (Hstay Hoff1) as [Hr Hd2]. split; [done|]. congruence.
  - rewrite GetAll_run in Hrun.
    destruct (Get fuel [] (co1, w1)) as [[[[]|e] [co3 w3]]|] eqn:Hget; [| |discriminate];
      injection Hrun as _ <- <-;
      destruct (Get_frame _ _ _ _ _ _ _ Hget) as (_ & _ & _ & _ & _ & _ & _ & _ & Hstay);
      destruct (Hstay Hoff1) as [Hr Hd2]; (split; [done|]); simpl; congruence.
Qed.

(** X24.  [SetOutputDir] changes the output directory and nothing else,
    and it is what decides whether [Get] writes: on an offline session
    without a filter, [Get] with no subset writes nothing while the
    directory is empty, and once a directory is set it writes every entry
    of the result mapping, each once, under that directory, or stops at the
    first write that fails. *)
Theorem X24_SetOutputDir_decides_the_writing fuel dir co w :
  initialized co -> offline co = true -> subset co = None ->
  outputDir co = "" -> dir <> "" ->
  Get fuel [] (co, w) = Some (Ok tt, (set_notFound 0 co, w)) /\
  exists entries r w',
    entries ≡ₚ map_to_list (deployedFiles co) /\
    Get fuel [] (SetOutputDir dir co, w)
      = Some (r, (set_notFound 0 (SetOutputDir dir co), w')) /\
    requests w' = requests w /\
    ((r = Ok tt /\
      written w' = (written w ++
        ((fun e => (pathJoin dir (ReplaceBackslash e.1), Content e.2)) <$> entries))%list)
     \/ exists p, r = Err (ErrWrite p)).
Proof.
  intros Hi Hoff Hsub Hdir Hne. split.
  - rewrite Get_all_stages, Hoff by done.
    unfold bind, modify, getCo, ret. simpl. by rewrite Hdir.
  - assert (Hi' : initialized (SetOutputDir dir co)) by exact Hi.
    rewrite Get_all_stages by done. simpl offline. rewrite Hoff.
    destruct (saveAllDeployedFiles_exact (set_notFound 0 (SetOutputDir dir co)) w)
      as (entries & r & w' & Hperm & Hrun & Hreq & Hres).
    exists entries, r, w'. split; [exact Hperm|].
    unfold bind at 1. unfold modify at 1. simpl.
    unfold bind at 1. unfold ret at 1.
    unfold bind at 1. unfold bind at 1. unfold getCo at 1. simpl.
    rewrite (proj2 (String.eqb_neq _ _) Hne). simpl. rewrite Hrun.
    split; [by destruct r as [[]|e]|]. split; [done|].
    destruct Hres as [[-> Hwr]|(done & path & d & pending & _ & _ & _ & _ & ->)];
      [left|right; eauto].
    split; [done|]. rewrite Hwr. f_equal. unfold savedOf, keptb. simpl. rewrite Hsub.
    clear. induction entries as [|e rest IH]; [done|]. simpl. f_equal. exact IH.
Qed.

End Initialisation.

(** ** The further properties at concrete sessions *)

Module Examples.
Import Demo Scenario Cases.

(** An entry that names md5 is refused with nothing sent. *)
Lemma X3_witness :
  let env := Broken.env in
  let co := (Broken.start).1 in
  let rf := @Build_remoteFile env "http://h/app/old.bin" 4 "AAAA" "md5" in
  skipped co "old.bin" = false /\
  remoteFileInfo (env := env) "http://h/app/old.bin" Broken.md5Entry = Ok rf /\
  ~ supported (algorithm rf) /\
  retrieveDeployedFile (env := env) 2 "old.bin" Broken.md5Entry NonAssemblyFile
    Broken.start
  = Some (Err (ErrUnsupported "md5" "old.bin"), Broken.start).
Proof.
  intros env co rf.
  assert (H1 : skipped co "old.bin" = false) by reflexivity.
  assert (H2 : baseUrl co = Some rootUrl) by reflexivity.
  assert (H3 : urlParse (Env := env) rootUrl (ReplaceBackslash "old.bin")
               = Some "http://h/app/old.bin") by reflexivity.
  assert (H4 : remoteFileInfo (env := env) "http://h/app/old.bin" Broken.md5Entry = Ok rf)
    by reflexivity.
  assert (H5 : ~ supported (algorithm rf)).
  { intros [H|H]; discriminate H. }
  split; [exact H1|]. split; [exact H4|]. split; [exact H5|].
  exact (proj1 (proj2 (X3_unsupported_algorithm_sends_no_request (env := env) 2
                         "old.bin" Broken.md5Entry NonAssemblyFile co
                         (@emptyWorld env) rootUrl "http://h/app/old.bin" rf
                         H1 H2 H3 H4 H5))).
Defined.

(** The suffixed URL of [tool.exe] answers 404: two requests. *)
Lemma X4_witness :
  let env := NoSuffix.env in
  supported (algorithm NoSuffix.tool) /\
  requests (downloadAndCheck NoSuffix.tool true (@emptyWorld env)).1.1
  = ["http://h/app/tool.exe.deploy"; "http://h/app/tool.exe"].
Proof.
  intros env.
  assert (H : supported (algorithm NoSuffix.tool)) by (right; reflexivity).
  split; [exact H|].
  exact (proj2 (X4_one_request_or_two (env := env) NoSuffix.tool true
                  (@emptyWorld env) H)).
Defined.

(** The payload [a.exe] is returned, so it has the declared size and
    digest. *)
Lemma X5_witness :
  let env := Subset.env in
  let file := @Build_remoteFile env "http://h/app/a.exe" 7
                (DigestValue (Hash (entryFor "program"))) "sha256" in
  exists w' suffix' body,
    downloadAndCheck file true (@emptyWorld env) = (w', suffix', Ok body) /\
    size file = Z.of_nat (length body) /\
    digest file = digestOf (algorithm file) body.
Proof.
  intros env file.
  destruct (downloadAndCheck file true (@emptyWorld env)) as [[w' suffix'] [body|e]] eqn:E;
    [|exfalso; vm_compute in E; discriminate E].
  exists w', suffix', body. split; [reflexivity|].
  destruct (X5_returned_body_is_verified (env := env) file true (@emptyWorld env)
              w' suffix' body E) as (_ & _ & Hs & Hd & _).
  split; [exact Hs|exact Hd].
Defined.

(** A file that is served neither with nor without the suffix. *)
Lemma X6_witness :
  let env := NoSuffix.env in
  let file := @Build_remoteFile env "http://h/app/none.bin" 7
                (DigestValue (Hash (entryFor "payload"))) "sha256" in
  supported (algorithm file) /\
  downloadAndCheck file true (@emptyWorld env)
  = ({| requests := ["http://h/app/none.bin.deploy"; "http://h/app/none.bin"];
        written := [] |}, true, Err (ErrNoFile "http://h/app/none.bin")).
Proof.
  intros env file.
  assert (H0 : supported (algorithm file)) by (right; reflexivity).
  assert (H1 : httpGet (Env := env) (requests (@emptyWorld env)) (candidateUrl file true)
               = Response StatusNotFound (Some (bytes "Not Found"))) by reflexivity.
  assert (H2 : httpGet (Env := env)
                 (requests (@emptyWorld env) ++ [candidateUrl file true])
                 (fallbackUrl file true)
               = Response StatusNotFound (Some (bytes "Not Found"))) by reflexivity.
  split; [exact H0|].
  exact (X6_both_not_found (env := env) file true (@emptyWorld env)
           (Some (bytes "Not Found")) (Some (bytes "Not Found")) H0 H1 H2).
Defined.

(** A session that knows the files are served without the suffix. *)
Lemma X7_witness :
  let env := NoSuffix.env in
  let co := set_noSuffix true (NoSuffix.start).1 in
  noSuffix co = true /\
  exists r co' w',
    Get (env := env) 3 [] (co, @emptyWorld env) = Some (r, (co', w')) /\
    noSuffix co' = true.
Proof.
  intros env co.
  assert (H : noSuffix co = true) by reflexivity.
  split; [exact H|].
  destruct (Get (env := env) 3 [] (co, @emptyWorld env)) as [[r [co' w']]|] eqn:E;
    [|exfalso; vm_compute in E; discriminate E].
  exists r, co', w'. split; [reflexivity|].
  exact (proj1 (X7_noSuffix_stays_set (env := env) 3 [] co (@emptyWorld env)
                  r co' w' H E)).
Defined.

(** The traversal of the application with two payloads. *)
Lemma X8_witness :
  let env := Subset.env in
  exists r co' w',
    retrieveAllDeployedFiles (env := env) 5 Subset.root Subset.start
      = Some (r, (co', w')) /\
    r = Ok tt /\ written w' = [] /\ assembly co' = Some Subset.root.
Proof.
  intros env.
  destruct (retrieveAllDeployedFiles (env := env) 5 Subset.root Subset.start)
    as [[r [co' w']]|] eqn:E; [|exfalso; vm_compute in E; discriminate E].
  exists r, co', w'. split; [reflexivity|].
  destruct (X8_traversal_frame (env := env) 5 Subset.root (Subset.start).1
              (Subset.start).2 r co' w' E) as (Hr & Hw & _ & _ & Ha & _).
  split; [exact Hr|]. split; [exact Hw|exact Ha].
Defined.

(** The payload [a.exe], once recorded. *)
Lemma X10_witness :
  let env := Subset.env in
  exists r co' w' d,
    deployedFiles (Subset.start).1 !! "a.exe" = None /\
    retrieveDeployedFile (env := env) 3 "a.exe" (entryFor "program") NonAssemblyFile
      Subset.start = Some (r, (co', w')) /\
    deployedFiles co' !! "a.exe" = Some d /\
    Type_ d = NonAssemblyFile /\
    Strconv.Atoi "7" = inr (Z.of_nat (length (Content d))).
Proof.
  intros env.
  assert (H0 : deployedFiles (Subset.start).1 !! "a.exe" = None) by reflexivity.
  destruct (retrieveDeployedFile (env := env) 3 "a.exe" (entryFor "program")
              NonAssemblyFile Subset.start) as [[r [co' w']]|] eqn:E;
    [|exfalso; vm_compute in E; discriminate E].
  destruct (deployedFiles co' !! "a.exe") as [d|] eqn:Hd;
    [|exfalso; vm_compute in E; injection E as _ <- _; vm_compute in Hd;
      discriminate Hd].
  exists r, co', w', d. split; [exact H0|]. split; [reflexivity|]. split; [exact Hd|].
  destruct (X10_recorded_entry_is_verified (env := env) 3 "a.exe" (entryFor "program")
              NonAssemblyFile (Subset.start).1 (Subset.start).2 r co' w' d H0 E Hd)
    as (Ht & Hs & _).
  split; [exact Ht|exact Hs].
Defined.

(** An entry with an empty path is skipped. *)
Lemma X11_witness :
  let env := Subset.env in
  exists r co' w',
    retrieveDeployedFile (env := env) 3 "" (entryFor "program") NonAssemblyFile
      Subset.start = Some (r, (co', w')) /\
    ((r = Ok tt /\ co' = (Subset.start).1) <-> skipped (Subset.start).1 "" = true).
Proof.
  intros env.
  destruct (retrieveDeployedFile (env := env) 3 "" (entryFor "program")
              NonAssemblyFile Subset.start) as [[r [co' w']]|] eqn:E;
    [|exfalso; vm_compute in E; discriminate E].
  exists r, co', w'. split; [reflexivity|].
  exact (X11_untouched_iff_skipped (env := env) 3 "" (entryFor "program")
           NonAssemblyFile (Subset.start).1 (Subset.start).2 r co' w' E).
Defined.

(** The manifest [x.manifest] verifies but does not decode. *)
Lemma X12_witness :
  let env := Broken.env in
  let co := (Broken.start).1 in
  let rf := @Build_remoteFile env "http://h/app/x.manifest" 4
              (DigestValue (Hash (entryFor "<x/>"))) "sha256" in
  let w1 : World := {| requests := ["http://h/app/x.manifest"]; written := [] |} in
  downloadAndCheck rf (negb (noSuffix co)) (@emptyWorld env)
    = (w1, true, Ok (bytes "<x/>")) /\
  xmlDecode (Env := env) (bytes "<x/>") = None /\
  exists co',
    retrieveDeployedFile (env := env) 2 "x.manifest" (entryFor "<x/>")
      AssemblyDependency Broken.start = Some (Err ErrDecode, (co', w1)) /\
    deployedFiles co' !! "x.manifest"
      = Some {| Type_ := AssemblyDependency; Content := bytes "<x/>" |}.
Proof.
  intros env co rf w1.
  assert (H1 : skipped co "x.manifest" = false) by reflexivity.
  assert (H2 : isManifest (entryName "x.manifest") = true) by reflexivity.
  assert (H3 : baseUrl co = Some rootUrl) by reflexivity.
  assert (H4 : urlParse (Env := env) rootUrl (ReplaceBackslash "x.manifest")
               = Some "http://h/app/x.manifest") by reflexivity.
  assert (H5 : remoteFileInfo (env := env) "http://h/app/x.manifest" (entryFor "<x/>")
               = Ok rf) by reflexivity.
  assert (H6 : downloadAndCheck rf (negb (noSuffix co)) (@emptyWorld env)
               = (w1, true, Ok (bytes "<x/>"))) by reflexivity.
  assert (H7 : xmlDecode (Env := env) (bytes "<x/>") = None) by reflexivity.
  split; [exact H6|]. split; [exact H7|].
  exact (X12_undecodable_manifest_is_recorded (env := env) 2 "x.manifest"
           (entryFor "<x/>") AssemblyDependency co (@emptyWorld env) rootUrl
           "http://h/app/x.manifest" rf w1 true (bytes "<x/>")
           H1 H2 H3 H4 H5 H6 H7).
Defined.

(** A manifest that lists itself: the traversal returns with fuel 3, and
    the same with fuel 50. *)
Lemma X13_witness :
  let env := Cycle.env in
  (remaining Cycle.paths Cycle.start < 3)%nat /\
  exists s',
    retrieveAllDeployedFiles (env := env) 3 Cycle.loop Cycle.start = Some (Ok tt, s') /\
    retrieveAllDeployedFiles (env := env) 50 Cycle.loop Cycle.start = Some (Ok tt, s').
Proof.
  intros env.
  assert (Hdec : forall content a', xmlDecode (Env := env) content = Some a' ->
                   forall p, p ∈ pathsOf a' -> p ∈ Cycle.paths).
  { intros content a' H p Hp.
    change (lookupTable (string_of_list_byte content) [("<loop/>", Cycle.loop)]
            = Some a') in H.
    cbv [lookupTable] in H.
    destruct (String.eqb "<loop/>" (string_of_list_byte content)); [|discriminate H].
    injection H as <-. unfold Cycle.paths. apply elem_of_list_to_set.
    exact Hp. }
  assert (HP : forall p, p ∈ pathsOf Cycle.loop -> p ∈ Cycle.paths).
  { intros p Hp. unfold Cycle.paths. apply elem_of_list_to_set. exact Hp. }
  assert (Hfuel : (remaining Cycle.paths Cycle.start < 3)%nat).
  { vm_compute. lia. }
  split; [exact Hfuel|].
  destruct (X13_traversal_returns_on_finite_graph (env := env) Cycle.paths 3
              Cycle.loop Cycle.start Hdec HP Hfuel) as (s' & Hrun & Hmore).
  exists s'. split; [exact Hrun|]. apply Hmore. lia.
Defined.

(** [Get] of everything on the session with the entry that does not
    parse: no output directory, nothing written. *)
Lemma X19_witness :
  let env := BadSize.env in
  exists r co' w',
    Get (env := env) 5 [] BadSize.start = Some (r, (co', w')) /\
    assembly co' = Some BadSize.root /\ offline co' = false /\
    deployedFiles (BadSize.start).1 ⊆ deployedFiles co'.
Proof.
  intros env.
  destruct (Get (env := env) 5 [] BadSize.start) as [[r [co' w']]|] eqn:E;
    [|exfalso; vm_compute in E; discriminate E].
  exists r, co', w'. split; [reflexivity|].
  destruct (X19_Get_frame (env := env) 5 [] (BadSize.start).1 (BadSize.start).2
              r co' w' E) as ((Ha & _ & Hoff) & Hsub & _).
  split; [exact Ha|]. split; [exact Hoff|exact Hsub].
Defined.

(** [GetAll] on the application with two payloads. *)
Lemma X20_witness :
  let env := Subset.env in
  exists r co' w',
    GetAll (env := env) 5 Subset.start = Some (r, (co', w')) /\
    (r = Ok tt -> offline co' = true) /\
    (r <> Ok tt -> offline co' = false).
Proof.
  intros env.
  destruct (GetAll (env := env) 5 Subset.start) as [[r [co' w']]|] eqn:E;
    [|exfalso; vm_compute in E; discriminate E].
  exists r, co', w'. split; [reflexivity|].
  destruct (X20_GetAll_downloads_once (env := env) 5 (Subset.start).1 (Subset.start).2
              r co' w' E) as (H1 & H2 & _).
  split; [exact H1|exact H2].
Defined.

(** [Init] on a URL that serves something that is no manifest. *)
Lemma X22_witness :
  let env := Broken.env in
  let appUrl := "http://h/app/x.manifest" in
  httpGet (Env := env) [] appUrl = Response 200 (Some (bytes "<x/>")) /\
  xmlDecode (Env := env) (bytes "<x/>") = None /\
  (Init (env := env) sameUrl appUrl Broken.start).1 = Some (ErrInit ErrDecode) /\
  assembly (Init (env := env) sameUrl appUrl Broken.start).2.1 = None.
Proof.
  intros env appUrl.
  assert (H1 : appUrl <> "") by discriminate.
  assert (H2 : httpGet (Env := env) (requests (Broken.start).2) appUrl
               = Response 200 (Some (bytes "<x/>"))) by reflexivity.
  assert (H3 : 200 <> StatusNotFound) by discriminate.
  assert (H4 : bytes "<x/>" <> []) by discriminate.
  assert (H5 : xmlDecode (Env := env) (bytes "<x/>") = None) by reflexivity.
  split; [exact H2|]. split; [exact H5|].
  destruct (X22_undecodable_application_uninitializes (env := env) sameUrl appUrl
              (Broken.start).1 (Broken.start).2 200 (bytes "<x/>") H1 H2 H3 H4 H5)
    as (Hr & Ha & _).
  split; [exact Hr|exact Ha].
Defined.

(** A second [Init] on a session that is marked offline. *)
Lemma X23_witness :
  let env := Subset.env in
  let co := set_offline true (Subset.start).1 in
  offline co = true /\
  exists co1 w1,
    Init (env := env) sameUrl "http://h/app/app.exe.manifest" (co, @emptyWorld env)
      = (None, (co1, w1)) /\
    offline co1 = true /\ DeployedFiles co1 = DeployedFiles co.
Proof.
  intros env co.
  assert (H : offline co = true) by reflexivity.
  split; [exact H|].
  destruct (Init (env := env) sameUrl "http://h/app/app.exe.manifest"
              (co, @emptyWorld env)) as [[e|] [co1 w1]] eqn:E;
    [exfalso; vm_compute in E; discriminate E|].
  exists co1, w1. split; [reflexivity|].
  destruct (X23_second_Init_keeps_the_first_results (env := env) sameUrl
              "http://h/app/app.exe.manifest" co (@emptyWorld env) co1 w1 H E)
    as (H1 & H2 & _).
  split; [exact H1|exact H2].
Defined.

(** An offline session with one entry and no output directory. *)
Lemma X24_witness :
  let env := Subset.env in
  let d := {| Type_ := NonAssemblyFile; Content := bytes "program" |} in
  let co := set_offline true
              (set_deployedFiles {[ "a.exe" := d ]}
                 (@session env rootUrl Subset.root "")) in
  initialized co /\ offline co = true /\ subset co = None /\ outputDir co = "" /\
  Get (env := env) 0 [] (co, @emptyWorld env)
  = Some (Ok tt, (set_notFound 0 co, @emptyWorld env)).
Proof.
  intros env d co.
  assert (H1 : initialized co) by (split; discriminate).
  assert (H2 : offline co = true) by reflexivity.
  assert (H3 : subset co = None) by reflexivity.
  assert (H4 : outputDir co = "") by reflexivity.
  assert (H5 : "out" <> "") by discriminate.
  split; [exact H1|]. split; [exact H2|]. split; [exact H3|]. split; [exact H4|].
  exact (proj1 (X24_SetOutputDir_decides_the_writing (env := env) 0 "out" co
                  (@emptyWorld env) H1 H2 H3 H4 H5)).
Defined.

(** [Get] of one payload of the application with two. *)
Lemma X25_witness :
  let env := Subset.env in
  let names := ["a.exe"] in
  initialized (Subset.start).1 /\ ("" ∉ names) /\
  exists r co' w',
    Get (env := env) 5 names Subset.start = Some (r, (co', w')) /\
    forall path, is_Some (deployedFiles co' !! path) ->
      is_Some (deployedFiles (Subset.start).1 !! path)
      \/ isManifest (entryName path) = true \/ entryName path ∈ names.
Proof.
  intros env names.
  assert (Hi : initialized (Subset.start).1) by (split; discriminate).
  assert (Hv : "" ∉ names).
  { intros H. apply elem_of_cons in H as [H|H]; [discriminate H|].
    by apply elem_of_nil in H. }
  assert (Hne : names <> []) by discriminate.
  split; [exact Hi|]. split; [exact Hv|].
  destruct (Get (env := env) 5 names Subset.start) as [[r [co' w']]|] eqn:E;
    [|exfalso; vm_compute in E; discriminate E].
  exists r, co', w'. split; [reflexivity|].
  exact (proj1 (X25_filtered_get_takes_members_and_manifests (env := env) 5 names
                  (Subset.start).1 (Subset.start).2 r co' w' Hi Hne Hv E)).
Defined.

End Examples.
